(** * react-native-sized-webview: height reconciliation core

    A shallow embedding of the host-side hook [useAutoHeight]
    (src/hooks/useAutoHeight.ts), of the script composer
    [composeInjectedScript] (src/utils/composeInjectedScript.ts) and of the
    in-page measurement bridge [AUTO_HEIGHT_BRIDGE]
    (src/constants/autoHeightBridge.ts, in its variant with the session
    object, the wrapper element and the anomaly guard), with the properties
    of the specification stated and proved over them. *)

From Stdlib Require Import ZArith QArith Qround Qabs Bool List String Ascii Lia Lqa.
Import ListNotations.

Close Scope Q_scope.

Set Implicit Arguments.

(** ** ECMAScript numbers

    A JavaScript number is modelled as an exact rational or one of the three
    non-finite values.  Rounding of IEEE doubles is not modelled: every
    operation the program performs ([Math.ceil], [Math.max], [Math.abs], one
    subtraction, comparisons) is exact on the heights it handles.  The sign
    of zero is not modelled either; no operation below observes it. *)
Module JS.

Inductive number : Type :=
| NaN
| NegInf
| Fin (q : Q)
| PosInf.

Definition num (z : Z) : number := Fin (inject_Z z).

(** [Number.isFinite] / global [isFinite] on a number. *)
Definition isFinite (x : number) : bool :=
  match x with Fin _ => true | _ => false end.

Definition isNaN (x : number) : bool :=
  match x with NaN => true | _ => false end.

(** [x <= y]; every comparison with [NaN] is false. *)
Definition le (x y : number) : bool :=
  match x, y with
  | NaN, _ | _, NaN => false
  | NegInf, _ => true
  | _, PosInf => true
  | Fin a, Fin b => Qle_bool a b
  | Fin _, NegInf => false
  | PosInf, _ => false
  end.

(** [x < y]. *)
Definition lt (x y : number) : bool :=
  match x, y with
  | NaN, _ | _, NaN => false
  | NegInf, NegInf => false
  | NegInf, _ => true
  | PosInf, _ => false
  | Fin a, Fin b => negb (Qle_bool b a)
  | Fin _, PosInf => true
  | Fin _, NegInf => false
  end.

Definition gt (x y : number) : bool := lt y x.
Definition ge (x y : number) : bool := le y x.

(** [x === y] on numbers: [NaN] differs from itself. *)
Definition strict_eq (x y : number) : bool :=
  match x, y with
  | NegInf, NegInf | PosInf, PosInf => true
  | Fin a, Fin b => Qeq_bool a b
  | _, _ => false
  end.

(** [Object.is] on numbers, the comparison React applies to hook
    dependencies: [NaN] is the same value as itself. *)
Definition same_value (x y : number) : bool :=
  match x, y with
  | NaN, NaN => true
  | _, _ => strict_eq x y
  end.

(** Truthiness of a number: [0] and [NaN] are falsy. *)
Definition truthy (x : number) : bool :=
  match x with
  | NaN => false
  | Fin q => negb (Qeq_bool q 0)
  | _ => true
  end.

Definition Math_max (x y : number) : number :=
  match x, y with
  | NaN, _ | _, NaN => NaN
  | PosInf, _ | _, PosInf => PosInf
  | NegInf, v | v, NegInf => v
  | Fin a, Fin b => if Qle_bool a b then Fin b else Fin a
  end.

Definition Math_min (x y : number) : number :=
  match x, y with
  | NaN, _ | _, NaN => NaN
  | NegInf, _ | _, NegInf => NegInf
  | PosInf, v | v, PosInf => v
  | Fin a, Fin b => if Qle_bool a b then Fin a else Fin b
  end.

Definition Math_ceil (x : number) : number :=
  match x with
  | Fin q => Fin (inject_Z (Qceiling q))
  | other => other
  end.

Definition Math_floor (x : number) : number :=
  match x with
  | Fin q => Fin (inject_Z (Qfloor q))
  | other => other
  end.

Definition Math_abs (x : number) : number :=
  match x with
  | NaN => NaN
  | NegInf | PosInf => PosInf
  | Fin q => Fin (Qabs q)
  end.

(** [x - y]. *)
Definition sub (x y : number) : number :=
  match x, y with
  | NaN, _ | _, NaN => NaN
  | Fin a, Fin b => Fin (a - b)
  | PosInf, PosInf | NegInf, NegInf => NaN
  | PosInf, _ | _, NegInf => PosInf
  | NegInf, _ | _, PosInf => NegInf
  end.

(** The values a message handler can be handed ([unknown] in the source). *)
Inductive value : Type :=
| VNumber (x : number)
| VString (s : string)
| VBoolean (b : bool)
| VUndefined
| VNull.

(** The [Number(...)] conversion.  The conversion of strings (the
    StringToNumber operation of the language) belongs to the runtime and is
    taken as a parameter. *)
Definition Number (StringToNumber : string -> number) (v : value) : number :=
  match v with
  | VNumber x => x
  | VString s => StringToNumber s
  | VBoolean b => if b then num 1 else num 0
  | VUndefined => NaN
  | VNull => num 0
  end.

(** A decimal-digit reader, the StringToNumber of the examples: a non-empty
    run of digits is its value, the empty string is [0], anything else is
    [NaN]. *)
Definition digit_of (c : ascii) : option Z :=
  let n := Z.of_nat (nat_of_ascii c) in
  if ((48 <=? n) && (n <=? 57))%Z then Some (n - 48)%Z else None.

Fixpoint digits_value (acc : Z) (s : string) : option Z :=
  match s with
  | EmptyString => Some acc
  | String c rest =>
      match digit_of c with
      | Some d => digits_value (10 * acc + d) rest
      | None => None
      end
  end.

Definition decimal_StringToNumber (s : string) : number :=
  match digits_value 0 s with
  | Some z => num z
  | None => NaN
  end.

End JS.

Import JS.

(** ** The host height reconciler: [useAutoHeight]

    One mounted instance of the hook together with the part of the host
    environment it talks to: the frame queue behind
    [globalThis.requestAnimationFrame] and the calls received by the
    [onHeightChange] callbacks. *)
Module Reconciler.

(** [UseAutoHeightOptions].  The optional callback is represented by its
    identity, so that a closure created in one render can be told from the
    closure of a later render. *)
Record UseAutoHeightOptions : Type := mkOptions {
  minHeight : number;
  onHeightChange : option nat
}.

Definition HEIGHT_DIFF_THRESHOLD : number := num 1.

(** A frame request waiting in the queue: the id handed back by
    [requestAnimationFrame] and the [onHeightChange] captured by the
    [flushPendingHeight] closure that was scheduled. *)
Definition FrameRequest : Type := (nat * option nat)%type.

Record Hook : Type := mkHook {
  options : UseAutoHeightOptions;     (* props of the latest render *)
  mounted : bool;
  height : number;                    (* useState *)
  lastHeightRef : number;
  frameRef : option nat;
  pendingHeightRef : option number;
  (* host environment *)
  hasRequestFrame : bool;             (* typeof requestAnimationFrame === 'function' *)
  hasCancelFrame : bool;              (* typeof cancelAnimationFrame === 'function' *)
  rafQueue : list FrameRequest;       (* requested, neither run nor cancelled *)
  rafCalls : nat;                     (* number of requestAnimationFrame calls *)
  cancelCalls : list nat;             (* arguments of cancelAnimationFrame calls *)
  notified : list (nat * number)      (* calls of onHeightChange, oldest first *)
}.

Definition set_options (o : UseAutoHeightOptions) (s : Hook) : Hook :=
  mkHook o (mounted s) (height s) (lastHeightRef s) (frameRef s)
    (pendingHeightRef s) (hasRequestFrame s) (hasCancelFrame s) (rafQueue s)
    (rafCalls s) (cancelCalls s) (notified s).

Definition set_mounted (b : bool) (s : Hook) : Hook :=
  mkHook (options s) b (height s) (lastHeightRef s) (frameRef s)
    (pendingHeightRef s) (hasRequestFrame s) (hasCancelFrame s) (rafQueue s)
    (rafCalls s) (cancelCalls s) (notified s).

(** [setHeight]: React drops a state update of an unmounted component. *)
Definition setHeight (h : number) (s : Hook) : Hook :=
  mkHook (options s) (mounted s) (if mounted s then h else height s)
    (lastHeightRef s) (frameRef s)
    (pendingHeightRef s) (hasRequestFrame s) (hasCancelFrame s) (rafQueue s)
    (rafCalls s) (cancelCalls s) (notified s).

Definition set_lastHeightRef (h : number) (s : Hook) : Hook :=
  mkHook (options s) (mounted s) (height s) h (frameRef s)
    (pendingHeightRef s) (hasRequestFrame s) (hasCancelFrame s) (rafQueue s)
    (rafCalls s) (cancelCalls s) (notified s).

Definition set_frameRef (f : option nat) (s : Hook) : Hook :=
  mkHook (options s) (mounted s) (height s) (lastHeightRef s) f
    (pendingHeightRef s) (hasRequestFrame s) (hasCancelFrame s) (rafQueue s)
    (rafCalls s) (cancelCalls s) (notified s).

Definition set_pendingHeightRef (p : option number) (s : Hook) : Hook :=
  mkHook (options s) (mounted s) (height s) (lastHeightRef s) (frameRef s)
    p (hasRequestFrame s) (hasCancelFrame s) (rafQueue s)
    (rafCalls s) (cancelCalls s) (notified s).

Definition set_rafQueue (q : list FrameRequest) (s : Hook) : Hook :=
  mkHook (options s) (mounted s) (height s) (lastHeightRef s) (frameRef s)
    (pendingHeightRef s) (hasRequestFrame s) (hasCancelFrame s) q
    (rafCalls s) (cancelCalls s) (notified s).

(** The onHeightChange callback [c] receives [h]. *)
Definition call_onHeightChange (c : nat) (h : number) (s : Hook) : Hook :=
  mkHook (options s) (mounted s) (height s) (lastHeightRef s) (frameRef s)
    (pendingHeightRef s) (hasRequestFrame s) (hasCancelFrame s) (rafQueue s)
    (rafCalls s) (cancelCalls s) (notified s ++ [(c, h)]).

(** [requestAnimationFrame(cb)]: the request joins the queue and gets the
    next id. *)
Definition requestAnimationFrame (cb : option nat) (s : Hook) : nat * Hook :=
  let id := S (rafCalls s) in
  (id,
   mkHook (options s) (mounted s) (height s) (lastHeightRef s) (frameRef s)
     (pendingHeightRef s) (hasRequestFrame s) (hasCancelFrame s)
     (rafQueue s ++ [(id, cb)]) id (cancelCalls s) (notified s)).

(** [cancelAnimationFrame(id)]: the request leaves the queue. *)
Definition cancelAnimationFrame (id : nat) (s : Hook) : Hook :=
  mkHook (options s) (mounted s) (height s) (lastHeightRef s) (frameRef s)
    (pendingHeightRef s) (hasRequestFrame s) (hasCancelFrame s)
    (filter (fun r => negb (Nat.eqb (fst r) id)) (rafQueue s))
    (rafCalls s) (cancelCalls s ++ [id]) (notified s).

(** [commitHeight], as closed over the callback [cb]. *)
Definition commitHeight (cb : option nat) (nextHeight : number) (s : Hook) : Hook :=
  let s := set_lastHeightRef nextHeight s in
  let s := setHeight nextHeight s in
  match cb with
  | Some c => call_onHeightChange c nextHeight s
  | None => s
  end.

Definition flushPendingHeight (cb : option nat) (s : Hook) : Hook :=
  let s := set_frameRef None s in
  let pending := pendingHeightRef s in
  let s := set_pendingHeightRef None s in
  match pending with
  | Some p => commitHeight cb p s
  | None => s
  end.

(** [scheduleCommit] of the latest render. *)
Definition scheduleCommit (nextHeight : number) (s : Hook) : Hook :=
  let cb := onHeightChange (options s) in
  let s := set_pendingHeightRef (Some nextHeight) s in
  match frameRef s with
  | Some _ => s
  | None =>
      if hasRequestFrame s then
        let '(id, s) := requestAnimationFrame cb s in
        set_frameRef (Some id) s
      else flushPendingHeight cb s
  end.

(** The candidate height computed from a coerced payload. *)
Definition candidate (minH numericValue : number) : number :=
  Math_max minH (Math_ceil numericValue).

Section Ingestion.

Variable StringToNumber : string -> number.

Definition setHeightFromPayload (rawValue : value) (s : Hook) : Hook :=
  let numericValue :=
    match rawValue with
    | VNumber x => x
    | _ => Number StringToNumber rawValue
    end in
  if negb (isFinite numericValue) || le numericValue (num 0) then s
  else
    let nextHeight := candidate (minHeight (options s)) numericValue in
    if le (Math_abs (sub nextHeight (lastHeightRef s))) HEIGHT_DIFF_THRESHOLD
    then s
    else scheduleCommit nextHeight s.

End Ingestion.

(** The effect with dependencies [[minHeight, scheduleCommit]]. *)
Definition minHeightEffect (s : Hook) : Hook :=
  if gt (minHeight (options s)) (lastHeightRef s)
  then scheduleCommit (Math_ceil (minHeight (options s))) s
  else s.

(** First render and mount in a host with the given frame primitives. *)
Definition useAutoHeight (hasRaf hasCaf : bool) (o : UseAutoHeightOptions) : Hook :=
  let h := Math_max (minHeight o) (num 1) in
  minHeightEffect (mkHook o true h h None None hasRaf hasCaf [] 0 [] []).

Definition same_callback (a b : option nat) : bool :=
  match a, b with
  | Some x, Some y => Nat.eqb x y
  | None, None => true
  | _, _ => false
  end.

(** A later render with new options.  The effect runs again when one of its
    dependencies changed; [scheduleCommit] changes exactly when
    [onHeightChange] does. *)
Definition rerender (o : UseAutoHeightOptions) (s : Hook) : Hook :=
  if mounted s then
    let old := options s in
    let s := set_options o s in
    if same_value (minHeight old) (minHeight o)
       && same_callback (onHeightChange old) (onHeightChange o)
    then s
    else minHeightEffect s
  else s.

(** Unmount: the cleanup of the second effect. *)
Definition unmount (s : Hook) : Hook :=
  let s :=
    match frameRef s with
    | Some id => if hasCancelFrame s then cancelAnimationFrame id s else s
    | None => s
    end in
  set_mounted false s.

(** The host reaches the next frame: every request queued so far runs once,
    in order; requests made meanwhile wait for the following frame. *)
Definition runFrame (s : Hook) : Hook :=
  fold_left (fun s r => flushPendingHeight (snd r) s) (rafQueue s)
    (set_rafQueue [] s).

(** What can happen to a mounted instance. *)
Inductive Op : Type :=
| Ingest (rawValue : value)
| Rerender (o : UseAutoHeightOptions)
| Frame
| Unmount.

Section Traces.

Variable StringToNumber : string -> number.

Definition step (s : Hook) (op : Op) : Hook :=
  match op with
  | Ingest v => setHeightFromPayload StringToNumber v s
  | Rerender o => rerender o s
  | Frame => runFrame s
  | Unmount => unmount s
  end.

Definition run (ops : list Op) (s : Hook) : Hook := fold_left step ops s.

(** Every state a trace goes through, the first one included. *)
Fixpoint states (ops : list Op) (s : Hook) : list Hook :=
  s :: match ops with
       | [] => []
       | op :: rest => states rest (step s op)
       end.


(** The instance stays mounted along the trace. *)
Definition stays_mounted (ops : list Op) : bool :=
  forallb (fun op => match op with Unmount => false | _ => true end) ops.

End Traces.


(** At most one frame request is outstanding, and [frameRef] names it. *)
Definition single_flight (s : Hook) : Prop :=
  (frameRef s = None /\ rafQueue s = []) \/
  (exists id cb, frameRef s = Some id /\ rafQueue s = [(id, cb)]).

(** The shape of a mounted instance between two operations. *)
Definition coherent (s : Hook) : Prop :=
  mounted s = true /\ lastHeightRef s = height s /\ single_flight s.


(** A candidate within the threshold of the last committed height. *)
Definition insignificant (s : Hook) (numericValue : number) : bool :=
  le (Math_abs (sub (candidate (minHeight (options s)) numericValue)
                    (lastHeightRef s)))
     HEIGHT_DIFF_THRESHOLD.

End Reconciler.

(** ** The script composer: [composeInjectedScript] *)
Module Composer.

Local Open Scope string_scope.

(** The line break of the template literal. *)
Definition LF : string := String (ascii_of_nat 10) EmptyString.

(** [Boolean(chunk)]: [undefined] and the empty string are falsy. *)
Definition Boolean (chunk : option string) : bool :=
  match chunk with
  | Some EmptyString => false
  | Some _ => true
  | None => false
  end.

(** Conversion of an array element by [Array.prototype.join]: [undefined]
    becomes the empty string. *)
Definition element_text (chunk : option string) : string :=
  match chunk with
  | Some s => s
  | None => EmptyString
  end.

(** [parts.join(sep)]. *)
Fixpoint join (sep : string) (parts : list (option string)) : string :=
  match parts with
  | [] => EmptyString
  | [p] => element_text p
  | p :: rest => element_text p ++ sep ++ join sep rest
  end.

Definition composeInjectedScript (chunks : list (option string)) : option string :=
  let parts := filter Boolean chunks in
  if Nat.eqb (List.length parts) 0 then None
  else Some (join LF parts ++ LF ++ "true;").

(** The composer in the words of the specification: the entries that are
    neither absent nor empty, in order; no script when none remains,
    otherwise the entries separated by line breaks and followed by a line
    holding the truthy statement. *)
Fixpoint remaining (chunks : list (option string)) : list string :=
  match chunks with
  | [] => []
  | None :: rest => remaining rest
  | Some EmptyString :: rest => remaining rest
  | Some s :: rest => s :: remaining rest
  end.

Definition TERMINATOR : string := "true;".

Definition composed_spec (chunks : list (option string)) : option string :=
  match remaining chunks with
  | [] => None
  | parts => Some (String.concat LF parts ++ LF ++ TERMINATOR)
  end.

(** [suffix] of a string, for the statement that a script ends in the
    terminator. *)
Fixpoint ends_with (suffix s : string) : bool :=
  if String.eqb s suffix then true
  else match s with
       | EmptyString => false
       | String _ rest => ends_with suffix rest
       end.

End Composer.

(** ** The in-page measurement agent: [AUTO_HEIGHT_BRIDGE]

    The variant of the bridge that keeps a session: one [state] object per
    document, published under [window['__RN_SIZED_WEBVIEW__']], with the
    wrapper element and the anomaly guard of [postHeight].  (The earlier
    variants guard re-injection with the flag [__AUTO_HEIGHT_INITIALIZED__]
    and have neither session nor guard.)  The document and the
    browser are the environment: what the script registers with them
    (timers, frame requests, listeners, observers, posted messages) is kept
    in the [World], what it reads from them (capabilities, geometry) comes
    from the [Host] and from a stream of layouts.

    Not modelled: styling ([applyBaseStyles]) and the removal of trailing
    blank nodes ([pruneTrailingNodes], taken to find nothing to remove);
    exceptions, none of which arises in the model; and the closures of a
    destroyed session, which are not told from those of its successor. *)
Module Agent.

Definition ACTIVE_DEBOUNCE_MS : Z := 48.
Definition IDLE_DEBOUNCE_MS : Z := 160.
Definition INITIAL_FALLBACK_MS : Z := 600.
Definition MAX_FALLBACK_MS : Z := 4000.
Definition MESSAGE_KEY : string := "__AUTO_HEIGHT__".

(** The two literals of the anomaly guard in [postHeight]. *)
Definition ANOMALY_HEIGHT : number := num 100000.
Definition ANOMALY_RUN : nat := 3.

Inductive ReadyState : Type := Loading | Interactive | Complete.

(** [window.ReactNativeWebView]: missing (or without a [postMessage]
    function), working, or throwing on [postMessage]. *)
Inductive Channel : Type := Absent | Working | Throwing.

Inductive Target : Type :=
| TWindow | TDocument | TViewport | TFonts | TElement (e : nat).

Inductive Tag : Type := IMG | IFRAME | VIDEO | OTHER.

(** A media element as [tryTrackMedia] sees it.  [settled] stands for
    [complete && naturalHeight] of an image, [readyState >= 2] of a video
    and a completely loaded [contentDocument] of an iframe. *)
Record Element : Type := mkElement {
  eid : nat;
  tagName : Tag;
  settled : bool
}.

(** The closures the script hands to the environment. *)
Inductive Callback : Type :=
| CbRunMeasure                       (* runMeasure *)
| CbForceMeasure                     (* function () { scheduleMeasure(true); } *)
| CbFallback                         (* body of the fallback timer *)
| CbDebounce                         (* body of the debounce timer *)
| CbMicrotask                        (* body queued by requestDebouncedMeasure *)
| CbRequestDebounced                 (* function () { requestDebouncedMeasure(); } *)
| CbMutations                        (* the MutationObserver callback *)
| CbSettled (removers : list nat)    (* onSettled / onIframe / onVideo *)
| CbMessage                          (* the 'message' listener *)
| CbCleanupAll                       (* cleanupAll *)
| CbDomReady (removers : list nat).  (* handler of ensureDomReady *)

(** The entries of [state.cleanup]. *)
Inductive Cleanup : Type :=
| RemoveListener (id : nat)
| ClearTimeout (id : nat)
| Disconnect (id : nat).

Record Listener : Type := mkListener {
  lid : nat;
  ltarget : Target;
  ltype : string;
  lhandler : Callback;
  lonce : bool
}.

Inductive ObserverKind : Type := MutationObserver | ResizeObserver.

(** The [state] object. *)
Record State : Type := mkState {
  frame : option nat;
  timer : option nat;
  microtask : bool;
  pendingLoads : Z;
  lastHeight : number;
  lastCssHeight : number;
  anomalyCount : nat;
  fallbackTimer : option nat;
  fallbackDelay : Z;
  cleanup : list Cleanup;
  wrapper : bool                     (* state.wrapper is not null *)
}.

Definition initial_state : State :=
  mkState None None false 0 (num 0) (num 0) 0 None INITIAL_FALLBACK_MS [] false.

Record World : Type := mkWorld {
  state : State;
  globalKey : bool;                  (* window[GLOBAL_KEY] holds the session *)
  readyState : ReadyState;           (* document.readyState *)
  channel : Channel;
  timers : list (nat * Z * Callback);      (* pending setTimeout calls *)
  frames : list (nat * Callback);          (* pending requestAnimationFrame calls *)
  jobs : list Callback;              (* queued microtasks and promise reactions *)
  listeners : list Listener;         (* registered event listeners *)
  observers : list (nat * ObserverKind);   (* connected observers *)
  nextId : nat;                      (* next handle the environment gives out *)
  trackedMedia : list nat;           (* the WeakSet of tracked elements *)
  posted : list number;              (* heights sent with postMessage, oldest first *)
  measured : nat                     (* number of measurements taken *)
}.

(** Capabilities and content of the hosting document. *)
Record Host : Type := mkHost {
  hasRequestAnimationFrame : bool;
  hasCancelAnimationFrame : bool;
  hasQueueMicrotask : bool;
  hasPromise : bool;
  hasWeakSet : bool;
  hasMutationObserver : bool;
  hasResizeObserver : bool;
  hasVisualViewport : bool;
  hasFonts : bool;                   (* document.fonts *)
  fontsAddEventListener : bool;
  fontsReady : bool;                 (* document.fonts.ready is a thenable *)
  hasDocumentElement : bool;
  hasBody : bool;
  media : list Element               (* img, video, iframe found by the first scan *)
}.

Record Box : Type := mkBox {
  rectHeight : number;               (* getBoundingClientRect().height *)
  scrollHeight : number;
  offsetHeight : number;
  clientHeight : number
}.

(** The geometry of the document at one measurement. *)
Record Layout : Type := mkLayout {
  wrapperAttached : bool;            (* document.contains(state.wrapper) *)
  wrapperBox : Box;
  bodyBox : Box;
  htmlBox : Box;
  innerHeight : number
}.

(** *** Field updates *)

Definition upd_state (f : State -> State) (w : World) : World :=
  mkWorld (f (state w)) (globalKey w) (readyState w) (channel w) (timers w)
    (frames w) (jobs w) (listeners w) (observers w) (nextId w)
    (trackedMedia w) (posted w) (measured w).

Definition set_frame (v : option nat) (s : State) : State :=
  mkState v (timer s) (microtask s) (pendingLoads s) (lastHeight s)
    (lastCssHeight s) (anomalyCount s) (fallbackTimer s) (fallbackDelay s)
    (cleanup s) (wrapper s).

Definition set_timer (v : option nat) (s : State) : State :=
  mkState (frame s) v (microtask s) (pendingLoads s) (lastHeight s)
    (lastCssHeight s) (anomalyCount s) (fallbackTimer s) (fallbackDelay s)
    (cleanup s) (wrapper s).

Definition set_microtask (v : bool) (s : State) : State :=
  mkState (frame s) (timer s) v (pendingLoads s) (lastHeight s)
    (lastCssHeight s) (anomalyCount s) (fallbackTimer s) (fallbackDelay s)
    (cleanup s) (wrapper s).

Definition set_pendingLoads (v : Z) (s : State) : State :=
  mkState (frame s) (timer s) (microtask s) v (lastHeight s)
    (lastCssHeight s) (anomalyCount s) (fallbackTimer s) (fallbackDelay s)
    (cleanup s) (wrapper s).

Definition set_lastHeight (v : number) (s : State) : State :=
  mkState (frame s) (timer s) (microtask s) (pendingLoads s) v
    (lastCssHeight s) (anomalyCount s) (fallbackTimer s) (fallbackDelay s)
    (cleanup s) (wrapper s).

Definition set_lastCssHeight (v : number) (s : State) : State :=
  mkState (frame s) (timer s) (microtask s) (pendingLoads s) (lastHeight s)
    v (anomalyCount s) (fallbackTimer s) (fallbackDelay s)
    (cleanup s) (wrapper s).

Definition set_anomalyCount (v : nat) (s : State) : State :=
  mkState (frame s) (timer s) (microtask s) (pendingLoads s) (lastHeight s)
    (lastCssHeight s) v (fallbackTimer s) (fallbackDelay s)
    (cleanup s) (wrapper s).

Definition set_fallbackTimer (v : option nat) (s : State) : State :=
  mkState (frame s) (timer s) (microtask s) (pendingLoads s) (lastHeight s)
    (lastCssHeight s) (anomalyCount s) v (fallbackDelay s)
    (cleanup s) (wrapper s).

Definition set_fallbackDelay (v : Z) (s : State) : State :=
  mkState (frame s) (timer s) (microtask s) (pendingLoads s) (lastHeight s)
    (lastCssHeight s) (anomalyCount s) (fallbackTimer s) v
    (cleanup s) (wrapper s).

Definition set_cleanup (v : list Cleanup) (s : State) : State :=
  mkState (frame s) (timer s) (microtask s) (pendingLoads s) (lastHeight s)
    (lastCssHeight s) (anomalyCount s) (fallbackTimer s) (fallbackDelay s)
    v (wrapper s).

Definition set_wrapper (v : bool) (s : State) : State :=
  mkState (frame s) (timer s) (microtask s) (pendingLoads s) (lastHeight s)
    (lastCssHeight s) (anomalyCount s) (fallbackTimer s) (fallbackDelay s)
    (cleanup s) v.

Definition set_session (s : State) (k : bool) (w : World) : World :=
  mkWorld s k (readyState w) (channel w) (timers w)
    (frames w) (jobs w) (listeners w) (observers w) (nextId w)
    (trackedMedia w) (posted w) (measured w).

Definition set_readyState (r : ReadyState) (w : World) : World :=
  mkWorld (state w) (globalKey w) r (channel w) (timers w)
    (frames w) (jobs w) (listeners w) (observers w) (nextId w)
    (trackedMedia w) (posted w) (measured w).

Definition set_channel (c : Channel) (w : World) : World :=
  mkWorld (state w) (globalKey w) (readyState w) c (timers w)
    (frames w) (jobs w) (listeners w) (observers w) (nextId w)
    (trackedMedia w) (posted w) (measured w).

Definition set_timers (t : list (nat * Z * Callback)) (w : World) : World :=
  mkWorld (state w) (globalKey w) (readyState w) (channel w) t
    (frames w) (jobs w) (listeners w) (observers w) (nextId w)
    (trackedMedia w) (posted w) (measured w).

Definition set_frames (f : list (nat * Callback)) (w : World) : World :=
  mkWorld (state w) (globalKey w) (readyState w) (channel w) (timers w)
    f (jobs w) (listeners w) (observers w) (nextId w)
    (trackedMedia w) (posted w) (measured w).

Definition set_jobs (j : list Callback) (w : World) : World :=
  mkWorld (state w) (globalKey w) (readyState w) (channel w) (timers w)
    (frames w) j (listeners w) (observers w) (nextId w)
    (trackedMedia w) (posted w) (measured w).

Definition set_listeners (l : list Listener) (w : World) : World :=
  mkWorld (state w) (globalKey w) (readyState w) (channel w) (timers w)
    (frames w) (jobs w) l (observers w) (nextId w)
    (trackedMedia w) (posted w) (measured w).

Definition set_observers (o : list (nat * ObserverKind)) (w : World) : World :=
  mkWorld (state w) (globalKey w) (readyState w) (channel w) (timers w)
    (frames w) (jobs w) (listeners w) o (nextId w)
    (trackedMedia w) (posted w) (measured w).

Definition set_trackedMedia (t : list nat) (w : World) : World :=
  mkWorld (state w) (globalKey w) (readyState w) (channel w) (timers w)
    (frames w) (jobs w) (listeners w) (observers w) (nextId w)
    t (posted w) (measured w).

Definition set_posted (p : list number) (w : World) : World :=
  mkWorld (state w) (globalKey w) (readyState w) (channel w) (timers w)
    (frames w) (jobs w) (listeners w) (observers w) (nextId w)
    (trackedMedia w) p (measured w).

Definition set_measured (n : nat) (w : World) : World :=
  mkWorld (state w) (globalKey w) (readyState w) (channel w) (timers w)
    (frames w) (jobs w) (listeners w) (observers w) (nextId w)
    (trackedMedia w) (posted w) n.

(** A fresh handle. *)
Definition fresh (w : World) : nat * World :=
  (nextId w,
   mkWorld (state w) (globalKey w) (readyState w) (channel w) (timers w)
     (frames w) (jobs w) (listeners w) (observers w) (S (nextId w))
     (trackedMedia w) (posted w) (measured w)).

(** A document in which the script has not run. *)
Definition pristine (r : ReadyState) (c : Channel) : World :=
  mkWorld initial_state false r c [] [] [] [] [] 0 [] [] 0.

(** *** The environment's primitives *)

Definition setTimeout (cb : Callback) (delay : Z) (w : World) : nat * World :=
  let '(id, w) := fresh w in
  (id, set_timers (timers w ++ [(id, delay, cb)]) w).

Definition clearTimeout (id : nat) (w : World) : World :=
  set_timers (filter (fun t => negb (Nat.eqb (fst (fst t)) id)) (timers w)) w.

Definition removeEventListener (id : nat) (w : World) : World :=
  set_listeners (filter (fun l => negb (Nat.eqb (lid l) id)) (listeners w)) w.

Definition disconnect (id : nat) (w : World) : World :=
  set_observers (filter (fun o => negb (Nat.eqb (fst o) id)) (observers w)) w.

(** Monadic sequencing of steps that may call [runMeasure]. *)
Notation "x <- c ;; k" :=
  (match c with Some x => k | None => None end)
  (at level 61, c at next level, right associativity).

Section Script.

Variable host : Host.

(** The layout the document shows at its [n]-th measurement. *)
Variable document : nat -> Layout.

(** Whether [JSON.parse(data).topic === MESSAGE_KEY] for a string payload
    (false when parsing throws). *)
Variable topicIsMessageKey : string -> bool.

Definition requestFrame (cb : Callback) (w : World) : nat * World :=
  if hasRequestAnimationFrame host then
    let '(id, w) := fresh w in
    (id, set_frames (frames w ++ [(id, cb)]) w)
  else setTimeout cb 16 w.

Definition cancelFrame (id : nat) (w : World) : World :=
  if hasCancelAnimationFrame host then
    set_frames (filter (fun f => negb (Nat.eqb (fst f) id)) (frames w)) w
  else clearTimeout id w.

Definition queueMicro (cb : Callback) (w : World) : World :=
  if hasQueueMicrotask host || hasPromise host
  then set_jobs (jobs w ++ [cb]) w
  else snd (setTimeout cb 0 w).

Definition addCleanup (fn : Cleanup) (w : World) : World :=
  upd_state (fun s => set_cleanup (cleanup s ++ [fn]) s) w.

Definition run_cleanup (fn : Cleanup) (w : World) : World :=
  match fn with
  | RemoveListener id => removeEventListener id w
  | ClearTimeout id => clearTimeout id w
  | Disconnect id => disconnect id w
  end.

Definition cleanupAll (w : World) : World :=
  let w :=
    match frame (state w) with
    | Some id => upd_state (set_frame None) (cancelFrame id w)
    | None => w
    end in
  let w :=
    match timer (state w) with
    | Some id => upd_state (set_timer None) (clearTimeout id w)
    | None => w
    end in
  let w :=
    match fallbackTimer (state w) with
    | Some id => upd_state (set_fallbackTimer None) (clearTimeout id w)
    | None => w
    end in
  let w := fold_left (fun w fn => run_cleanup fn w) (cleanup (state w)) w in
  let w := upd_state (set_cleanup []) w in
  let w := upd_state (set_wrapper false) w in
  set_session (state w) false w.

(** [addEvent]: returns the handle of its [remove] closure. *)
Definition addEvent (target : Target) (type : string) (handler : Callback)
    (once : bool) (w : World) : nat * World :=
  let '(id, w) := fresh w in
  let w := set_listeners (listeners w ++ [mkListener id target type handler once]) w in
  (id, addCleanup (RemoveListener id) w).

Definition scheduleTimeout (cb : Callback) (delay : Z) (w : World) : nat * World :=
  let '(id, w) := setTimeout cb delay w in
  (id, addCleanup (ClearTimeout id) w).

Definition scheduleFallback (w : World) : World :=
  match fallbackTimer (state w) with
  | Some _ => w
  | None =>
      let '(id, w) := setTimeout CbFallback (fallbackDelay (state w)) w in
      upd_state (set_fallbackTimer (Some id)) w
  end.

Definition markLoading (w : World) : World :=
  let w := upd_state (fun s => set_pendingLoads (pendingLoads s + 1) s) w in
  scheduleFallback w.

Definition clearLoading (w : World) : World :=
  if (0 <? pendingLoads (state w))%Z
  then upd_state (fun s => set_pendingLoads (pendingLoads s - 1) s) w
  else w.

(** [x || 0]. *)
Definition or0 (x : number) : number := if truthy x then x else num 0.

Definition readMaxValue (values : list number) : number :=
  fold_left (fun max value => if gt value max then value else max)
    values (num 0).

Definition collect (b : Box) : list number :=
  [rectHeight b; or0 (scrollHeight b); or0 (offsetHeight b); or0 (clientHeight b)].

Definition ensureWrapper (w : World) : bool * World :=
  if wrapper (state w) && wrapperAttached (document (measured w)) then (true, w)
  else if negb (hasBody host) then (false, w)
  else (true, upd_state (set_wrapper true) w).

Definition measureHeight (w : World) : number * World :=
  let layout := document (measured w) in
  let '(hasWrapper, w) := ensureWrapper w in
  let values :=
    ((if hasWrapper then collect (wrapperBox layout) else [])
     ++ (if hasBody host then collect (bodyBox layout) else [])
     ++ (if hasDocumentElement host then collect (htmlBox layout) else [])
     ++ [or0 (innerHeight layout)])%list in
  (Math_max (num 0) (Math_ceil (readMaxValue values)),
   set_measured (S (measured w)) w).

Definition resetFallback (w : World) : World :=
  let w := upd_state (set_fallbackDelay INITIAL_FALLBACK_MS) w in
  let w :=
    match fallbackTimer (state w) with
    | Some id => upd_state (set_fallbackTimer None) (clearTimeout id w)
    | None => w
    end in
  scheduleFallback w.

(** The attempt to send [String(sanitized)] over the channel. *)
Definition postMessage (sanitized : number) (w : World) : World :=
  match channel w with
  | Working => set_posted (posted w ++ [sanitized]) w
  | Absent | Throwing => w
  end.

(** [scheduleMeasure], over the [runMeasure] it may call. *)
Definition scheduleMeasure_with (runMeasure : World -> option World)
    (force : bool) (w : World) : option World :=
  if force then
    let w :=
      match frame (state w) with
      | Some id => upd_state (set_frame None) (cancelFrame id w)
      | None => w
      end in
    let w :=
      match timer (state w) with
      | Some id => upd_state (set_timer None) (clearTimeout id w)
      | None => w
      end in
    runMeasure w
  else
    match frame (state w) with
    | Some _ => Some w
    | None =>
        let '(id, w) := requestFrame CbRunMeasure w in
        Some (upd_state (set_frame (Some id)) w)
    end.

(** The part of [scheduleMeasure(true)] that precedes [runMeasure]. *)
Definition cancel_scheduled (w : World) : World :=
  let w :=
    match frame (state w) with
    | Some id => upd_state (set_frame None) (cancelFrame id w)
    | None => w
    end in
  match timer (state w) with
  | Some id => upd_state (set_timer None) (clearTimeout id w)
  | None => w
  end.

(** The end of [postHeight], past the anomaly guard: the comparison with
    [state.lastHeight], its update, and the post. *)
Definition deliver (sanitized : number) (w : World) : World :=
  if strict_eq (lastHeight (state w)) sanitized then w
  else
    let w := upd_state (set_lastHeight sanitized) w in
    postMessage sanitized w.

(** [postHeight], over the [runMeasure] its anomaly branch may reach. *)
Definition postHeight_with (runMeasure : World -> option World)
    (height : number) (w : World) : option World :=
  if negb (truthy height) || le height (num 0) then Some w
  else
    let w := upd_state (set_lastCssHeight height) w in
    let sanitized := Math_ceil height in
    if negb (isFinite sanitized) || le sanitized (num 0) then Some w
    else
      if gt sanitized ANOMALY_HEIGHT then
        let w := upd_state (fun s => set_anomalyCount (S (anomalyCount s)) s) w in
        if Nat.ltb (anomalyCount (state w)) ANOMALY_RUN
        then scheduleMeasure_with runMeasure true w
        else Some (deliver sanitized w)
      else Some (deliver sanitized (upd_state (set_anomalyCount 0) w)).

(** [runMeasure].  The script's recursion through [postHeight] and
    [scheduleMeasure(true)] is bounded by the anomaly counter; the model
    bounds it by [fuel] and yields [None] when the fuel is used up. *)
Fixpoint runMeasure (fuel : nat) (w : World) : option World :=
  match fuel with
  | O => None
  | S fuel' =>
      let w := upd_state (set_frame None) w in
      let '(height, w) := measureHeight w in
      w <- (if truthy height
            then postHeight_with (runMeasure fuel') height w
            else Some w) ;;
      Some (resetFallback w)
  end.

Variable fuel : nat.

Definition scheduleMeasure : bool -> World -> option World :=
  scheduleMeasure_with (runMeasure fuel).

Definition postHeight : number -> World -> option World :=
  postHeight_with (runMeasure fuel).

(** Successive calls of [postHeight]. *)
Fixpoint postHeights (heights : list number) (w : World) : option World :=
  match heights with
  | [] => Some w
  | height :: rest => w <- postHeight height w ;; postHeights rest w
  end.

Definition refresh (w : World) : option World :=
  let '(_, w) := ensureWrapper w in
  scheduleMeasure true w.

Definition getDebounceDelay (w : World) : Z :=
  if (0 <? pendingLoads (state w))%Z then ACTIVE_DEBOUNCE_MS else IDLE_DEBOUNCE_MS.

Definition debouncedMeasure (w : World) : option World :=
  w <- scheduleMeasure false w ;;
  let w :=
    match timer (state w) with
    | Some id => clearTimeout id w
    | None => w
    end in
  let '(id, w) := setTimeout CbDebounce (getDebounceDelay w) w in
  Some (upd_state (set_timer (Some id)) w).

Definition requestDebouncedMeasure (w : World) : World :=
  let w := scheduleFallback w in
  if microtask (state w) then w
  else
    let w := upd_state (set_microtask true) w in
    queueMicro CbMicrotask w.

(** Registration of one handler for several events of one target, each
    with [{ once: true }]. *)
Fixpoint addEvents (target : Target) (types : list string) (handler : Callback)
    (w : World) : World :=
  match types with
  | [] => w
  | type :: rest => addEvents target rest handler (snd (addEvent target type handler true w))
  end.

Definition settle_events (t : Tag) : list string :=
  match t with
  | IMG | IFRAME => ["load"; "error"]
  | VIDEO => ["loadeddata"; "loadedmetadata"; "ended"]
  | OTHER => []
  end%string.

(** [markLoading()] followed by the registration of the settle listeners;
    returns the settle closure as well. *)
Definition trackLoading (element : Element) (w : World) : Callback * World :=
  let w := markLoading w in
  let types := settle_events (tagName element) in
  let onSettled := CbSettled (seq (nextId w) (List.length types)) in
  (onSettled, addEvents (TElement (eid element)) types onSettled w).

Definition tryTrackMedia (element : Element) (w : World) : option World :=
  if hasWeakSet host && existsb (Nat.eqb (eid element)) (trackedMedia w) then Some w
  else
    let w :=
      if hasWeakSet host
      then set_trackedMedia (eid element :: trackedMedia w) w
      else w in
    match tagName element with
    | IMG | VIDEO =>
        if settled element then
          w <- scheduleMeasure true w ;;
          Some (snd (requestFrame CbForceMeasure w))
        else Some (snd (trackLoading element w))
    | IFRAME =>
        let '(onIframe, w) := trackLoading element w in
        if settled element then
          w <- scheduleMeasure true w ;;
          Some (snd (requestFrame onIframe w))
        else Some w
    | OTHER => Some w
    end.

(** [scanForMedia(root)], over what the scan finds: the root when it is an
    element, then the img, video and iframe elements below it. *)
Fixpoint scanForMedia (elements : list Element) (w : World) : option World :=
  match elements with
  | [] => Some w
  | e :: rest => w <- tryTrackMedia e w ;; scanForMedia rest w
  end.

Definition observe (kind : ObserverKind) (w : World) : World :=
  let '(id, w) := fresh w in
  let w := set_observers (observers w ++ [(id, kind)]) w in
  addCleanup (Disconnect id) w.

Definition observeMutations (w : World) : World :=
  if negb (hasMutationObserver host) then w
  else if negb (hasDocumentElement host || hasBody host) then w
  else observe MutationObserver w.

Definition observeResize (w : World) : World :=
  if negb (hasResizeObserver host) then w
  else
    let '(_, w) := ensureWrapper w in
    observe ResizeObserver w.

Definition observeViewport (w : World) : World :=
  if negb (hasVisualViewport host) then w
  else
    let w := snd (addEvent TViewport "resize" CbRequestDebounced false w) in
    snd (addEvent TViewport "scroll" CbRequestDebounced false w).

Definition observeFonts (w : World) : World :=
  if negb (hasFonts host) then w
  else
    let w :=
      if fontsAddEventListener host then
        let w := snd (addEvent TFonts "loadingdone" CbForceMeasure false w) in
        snd (addEvent TFonts "loadingerror" CbForceMeasure false w)
      else w in
    if fontsReady host then set_jobs (jobs w ++ [CbForceMeasure]) w else w.

Definition observeGlobalEvents (w : World) : World :=
  let w :=
    fold_left (fun w type => snd (addEvent TWindow type CbForceMeasure false w))
      ["load"; "pageshow"; "orientationchange"; "resize"]%string w in
  let w := snd (addEvent TDocument "DOMContentLoaded" CbForceMeasure false w) in
  snd (addEvent TDocument "readystatechange" CbForceMeasure false w).

Definition watchMessages (w : World) : World :=
  snd (addEvent TWindow "message" CbMessage false w).

Definition queueStabilization (w : World) : World :=
  fold_left (fun w delay => snd (scheduleTimeout CbForceMeasure delay w))
    [32; 120; 240; 500; 1000; 2000; 3200]%Z w.

Definition bootstrap (w : World) : option World :=
  let '(_, w) := ensureWrapper w in
  w <- scanForMedia (media host) w ;;
  let w := observeMutations w in
  let w := observeResize w in
  let w := observeViewport w in
  let w := observeFonts w in
  let w := observeGlobalEvents w in
  let w := watchMessages w in
  let w := queueStabilization w in
  let w := snd (addEvent TWindow "unload" CbCleanupAll false w) in
  w <- scheduleMeasure true w ;;
  Some (scheduleFallback w).

Definition isReady (r : ReadyState) : bool :=
  match r with Loading => false | Interactive | Complete => true end.

(** [ensureDomReady(bootstrap)]. *)
Definition ensureDomReady (w : World) : option World :=
  if isReady (readyState w) then bootstrap w
  else
    let id := nextId w in
    let handler := CbDomReady [id; S id] in
    let '(_, w) := fresh w in
    let w := set_listeners
               (listeners w ++ [mkListener id TDocument "readystatechange" handler false]) w in
    let '(id', w) := fresh w in
    Some (set_listeners
            (listeners w ++ [mkListener id' TWindow "load" handler false]) w).

(** One evaluation of the injected script in a browser document. *)
Definition install (w : World) : option World :=
  if globalKey w then refresh w
  else ensureDomReady (set_session initial_state true w).

(** What a callback is invoked with. *)
Inductive Payload : Type :=
| NoPayload
| MessageData (data : value)
| AddedNodes (elements : list Element).

(** The bodies of the closures. *)
Definition invoke (cb : Callback) (arg : Payload) (w : World) : option World :=
  match cb with
  | CbRunMeasure => runMeasure fuel w
  | CbForceMeasure => scheduleMeasure true w
  | CbFallback =>
      let w := upd_state (set_fallbackTimer None) w in
      w <- scheduleMeasure true w ;;
      let w := upd_state
                 (fun s => set_fallbackDelay
                             (Z.min MAX_FALLBACK_MS (fallbackDelay s * 3 / 2)) s) w in
      Some (scheduleFallback w)
  | CbDebounce =>
      scheduleMeasure true (upd_state (set_timer None) w)
  | CbMicrotask =>
      debouncedMeasure (upd_state (set_microtask false) w)
  | CbRequestDebounced => Some (requestDebouncedMeasure w)
  | CbMutations =>
      let w := requestDebouncedMeasure w in
      let '(_, w) := ensureWrapper w in
      match arg with
      | AddedNodes elements => scanForMedia elements w
      | _ => Some w
      end
  | CbSettled removers =>
      let w := fold_left (fun w id => removeEventListener id w) removers w in
      let w := clearLoading w in
      w <- scheduleMeasure true w ;;
      Some (snd (requestFrame CbForceMeasure w))
  | CbMessage =>
      match arg with
      | MessageData (VString s) =>
          if String.eqb s EmptyString then Some w
          else if String.eqb s MESSAGE_KEY then scheduleMeasure true w
          else if topicIsMessageKey s then scheduleMeasure true w
          else Some w
      | _ => Some w
      end
  | CbCleanupAll => Some (cleanupAll w)
  | CbDomReady removers =>
      if isReady (readyState w) then
        bootstrap (fold_left (fun w id => removeEventListener id w) removers w)
      else Some w
  end.

End Script.

(** The two operations on the in-flight counter, for interleavings. *)
Inductive LoadOp : Type := MarkLoading | ClearLoading.

Definition load_step (w : World) (op : LoadOp) : World :=
  match op with
  | MarkLoading => markLoading w
  | ClearLoading => clearLoading w
  end.

(** Every world an interleaving goes through, the first one included. *)
Fixpoint load_states (ops : list LoadOp) (w : World) : list World :=
  w :: match ops with
       | [] => []
       | op :: rest => load_states rest (load_step w op)
       end.

(** *** The posting rule in the words of the specification *)

(** A candidate the agent may post: finite and strictly positive. *)
Definition postable (height : number) : bool :=
  isFinite height && gt height (num 0).

(** Implausibly large once rounded up. *)
Definition implausible (height : number) : bool :=
  gt (Math_ceil height) ANOMALY_HEIGHT.

(** The heights handed to the channel out of a run of candidates, given the
    height handed over last: each postable candidate, rounded up, that
    differs from its predecessor in this list. *)
Fixpoint handed_over (last : number) (heights : list number) : list number :=
  match heights with
  | [] => []
  | height :: rest =>
      if postable height && negb (strict_eq last (Math_ceil height))
      then Math_ceil height :: handed_over (Math_ceil height) rest
      else handed_over last rest
  end.

(** What the host receives: everything over a working channel, nothing
    otherwise. *)
Definition received (c : Channel) (handed : list number) : list number :=
  match c with
  | Working => handed
  | Absent | Throwing => []
  end.

(** The parts of the world that scheduling a timer or a frame, or
    cancelling one, leaves alone. *)
Definition untouched (w w' : World) : Prop :=
  globalKey w' = globalKey w
  /\ channel w' = channel w
  /\ listeners w' = listeners w
  /\ observers w' = observers w
  /\ posted w' = posted w
  /\ measured w' = measured w
  /\ cleanup (state w') = cleanup (state w)
  /\ lastHeight (state w') = lastHeight (state w)
  /\ anomalyCount (state w') = anomalyCount (state w)
  /\ pendingLoads (state w') = pendingLoads (state w).

(** Nothing is installed, removed or posted from [w] to [w']. *)
Definition calm (w w' : World) : Prop :=
  globalKey w' = globalKey w
  /\ channel w' = channel w
  /\ listeners w' = listeners w
  /\ observers w' = observers w
  /\ posted w' = posted w
  /\ (measured w <= measured w')%nat
  /\ cleanup (state w') = cleanup (state w)
  /\ pendingLoads (state w') = pendingLoads (state w).

(** What one [postHeight] or [runMeasure], with the measurements nested in
    it, does to the world: it installs and removes nothing and posts at
    most one height, which is then [state.lastHeight]; a height above the
    anomaly limit is posted only with the anomaly counter at its bound. *)
Definition posting (w w' : World) : Prop :=
  globalKey w' = globalKey w
  /\ channel w' = channel w
  /\ listeners w' = listeners w
  /\ observers w' = observers w
  /\ (measured w <= measured w')%nat
  /\ cleanup (state w') = cleanup (state w)
  /\ pendingLoads (state w') = pendingLoads (state w)
  /\ (posted w' = posted w
      \/ exists v, posted w' = (posted w ++ [v])%list
                   /\ lastHeight (state w') = v
                   /\ (gt v ANOMALY_HEIGHT = true ->
                       (ANOMALY_RUN <= anomalyCount (state w'))%nat)).

End Agent.

(** ** The flag-guarded bridge

    The earlier variant of [AUTO_HEIGHT_BRIDGE], which keeps its state in
    [window.__AUTO_HEIGHT_*__] properties and guards re-injection with a
    flag.  Only what one evaluation of the script does is modelled: the
    flags it sets and what it registers with the window; the measurement
    itself happens later, in the callbacks. *)
Module LegacyBridge.

Definition DEBOUNCE_DELAY_MS : Z := 80.

Inductive FrameCallback : Type :=
| UpdateHeight                      (* the body given by runHeightUpdate *)
| AttachMutationObserver.           (* attachMutationObserver, retried *)

Inductive TimerCallback : Type :=
| Debounced                         (* the body given by scheduleHeightUpdate *)
| ScheduleHeightUpdate.             (* scheduleHeightUpdate itself *)

Inductive ObserverKind : Type := MutationObserver | ResizeObserver.

Record Window : Type := mkWindow {
  initialized : bool;               (* window.__AUTO_HEIGHT_INITIALIZED__ *)
  updatePending : bool;             (* window.__AUTO_HEIGHT_PENDING__ *)
  rafHandle : option nat;           (* window.__AUTO_HEIGHT_RAF__ *)
  timeoutHandle : option nat;       (* window.__AUTO_HEIGHT_TIMEOUT__ *)
  frames : list (nat * FrameCallback);
  timers : list (nat * Z * TimerCallback);
  observers : list ObserverKind;
  listeners : list (string * string);      (* target and event type *)
  nextHandle : nat                  (* handles start at 1: 0 would be falsy *)
}.

Record Capabilities : Type := mkCapabilities {
  hasMutationObserver : bool;
  hasResizeObserver : bool;
  hasVisualViewport : bool;
  hasFontEvents : bool;             (* document.fonts with addEventListener *)
  hasTarget : bool                  (* document.body || document.documentElement *)
}.

Definition requestAnimationFrame (cb : FrameCallback) (w : Window) : nat * Window :=
  (nextHandle w,
   mkWindow (initialized w) (updatePending w) (rafHandle w) (timeoutHandle w)
     (frames w ++ [(nextHandle w, cb)]) (timers w) (observers w) (listeners w)
     (S (nextHandle w))).

Definition cancelAnimationFrame (id : nat) (w : Window) : Window :=
  mkWindow (initialized w) (updatePending w) (rafHandle w) (timeoutHandle w)
    (filter (fun f => negb (Nat.eqb (fst f) id)) (frames w))
    (timers w) (observers w) (listeners w) (nextHandle w).

Definition setTimeout (cb : TimerCallback) (delay : Z) (w : Window) : nat * Window :=
  (nextHandle w,
   mkWindow (initialized w) (updatePending w) (rafHandle w) (timeoutHandle w)
     (frames w) (timers w ++ [(nextHandle w, delay, cb)]) (observers w)
     (listeners w) (S (nextHandle w))).

Definition clearTimeout (id : nat) (w : Window) : Window :=
  mkWindow (initialized w) (updatePending w) (rafHandle w) (timeoutHandle w)
    (frames w) (filter (fun t => negb (Nat.eqb (fst (fst t)) id)) (timers w))
    (observers w) (listeners w) (nextHandle w).

Definition set_flags (i p : bool) (r t : option nat) (w : Window) : Window :=
  mkWindow i p r t (frames w) (timers w) (observers w) (listeners w)
    (nextHandle w).

Definition addEventListener (target type : string) (w : Window) : Window :=
  mkWindow (initialized w) (updatePending w) (rafHandle w) (timeoutHandle w)
    (frames w) (timers w) (observers w) (listeners w ++ [(target, type)])
    (nextHandle w).

Definition observe (kind : ObserverKind) (w : Window) : Window :=
  mkWindow (initialized w) (updatePending w) (rafHandle w) (timeoutHandle w)
    (frames w) (timers w) (observers w ++ [kind]) (listeners w)
    (nextHandle w).

Definition runHeightUpdate (w : Window) : Window :=
  let w :=
    match rafHandle w with
    | Some id => cancelAnimationFrame id w
    | None => w
    end in
  let '(id, w) := requestAnimationFrame UpdateHeight w in
  set_flags (initialized w) (updatePending w) (Some id) (timeoutHandle w) w.

Definition scheduleHeightUpdate (w : Window) : Window :=
  let w :=
    if updatePending w then w
    else runHeightUpdate
           (set_flags (initialized w) true (rafHandle w) (timeoutHandle w) w) in
  let w :=
    match timeoutHandle w with
    | Some id => clearTimeout id w
    | None => w
    end in
  let '(id, w) := setTimeout Debounced DEBOUNCE_DELAY_MS w in
  set_flags (initialized w) (updatePending w) (rafHandle w) (Some id) w.

Section Script.

Variable caps : Capabilities.

Local Open Scope string_scope.

Definition attachMutationObserver (w : Window) : Window :=
  if negb (hasMutationObserver caps) then w
  else if negb (hasTarget caps)
       then snd (requestAnimationFrame AttachMutationObserver w)
       else observe MutationObserver w.

Definition attachResizeObserver (w : Window) : Window :=
  if negb (hasResizeObserver caps) then w else observe ResizeObserver w.

Definition attachVisualViewport (w : Window) : Window :=
  if negb (hasVisualViewport caps) then w
  else addEventListener "visualViewport" "scroll"
         (addEventListener "visualViewport" "resize" w).

Definition attachFontLoadListeners (w : Window) : Window :=
  if negb (hasFontEvents caps) then w
  else addEventListener "fonts" "loadingerror"
         (addEventListener "fonts" "loadingdone" w).

Definition attachGlobalListeners (w : Window) : Window :=
  let w :=
    fold_left (fun w type => addEventListener "window" type w)
      ["load"; "pageshow"; "orientationchange"; "resize"; "DOMContentLoaded"] w in
  addEventListener "document" "readystatechange" w.

Definition bootstrap (w : Window) : Window :=
  let w := attachMutationObserver w in
  let w := attachResizeObserver w in
  let w := attachVisualViewport w in
  let w := attachFontLoadListeners w in
  let w := attachGlobalListeners w in
  let w := scheduleHeightUpdate w in
  fold_left (fun w delay => snd (setTimeout ScheduleHeightUpdate delay w))
    [16; 60; 180; 500; 1000; 2000]%Z w.

(** One evaluation of the injected script. *)
Definition install (w : Window) : Window :=
  if initialized w then w
  else
    let w := set_flags true (updatePending w) (rafHandle w) (timeoutHandle w) w in
    let w := addEventListener "window" "message" w in
    bootstrap w.

End Script.

(** A window in which the script has not run. *)
Definition pristine : Window := mkWindow false false None None [] [] [] [] 1.

End LegacyBridge.

(** ** Scenarios

    The concrete instances the properties are exercised on; they follow the
    test suite of the hook. *)
Module Scenarios.

Import Reconciler.

Definition runtime : string -> number := decimal_StringToNumber.

(** 'deduplicates frame scheduling and commits the latest pending height' *)
Definition burst_start : Hook :=
  useAutoHeight true true (mkOptions (num 100) (Some 0)).

(** 'initialises with the provided minimum height and updates via payloads',
    after the frame. *)
Definition minimum120 : UseAutoHeightOptions := mkOptions (num 120) (Some 0).

Definition committed240 : Hook :=
  run runtime [Ingest (VString "240"); Frame] (useAutoHeight true true minimum120).

(** 'respects minHeight changes by scheduling a re-measure' *)
Definition mounted80 : Hook :=
  useAutoHeight true true (mkOptions (num 80) (Some 0)).

Definition raised200 : UseAutoHeightOptions := mkOptions (num 200) (Some 0).

(** Payloads, frames and a lowered minimum. *)
Definition lowering_trace : list Op :=
  [Ingest (VString "240"); Frame; Rerender (mkOptions (num 100) (Some 0));
   Ingest (VNumber (num 50)); Frame; Unmount].

(** A payload is pending while the minimum is raised to a value that is
    still below the committed height. *)
Definition stale_commit : Hook :=
  run runtime
    [Ingest (VNumber (num 100)); Frame;
     Ingest (VNumber (num 60)); Rerender (mkOptions (num 90) (Some 0)); Frame]
    (useAutoHeight true true (mkOptions (num 50) (Some 0))).

(** 'cancels any pending animation frame on unmount' *)
Definition pending300 : Hook :=
  run runtime [Ingest (VNumber (num 300))]
    (useAutoHeight true true (mkOptions (num 90) (Some 0))).

Definition unmounted_cancelled : Hook := unmount pending300.

(** The same in a host that has [requestAnimationFrame] only. *)
Definition unmounted_uncancelled : Hook :=
  run runtime [Ingest (VNumber (num 300)); Unmount]
    (useAutoHeight true false (mkOptions (num 90) (Some 0))).

End Scenarios.

(** The concrete documents the properties of the agent are exercised on. *)
Module AgentScenarios.

Import Agent.

(** A browser with every capability, holding an image still loading and an
    iframe already loaded. *)
Definition browser : Host :=
  mkHost true true true true true true true true true true true true true
    [mkElement 7 IMG false; mkElement 8 IFRAME true].

Definition box (z : Z) : Box := mkBox (num z) (num z) (num z) (num z).

(** A layout whose every metric is [z]. *)
Definition flat (z : Z) : Layout := mkLayout true (box z) (box z) (box z) (num 0).

(** A document that always measures 300. *)
Definition steady (n : nat) : Layout := flat 300.

(** A document that measures 500000 once, then 300. *)
Definition glitch (n : nat) : Layout :=
  match n with
  | O => flat 500000
  | S _ => flat 300
  end.

(** A document that always measures 500000. *)
Definition tall (n : nat) : Layout := flat 500000.

Definition first_run : option World :=
  install browser steady 3 (pristine Complete Working).

Definition second_run : option World :=
  match first_run with
  | Some w => install browser steady 3 w
  | None => None
  end.

(** A post without a channel, then the same height once the channel works. *)
Definition failed_post : option World :=
  postHeight browser steady 3 (num 100) (pristine Complete Absent).

Definition retried_post : option World :=
  match failed_post with
  | Some w => postHeight browser steady 3 (num 100) (set_channel Working w)
  | None => None
  end.

(** The script is injected twice while the document is loading; then the
    document becomes interactive and the handler of [ensureDomReady] runs. *)
Definition deferred_run : option World :=
  w <- install browser steady 3 (pristine Loading Working) ;;
  w <- install browser steady 3 w ;;
  invoke browser steady (fun _ => false) 3 (CbDomReady [0; 1]) NoPayload
    (set_readyState Interactive w).

(** A height, the same again, another one, and the first one back. *)
Definition oscillation : list number := [num 100; num 100; num 250; num 100].

End AgentScenarios.

(** ** Bursts of payloads and what the callbacks are told

    Functions that describe, for the statements about the hook, what a run
    of payloads amounts to. *)
Module ReconcilerSpec.

Import Reconciler.

Section Bursts.

Variable StringToNumber : string -> number.

(** The height a payload would schedule on the instance [s], if any: its
    candidate, unless the payload is malformed or within the threshold. *)
Definition accepted (s : Hook) (rawValue : value) : option number :=
  let numericValue := Number StringToNumber rawValue in
  if negb (isFinite numericValue) || le numericValue (num 0) then None
  else if insignificant s numericValue then None
       else Some (candidate (minHeight (options s)) numericValue).

(** The height scheduled last by a run of payloads, [pending] if none is. *)
Fixpoint latest (s : Hook) (payloads : list value) (pending : option number)
    : option number :=
  match payloads with
  | [] => pending
  | rawValue :: rest =>
      latest s rest
        match accepted s rawValue with
        | Some h => Some h
        | None => pending
        end
  end.

End Bursts.

(** The idle instance [s] once [pending] has been scheduled on a frame. *)
Definition scheduled (s : Hook) (pending : option number) : Hook :=
  match pending with
  | None => s
  | Some h =>
      set_frameRef (Some (S (rafCalls s)))
        (snd (requestAnimationFrame (onHeightChange (options s))
                (set_pendingHeightRef (Some h) s)))
  end.

(** Every render of the trace supplies an [onHeightChange]. *)
Definition supplies_callback (ops : list Op) : bool :=
  forallb (fun op => match op with
                     | Rerender o =>
                         match onHeightChange o with
                         | Some _ => true
                         | None => false
                         end
                     | _ => true
                     end) ops.

(** The height the callbacks were told last, [initial] if they were told
    none. *)
Definition last_notified (initial : number) (s : Hook) : number :=
  last (map snd (notified s)) initial.

(** The callbacks are told no more often than frames were requested. *)
Definition paced (s : Hook) : Prop :=
  hasRequestFrame s = true
  /\ (List.length (notified s) + List.length (rafQueue s) <= rafCalls s)%nat.

(** Every closure that can commit has a callback to tell, and the callbacks
    were told the height of the ref. *)
Definition informed (initial : number) (s : Hook) : Prop :=
  onHeightChange (options s) <> None
  /\ Forall (fun r : FrameRequest => snd r <> None) (rafQueue s)
  /\ lastHeightRef s = last_notified initial s.

(** The committed height, the ref and the pending value are at least 1,
    and the configured minimum is a number. *)
Definition positive (s : Hook) : Prop :=
  isNaN (minHeight (options s)) = false
  /\ le (num 1) (height s) = true
  /\ le (num 1) (lastHeightRef s) = true
  /\ forall p, pendingHeightRef s = Some p -> le (num 1) p = true.

(** Every render of the trace configures a minimum that is a number. *)
Definition minima_are_numbers (ops : list Op) : bool :=
  forallb (fun op => match op with
                     | Rerender o => negb (isNaN (minHeight o))
                     | _ => true
                     end) ops.

End ReconcilerSpec.

(** ** The container component: [SizedWebView]

    The two scripts the component hands to the web view.  The text of the
    bridge is a parameter. *)
Module Container.

Import Composer.

Section Scripts.

Variable AUTO_HEIGHT_BRIDGE : string.

(** [composedBeforeContentScript] *)
Definition composedBeforeContentScript
    (injectedJavaScriptBeforeContentLoaded : option string) : option string :=
  composeInjectedScript
    [Some AUTO_HEIGHT_BRIDGE; injectedJavaScriptBeforeContentLoaded].

End Scripts.

(** [composedInjectedScript] *)
Definition composedInjectedScript (injectedJavaScript : option string)
    : option string :=
  composeInjectedScript [injectedJavaScript].


(** [prefix p s]: the string [s] starts with [p]. *)
Fixpoint starts_with (p s : string) : bool :=
  match p, s with
  | EmptyString, _ => true
  | String a p', String b s' => Ascii.eqb a b && starts_with p' s'
  | String _ _, EmptyString => false
  end.

End Container.

(** ** What the agent's teardown and re-measurement amount to *)
Module AgentSpec.

Import Agent.

(** Every registered listener and every connected observer has its undoing
    in [state.cleanup]. *)
Definition accounted (w : World) : Prop :=
  (forall l, In l (listeners w) ->
             In (RemoveListener (lid l)) (cleanup (state w)))
  /\ (forall o, In o (observers w) ->
                In (Disconnect (fst o)) (cleanup (state w))).

Section Remeasuring.

Variable host : Host.
Variable document : nat -> Layout.
Variable fuel : nat.

(** [n] forced measurements in a row. *)
Fixpoint remeasure (n : nat) (w : World) : option World :=
  match n with
  | O => Some w
  | S k => w <- scheduleMeasure host document fuel true w ;; remeasure k w
  end.

End Remeasuring.

(** What every step of the agent keeps: registrations stay accounted for
    and the in-flight counter stays at or above zero. *)
Definition keeps (w w' : World) : Prop :=
  (accounted w -> accounted w')
  /\ ((0 <= pendingLoads (state w))%Z -> (0 <= pendingLoads (state w'))%Z).

Section Playing.

Variable host : Host.
Variable document : nat -> Layout.
Variable topicIsMessageKey : string -> bool.
Variable fuel : nat.

(** The callbacks the environment invokes, one after the other, each with
    its payload. *)
Fixpoint play (events : list (Callback * Payload)) (w : World) : option World :=
  match events with
  | [] => Some w
  | (cb, arg) :: rest =>
      w <- invoke host document topicIsMessageKey fuel cb arg w ;;
      play rest w
  end.

End Playing.

End AgentSpec.

(** * Properties *)

(** ** Order facts about numbers *)
Module JSFacts.

Lemma le_refl : forall x, isNaN x = false -> le x x = true.
Proof.
  intros [ | | q | ] H; simpl in *; try reflexivity; try discriminate.
  apply Qle_bool_iff, Qle_refl.
Qed.

Lemma le_trans : forall x y z, le x y = true -> le y z = true -> le x z = true.
Proof.
  intros [ | | a | ] [ | | b | ] [ | | c | ]; simpl; intros Hxy Hyz;
    try reflexivity; try discriminate.
  apply Qle_bool_iff in Hxy; apply Qle_bool_iff in Hyz.
  apply Qle_bool_iff. eapply Qle_trans; eassumption.
Qed.


Lemma le_not_NaN_r : forall x y, le x y = true -> isNaN y = false.
Proof.
  intros [ | | a | ] [ | | b | ] H; simpl in *; try reflexivity; discriminate.
Qed.


(** [x > y] excludes [x <= y], and neither side is [NaN]. *)
Lemma gt_le_false : forall x y, gt x y = true -> le x y = false.
Proof.
  unfold gt.
  intros [ | | a | ] [ | | b | ]; simpl; intros H;
    try reflexivity; try discriminate.
  destruct (Qle_bool a b); [discriminate | reflexivity].
Qed.

Lemma gt_ge : forall x y, gt x y = true -> ge x y = true.
Proof.
  unfold gt, ge.
  intros [ | | a | ] [ | | b | ]; simpl; intros H;
    try reflexivity; try discriminate.
  apply Qle_bool_iff. apply Qlt_le_weak.
  apply Qnot_le_lt. intro Hle. apply Qle_bool_iff in Hle.
  rewrite Hle in H. discriminate.
Qed.


Lemma Math_max_ge_r :
  forall m x, isNaN m = false -> isNaN x = false -> le x (Math_max m x) = true.
Proof.
  intros [ | | a | ] [ | | b | ] Hm Hx; simpl in *;
    try reflexivity; try discriminate.
  - apply Qle_bool_iff, Qle_refl.
  - destruct (Qle_bool a b) eqn:E; simpl.
    + apply Qle_bool_iff, Qle_refl.
    + apply Qle_bool_iff. apply Qlt_le_weak. apply Qnot_le_lt.
      intro Hle. apply Qle_bool_iff in Hle. congruence.
Qed.

(** A minimum that does not exceed an integer payload leaves it alone. *)
Lemma Math_max_absorb :
  forall m z, le m (num z) = true -> Math_max m (Math_ceil (num z)) = num z.
Proof.
  intros [ | | a | ] z H; simpl in *; try discriminate.
  - unfold num. rewrite Qceiling_Z. reflexivity.
  - rewrite Qceiling_Z. rewrite H. reflexivity.
Qed.

Lemma Math_ceil_ge : forall x, isNaN x = false -> le x (Math_ceil x) = true.
Proof.
  intros [ | | q | ] H; simpl in *; try reflexivity; try discriminate.
  apply Qle_bool_iff, Qle_ceiling.
Qed.

Lemma Math_ceil_finite : forall x, isFinite (Math_ceil x) = isFinite x.
Proof. intros [ | | q | ]; reflexivity. Qed.

Lemma finite_not_NaN : forall x, isFinite x = true -> isNaN x = false.
Proof. intros [ | | q | ] H; simpl in *; try reflexivity; discriminate. Qed.

End JSFacts.

(** ** The reconciler *)
Module ReconcilerFacts.

Import Reconciler JSFacts.

Section WithRuntime.

Variable StringToNumber : string -> number.

(** The coercion of [setHeightFromPayload] is [Number]. *)
Lemma coercion_is_Number :
  forall v, match v with VNumber x => x | _ => Number StringToNumber v end
            = Number StringToNumber v.
Proof. intros []; reflexivity. Qed.

Lemma setHeightFromPayload_unfold :
  forall v s,
    setHeightFromPayload StringToNumber v s =
    let x := Number StringToNumber v in
    if negb (isFinite x) || le x (num 0) then s
    else if insignificant s x then s
         else scheduleCommit (candidate (minHeight (options s)) x) s.
Proof.
  intros v s. unfold Reconciler.setHeightFromPayload.
  rewrite coercion_is_Number. reflexivity.
Qed.

(** *** Single-flight scheduling is an invariant of a mounted instance *)

Lemma flush_fields :
  forall cb s,
    frameRef (flushPendingHeight cb s) = None
    /\ pendingHeightRef (flushPendingHeight cb s) = None
    /\ rafQueue (flushPendingHeight cb s) = rafQueue s
    /\ rafCalls (flushPendingHeight cb s) = rafCalls s
    /\ mounted (flushPendingHeight cb s) = mounted s
    /\ options (flushPendingHeight cb s) = options s.
Proof.
  intros cb s. unfold flushPendingHeight, commitHeight.
  destruct s as [o m h l f [p|] hr hc q n c nt]; simpl;
    [destruct cb; simpl|]; repeat split; reflexivity.
Qed.

Lemma flush_last_height :
  forall cb s,
    mounted s = true -> lastHeightRef s = height s ->
    lastHeightRef (flushPendingHeight cb s) = height (flushPendingHeight cb s).
Proof.
  intros cb s Hm Hl. unfold flushPendingHeight, commitHeight.
  destruct s as [o m h l f [p|] hr hc q n c nt]; simpl in *.
  - destruct cb; simpl; rewrite Hm; reflexivity.
  - exact Hl.
Qed.

Lemma scheduleCommit_coherent :
  forall h s, coherent s -> coherent (scheduleCommit h s).
Proof.
  intros h s (Hm & Hl & Hsf). unfold scheduleCommit. simpl.
  destruct Hsf as [[Hf Hq] | (id & cb & Hf & Hq)]; rewrite Hf.
  - destruct (hasRequestFrame s) eqn:Hraf; simpl.
    + repeat split; simpl; try assumption.
      right. exists (S (rafCalls s)), (onHeightChange (options s)).
      rewrite Hq. split; reflexivity.
    + set (s0 := set_pendingHeightRef (Some h) s).
      destruct (flush_fields (onHeightChange (options s)) s0)
        as (F1 & F2 & F3 & F4 & F5 & F6).
      repeat split.
      * rewrite F5. exact Hm.
      * apply flush_last_height; assumption.
      * left. split; [exact F1 | rewrite F3; exact Hq].
  - repeat split; simpl; try assumption.
    right. exists id, cb. split; assumption.
Qed.

Lemma runFrame_coherent : forall s, coherent s -> coherent (runFrame s).
Proof.
  intros s (Hm & Hl & Hsf). unfold runFrame.
  destruct Hsf as [[Hf Hq] | (id & cb & Hf & Hq)]; rewrite Hq; simpl.
  - repeat split; simpl; try assumption. left. split; [assumption | reflexivity].
  - set (s0 := set_rafQueue [] s).
    destruct (flush_fields cb s0) as (F1 & F2 & F3 & F4 & F5 & F6).
    repeat split.
    + rewrite F5. exact Hm.
    + apply flush_last_height; assumption.
    + left. split; [exact F1 | rewrite F3; reflexivity].
Qed.

Lemma minHeightEffect_coherent :
  forall s, coherent s -> coherent (minHeightEffect s).
Proof.
  intros s H. unfold minHeightEffect.
  destruct (gt _ _); [apply scheduleCommit_coherent|]; exact H.
Qed.

Lemma step_coherent :
  forall s op, op <> Unmount -> coherent s -> coherent (step StringToNumber s op).
Proof.
  intros s [v | o | | ] Hop H; simpl.
  - rewrite setHeightFromPayload_unfold. simpl.
    destruct (_ || _); [exact H|].
    destruct (insignificant _ _); [exact H|].
    apply scheduleCommit_coherent; exact H.
  - unfold rerender. destruct H as (Hm & Hl & Hsf). rewrite Hm.
    assert (Hc : coherent (set_options o s)) by (repeat split; assumption).
    destruct (_ && _); [exact Hc|].
    apply minHeightEffect_coherent; exact Hc.
  - apply runFrame_coherent; exact H.
  - congruence.
Qed.

Lemma mount_coherent :
  forall hasRaf hasCaf o, coherent (useAutoHeight hasRaf hasCaf o).
Proof.
  intros. unfold useAutoHeight. apply minHeightEffect_coherent.
  repeat split. left. split; reflexivity.
Qed.

(** Every state of a trace without unmount is coherent. *)
Lemma run_coherent :
  forall ops s, stays_mounted ops = true -> coherent s -> coherent (run StringToNumber ops s).
Proof.
  induction ops as [|op ops IH]; intros s Hops Hs; simpl in *.
  - exact Hs.
  - apply andb_prop in Hops as [Hop Hops].
    apply IH; [exact Hops|].
    apply step_coherent; [|exact Hs].
    intro E; subst op; discriminate.
Qed.


Lemma idle_queue_empty :
  forall s, single_flight s -> frameRef s = None -> rafQueue s = [].
Proof.
  intros s [[_ Hq] | (id & cb & Hf & _)] H; [exact Hq | congruence].
Qed.

(** C1 (burst coalescing).  In a host with [requestAnimationFrame], from an
    instance with no commit scheduled, the payloads [180] and [220], both
    beyond the threshold, lead to one frame request in all; neither
    ingestion commits or notifies; the frame then commits [220] and notifies
    it once, and [180] is never committed or notified. *)
Theorem burst_coalescing :
  forall (s : Hook) (c : nat),
    coherent s -> frameRef s = None -> hasRequestFrame s = true ->
    onHeightChange (options s) = Some c ->
    le (minHeight (options s)) (num 220) = true ->
    insignificant s (num 180) = false ->
    insignificant s (num 220) = false ->
    let s1 := setHeightFromPayload StringToNumber (VNumber (num 180)) s in
    let s2 := setHeightFromPayload StringToNumber (VNumber (num 220)) s1 in
    let s3 := runFrame s2 in
    rafCalls s1 = S (rafCalls s) /\ rafCalls s2 = S (rafCalls s)
    /\ rafQueue s2 = [(S (rafCalls s), Some c)]
    /\ pendingHeightRef s2 = Some (num 220)
    /\ height s1 = height s /\ height s2 = height s
    /\ notified s1 = notified s /\ notified s2 = notified s
    /\ rafCalls s3 = S (rafCalls s) /\ rafQueue s3 = []
    /\ pendingHeightRef s3 = None
    /\ height s3 = num 220
    /\ notified s3 = (notified s ++ [(c, num 220)])%list.
Proof.
  intros s c (Hm & Hl & Hsf) Hf Hraf Hcb Hmin H180 H220 s1 s2 s3.
  pose proof (idle_queue_empty Hsf Hf) as Hq.
  assert (E1 : s1 = set_frameRef (Some (S (rafCalls s)))
                 (snd (requestAnimationFrame (Some c)
                    (set_pendingHeightRef
                       (Some (candidate (minHeight (options s)) (num 180))) s)))).
  { subst s1. rewrite setHeightFromPayload_unfold. cbv zeta.
    change (Number StringToNumber (VNumber (num 180))) with (num 180).
    change (negb (isFinite (num 180)) || le (num 180) (num 0)) with false.
    cbv iota. rewrite H180. unfold scheduleCommit. simpl.
    rewrite Hf, Hraf, Hcb. reflexivity. }
  assert (E2 : s2 = set_pendingHeightRef (Some (num 220)) s1).
  { subst s2. rewrite setHeightFromPayload_unfold. cbv zeta.
    change (Number StringToNumber (VNumber (num 220))) with (num 220).
    change (negb (isFinite (num 220)) || le (num 220) (num 0)) with false.
    cbv iota.
    assert (Hi : insignificant s1 (num 220) = insignificant s (num 220))
      by (rewrite E1; reflexivity).
    rewrite Hi, H220. unfold scheduleCommit.
    assert (Hf1 : frameRef (set_pendingHeightRef
               (Some (candidate (minHeight (options s1)) (num 220))) s1)
             = Some (S (rafCalls s))) by (rewrite E1; reflexivity).
    rewrite Hf1.
    assert (Ho : options s1 = options s) by (rewrite E1; reflexivity).
    rewrite Ho. unfold candidate. rewrite (Math_max_absorb _ _ Hmin).
    reflexivity. }
  subst s3. rewrite E2, E1. unfold runFrame. simpl. rewrite Hq. simpl.
  rewrite Hm. repeat split; reflexivity.
Qed.

(** C3 (change-significance threshold).  A payload that coerces to a finite,
    strictly positive number and whose candidate is within one unit of the
    committed height leaves the instance as it is: same committed height, no
    frame request, no notification. *)
Theorem threshold_suppression :
  forall (v : value) (s : Hook),
    isFinite (Number StringToNumber v) = true ->
    gt (Number StringToNumber v) (num 0) = true ->
    lastHeightRef s = height s ->
    le (Math_abs (sub (candidate (minHeight (options s)) (Number StringToNumber v))
                      (height s)))
       (num 1) = true ->
    let s' := setHeightFromPayload StringToNumber v s in
    s' = s
    /\ height s' = height s
    /\ pendingHeightRef s' = pendingHeightRef s
    /\ rafCalls s' = rafCalls s /\ rafQueue s' = rafQueue s
    /\ notified s' = notified s.
Proof.
  intros v s Hfin Hpos Hl Hclose s'.
  assert (E : s' = s).
  { subst s'. rewrite setHeightFromPayload_unfold. cbv zeta.
    rewrite Hfin, (gt_le_false _ _ Hpos). simpl.
    unfold insignificant, HEIGHT_DIFF_THRESHOLD. rewrite Hl, Hclose.
    reflexivity. }
  rewrite E. repeat split; reflexivity.
Qed.

Lemma gt_not_same : forall x y, gt x y = true -> same_value y x = false.
Proof.
  unfold gt.
  intros [ | | a | ] [ | | b | ]; simpl; intros H;
    try reflexivity; try discriminate.
  destruct (Qeq_bool b a) eqn:E; [|reflexivity].
  apply Qeq_bool_iff in E.
  assert (Hle : Qle_bool a b = true).
  { apply Qle_bool_iff. rewrite E. apply Qle_refl. }
  rewrite Hle in H. discriminate.
Qed.

(** C5 (minimum-height reconfiguration).  When a render raises [minHeight]
    strictly above the committed height, the effect calls [scheduleCommit]
    with [ceil(minHeight)]: nothing is committed at once, the value is
    pending, exactly one frame request is outstanding, and that frame
    commits [ceil(minHeight)]. *)
Theorem minimum_raise_schedules_commit :
  forall (s : Hook) (o : UseAutoHeightOptions),
    coherent s -> hasRequestFrame s = true ->
    gt (minHeight o) (minHeight (options s)) = true ->
    gt (minHeight o) (height s) = true ->
    let target := Math_ceil (minHeight o) in
    let s' := rerender o s in
    s' = scheduleCommit target (set_options o s)
    /\ pendingHeightRef s' = Some target
    /\ height s' = height s /\ notified s' = notified s
    /\ rafCalls s' = match frameRef s with
                     | Some _ => rafCalls s
                     | None => S (rafCalls s)
                     end
    /\ (exists id cb,
          frameRef s' = Some id /\ rafQueue s' = [(id, cb)]
          /\ notified (runFrame s') =
             match cb with
             | Some c => (notified s ++ [(c, target)])%list
             | None => notified s
             end)
    /\ height (runFrame s') = target
    /\ lastHeightRef (runFrame s') = target
    /\ pendingHeightRef (runFrame s') = None
    /\ frameRef (runFrame s') = None
    /\ rafQueue (runFrame s') = [].
Proof.
  intros s o (Hm & Hl & Hsf) Hraf Hraised Habove target s'.
  assert (E : s' = scheduleCommit target (set_options o s)).
  { subst s'. unfold rerender. rewrite Hm, (gt_not_same _ _ Hraised). simpl.
    unfold minHeightEffect. simpl. rewrite Hl, Habove. reflexivity. }
  split; [exact E|]. rewrite E. clear E s'. unfold scheduleCommit. simpl.
  destruct Hsf as [[Hf Hq] | (id & cb & Hf & Hq)]; rewrite Hf.
  - rewrite Hraf. unfold runFrame. simpl. rewrite Hq. simpl. rewrite Hm.
    destruct (onHeightChange o) as [c|]; simpl; repeat split; try reflexivity.
    + exists (S (rafCalls s)), (Some c). repeat split.
    + exists (S (rafCalls s)), None. repeat split.
  - unfold runFrame. simpl. rewrite Hq. simpl.
    unfold flushPendingHeight, commitHeight.
    destruct cb as [c|]; simpl; rewrite Hm; repeat split; try reflexivity.
    + exists id, (Some c). repeat split. exact Hf.
    + exists id, None. repeat split. exact Hf.
Qed.

(** *** The configured minimum bounds what is committed *)











(** *** Teardown *)

Lemma runFrame_idle : forall s, rafQueue s = [] -> runFrame s = s.
Proof.
  intros s Hq. unfold runFrame. rewrite Hq. simpl.
  destruct s; simpl in *; subst; reflexivity.
Qed.

Lemma unmount_cancels :
  forall s,
    single_flight s -> hasCancelFrame s = true -> rafQueue (unmount s) = [].
Proof.
  intros s [[Hf Hq] | (id & cb & Hf & Hq)] Hc; unfold unmount; rewrite Hf.
  - simpl. exact Hq.
  - rewrite Hc. simpl. rewrite Hq. simpl. rewrite Nat.eqb_refl. reflexivity.
Qed.

(** C6, amended (teardown).  In a host with [cancelAnimationFrame],
    unmounting cancels the outstanding frame request, so that the frames
    that follow run nothing: no commit and no notification.  And a flush
    that finds no pending value only clears [frameRef]: it commits nothing
    and calls no callback. *)
Theorem teardown_cancels_and_idle_flush_is_noop :
  forall (s : Hook) (cb : option nat) (n : nat),
    single_flight s -> hasCancelFrame s = true ->
    rafQueue (unmount s) = []
    /\ Nat.iter n runFrame (unmount s) = unmount s
    /\ (pendingHeightRef s = None ->
        flushPendingHeight cb s = set_frameRef None s
        /\ height (flushPendingHeight cb s) = height s
        /\ lastHeightRef (flushPendingHeight cb s) = lastHeightRef s
        /\ notified (flushPendingHeight cb s) = notified s).
Proof.
  intros s cb n Hsf Hc.
  pose proof (unmount_cancels Hsf Hc) as Hq.
  split; [exact Hq|]. split.
  - induction n as [|n IH]; simpl; [reflexivity|].
    rewrite IH. apply runFrame_idle. exact Hq.
  - intros Hp. unfold flushPendingHeight.
    destruct s as [o m h l f p hr hc q k c nt]; simpl in *. subst p.
    repeat split.
Qed.

End WithRuntime.

(** *** The properties on the scenarios of the test suite *)

Import Scenarios.

Lemma burst_coalescing_witness :
  (coherent burst_start /\ frameRef burst_start = None
   /\ hasRequestFrame burst_start = true
   /\ onHeightChange (options burst_start) = Some 0
   /\ le (minHeight (options burst_start)) (num 220) = true
   /\ insignificant burst_start (num 180) = false
   /\ insignificant burst_start (num 220) = false)
  /\ rafCalls (run runtime [Ingest (VNumber (num 180)); Ingest (VNumber (num 220))]
                 burst_start) = 1
  /\ notified (run runtime [Ingest (VNumber (num 180)); Ingest (VNumber (num 220)); Frame]
                 burst_start) = [(0, num 220)].
Proof.
  assert (H1 : coherent burst_start) by apply mount_coherent.
  assert (H2 : frameRef burst_start = None) by reflexivity.
  assert (H3 : hasRequestFrame burst_start = true) by reflexivity.
  assert (H4 : onHeightChange (options burst_start) = Some 0) by reflexivity.
  assert (H5 : le (minHeight (options burst_start)) (num 220) = true) by reflexivity.
  assert (H6 : insignificant burst_start (num 180) = false) by reflexivity.
  assert (H7 : insignificant burst_start (num 220) = false) by reflexivity.
  destruct (@burst_coalescing runtime burst_start 0 H1 H2 H3 H4 H5 H6 H7)
    as (_ & C2 & _ & _ & _ & _ & _ & _ & _ & _ & _ & _ & C13).
  split; [exact (conj H1 (conj H2 (conj H3 (conj H4 (conj H5 (conj H6 H7))))))|].
  split; [exact C2 | exact C13].
Defined.

Lemma threshold_suppression_witness :
  (isFinite (Number runtime (VNumber (Fin (2404 # 10)))) = true
   /\ gt (Number runtime (VNumber (Fin (2404 # 10)))) (num 0) = true
   /\ lastHeightRef committed240 = height committed240
   /\ le (Math_abs (sub (candidate (minHeight (options committed240))
                                   (Number runtime (VNumber (Fin (2404 # 10)))))
                        (height committed240)))
         (num 1) = true)
  /\ setHeightFromPayload runtime (VNumber (Fin (2404 # 10))) committed240
     = committed240.
Proof.
  assert (H1 : isFinite (Number runtime (VNumber (Fin (2404 # 10)))) = true)
    by reflexivity.
  assert (H2 : gt (Number runtime (VNumber (Fin (2404 # 10)))) (num 0) = true)
    by reflexivity.
  assert (H3 : lastHeightRef committed240 = height committed240) by reflexivity.
  assert (H4 : le (Math_abs (sub (candidate (minHeight (options committed240))
                                   (Number runtime (VNumber (Fin (2404 # 10)))))
                        (height committed240)))
         (num 1) = true) by reflexivity.
  destruct (@threshold_suppression runtime (VNumber (Fin (2404 # 10)))
              committed240 H1 H2 H3 H4) as (E & _).
  split; [exact (conj H1 (conj H2 (conj H3 H4))) | exact E].
Defined.

Lemma minimum_raise_schedules_commit_witness :
  (coherent mounted80 /\ hasRequestFrame mounted80 = true
   /\ gt (minHeight raised200) (minHeight (options mounted80)) = true
   /\ gt (minHeight raised200) (height mounted80) = true)
  /\ rafCalls (rerender raised200 mounted80) = 1
  /\ height (rerender raised200 mounted80) = num 80
  /\ height (runFrame (rerender raised200 mounted80)) = num 200.
Proof.
  assert (H1 : coherent mounted80) by apply mount_coherent.
  assert (H2 : hasRequestFrame mounted80 = true) by reflexivity.
  assert (H3 : gt (minHeight raised200) (minHeight (options mounted80)) = true)
    by reflexivity.
  assert (H4 : gt (minHeight raised200) (height mounted80) = true) by reflexivity.
  destruct (@minimum_raise_schedules_commit mounted80 raised200 H1 H2 H3 H4)
    as (_ & _ & C3 & _ & C5 & _ & C7 & _).
  split; [exact (conj H1 (conj H2 (conj H3 H4)))|].
  split; [exact C5|]. split; [exact C3 | exact C7].
Defined.


(** A pending value computed under a lower minimum is committed as it is:
    here 60 is committed while the minimum is 90, and it stays. *)
Lemma stale_pending_commits_below_minimum :
  height stale_commit = num 60
  /\ minHeight (options stale_commit) = num 90
  /\ pendingHeightRef stale_commit = None
  /\ rafQueue stale_commit = [].
Proof. repeat split. Qed.


(** C6, as stated, fails: the cleanup leaves the pending value in place.  In
    a host without [cancelAnimationFrame] the frame requested before the
    unmount still runs, commits 300 and notifies it; and where the request
    was cancelled, an invocation of the scheduled closure does the same. *)
Lemma commit_after_unmount :
  (mounted unmounted_uncancelled = false
   /\ notified unmounted_uncancelled = []
   /\ lastHeightRef (runFrame unmounted_uncancelled) = num 300
   /\ notified (runFrame unmounted_uncancelled) = [(0, num 300)])
  /\ (mounted unmounted_cancelled = false
      /\ cancelCalls unmounted_cancelled = [1]
      /\ notified unmounted_cancelled = []
      /\ lastHeightRef (flushPendingHeight (Some 0) unmounted_cancelled) = num 300
      /\ notified (flushPendingHeight (Some 0) unmounted_cancelled) = [(0, num 300)]).
Proof. repeat split. Qed.

Lemma teardown_witness :
  (single_flight pending300 /\ hasCancelFrame pending300 = true)
  /\ rafQueue (unmount pending300) = []
  /\ Nat.iter 2 runFrame (unmount pending300) = unmount pending300
  /\ notified (Nat.iter 2 runFrame (unmount pending300)) = [].
Proof.
  assert (H1 : single_flight pending300).
  { right. exists 1, (Some 0). split; reflexivity. }
  assert (H2 : hasCancelFrame pending300 = true) by reflexivity.
  destruct (@teardown_cancels_and_idle_flush_is_noop pending300 (Some 0) 2 H1 H2)
    as (C1 & C2 & _).
  split; [exact (conj H1 H2)|].
  split; [exact C1|]. split; [exact C2|].
  rewrite C2. reflexivity.
Defined.

End ReconcilerFacts.

(** ** The script composer *)
Module ComposerFacts.

Import Composer.

Local Open Scope string_scope.

(** The filter keeps the remaining strings. *)
Lemma filter_remaining :
  forall chunks, filter Boolean chunks = map Some (remaining chunks).
Proof.
  induction chunks as [|chunk rest IH]; [reflexivity|].
  destruct chunk as [[|c s]|]; simpl; congruence.
Qed.

Lemma join_concat :
  forall (sep : string) (parts : list string),
    join sep (map Some parts) = String.concat sep parts.
Proof.
  intros sep. induction parts as [|p ps IH]; [reflexivity|].
  destruct ps as [|q qs]; [reflexivity|].
  change (join sep (map Some (p :: q :: qs)))
    with (p ++ sep ++ join sep (map Some (q :: qs))).
  rewrite IH. reflexivity.
Qed.

(** [join] on the filtered chunks is the concatenation of the remaining
    strings. *)
Lemma join_filter_concat :
  forall (sep : string) (chunks : list (option string)),
    join sep (filter Boolean chunks) = String.concat sep (remaining chunks).
Proof.
  intros sep chunks. rewrite filter_remaining. apply join_concat.
Qed.

Lemma filter_length_remaining :
  forall chunks, List.length (filter Boolean chunks) = List.length (remaining chunks).
Proof.
  induction chunks as [|chunk rest IH]; [reflexivity|].
  destruct chunk as [[|c s]|]; simpl; congruence.
Qed.

Lemma ends_with_append :
  forall suffix s, ends_with suffix (s ++ suffix) = true.
Proof.
  intros suffix. induction s as [|c s IH].
  - change (EmptyString ++ suffix) with suffix.
    destruct suffix; cbn [ends_with]; rewrite String.eqb_refl; reflexivity.
  - change (String c s ++ suffix) with (String c (s ++ suffix)).
    cbn [ends_with]. destruct (String.eqb _ _); [reflexivity | exact IH].
Qed.

Lemma append_assoc : forall a b c : string, (a ++ b) ++ c = a ++ (b ++ c).
Proof.
  induction a as [|x a IH]; intros b c; simpl; [reflexivity|].
  rewrite IH. reflexivity.
Qed.

(** C7 (script composer).  The composed script is what the specification
    describes: nothing when no chunk remains after dropping the absent and
    empty ones, otherwise the remaining chunks joined by line breaks and
    followed by a line break and [true;]; a composed script ends in that
    statement; and ["a();"] with ["b();"] gives the two lines and [true;]. *)
Theorem composer_correct :
  forall chunks : list (option string),
    composeInjectedScript chunks = composed_spec chunks
    /\ match composeInjectedScript chunks with
       | Some script => ends_with TERMINATOR script = true
       | None => remaining chunks = []
       end
    /\ composeInjectedScript [Some "a();"; Some "b();"]
       = Some ("a();" ++ LF ++ "b();" ++ LF ++ "true;").
Proof.
  intros chunks.
  assert (E : composeInjectedScript chunks = composed_spec chunks).
  { unfold composeInjectedScript, composed_spec.
    rewrite filter_length_remaining, join_filter_concat.
    destruct (remaining chunks); reflexivity. }
  split; [exact E|]. split; [|reflexivity].
  rewrite E. unfold composed_spec.
  destruct (remaining chunks) as [|p ps]; [reflexivity|].
  rewrite <- append_assoc. apply ends_with_append.
Qed.

End ComposerFacts.

(** ** The measurement agent *)
Module AgentFacts.

Import Agent JSFacts.

(** The call returned: continue with the world it returned. *)
Ltac returned := let E := fresh "E" in intros E; injection E as <-.

Lemma untouched_refl : forall w, untouched w w.
Proof. intros w. repeat split. Qed.

Lemma untouched_trans :
  forall w1 w2 w3, untouched w1 w2 -> untouched w2 w3 -> untouched w1 w3.
Proof.
  unfold untouched. intros w1 w2 w3 H12 H23.
  destruct H12 as (A1 & A2 & A3 & A4 & A5 & A6 & A7 & A8 & A9 & A10).
  destruct H23 as (B1 & B2 & B3 & B4 & B5 & B6 & B7 & B8 & B9 & B10).
  repeat split; congruence.
Qed.

Lemma setTimeout_untouched :
  forall cb delay w, untouched w (snd (setTimeout cb delay w)).
Proof. intros. repeat split. Qed.

Lemma clearTimeout_untouched : forall id w, untouched w (clearTimeout id w).
Proof. intros. repeat split. Qed.

Lemma scheduleFallback_untouched : forall w, untouched w (scheduleFallback w).
Proof.
  intros w. unfold scheduleFallback.
  destruct (fallbackTimer (state w)); repeat split.
Qed.

Lemma resetFallback_untouched : forall w, untouched w (resetFallback w).
Proof.
  intros w. unfold resetFallback.
  eapply untouched_trans; [|apply scheduleFallback_untouched].
  simpl. destruct (fallbackTimer (state w)); repeat split.
Qed.

Section WithHost.

Variable host : Host.
Variable document : nat -> Layout.

Lemma cancelFrame_untouched : forall id w, untouched w (cancelFrame host id w).
Proof.
  intros. unfold cancelFrame. destruct (hasCancelAnimationFrame host); repeat split.
Qed.

Lemma requestFrame_untouched :
  forall cb w, untouched w (snd (requestFrame host cb w)).
Proof.
  intros. unfold requestFrame. destruct (hasRequestAnimationFrame host); repeat split.
Qed.

Lemma ensureWrapper_untouched :
  forall w, untouched w (snd (ensureWrapper host document w)).
Proof.
  intros. unfold ensureWrapper.
  destruct (_ && _); [repeat split|].
  destruct (negb _); repeat split.
Qed.

Lemma scheduleMeasure_force :
  forall run w,
    scheduleMeasure_with host run true w = run (cancel_scheduled host w).
Proof. reflexivity. Qed.

Lemma cancel_scheduled_untouched : forall w, untouched w (cancel_scheduled host w).
Proof.
  intros w. unfold cancel_scheduled.
  destruct (frame (state w)) as [id|].
  - eapply untouched_trans with (w2 := upd_state (set_frame None) (cancelFrame host id w)).
    + eapply untouched_trans; [apply cancelFrame_untouched|]. repeat split.
    + destruct (timer _); repeat split.
  - destruct (timer _); repeat split.
Qed.

Lemma measureHeight_effect :
  forall w,
    let w' := snd (measureHeight host document w) in
    globalKey w' = globalKey w /\ channel w' = channel w
    /\ listeners w' = listeners w /\ observers w' = observers w
    /\ posted w' = posted w /\ measured w' = S (measured w)
    /\ cleanup (state w') = cleanup (state w)
    /\ lastHeight (state w') = lastHeight (state w)
    /\ anomalyCount (state w') = anomalyCount (state w)
    /\ pendingLoads (state w') = pendingLoads (state w).
Proof.
  intros w. unfold measureHeight, ensureWrapper.
  destruct (_ && _); [repeat split|].
  destruct (negb _); repeat split.
Qed.

End WithHost.


Lemma untouched_calm : forall w w', untouched w w' -> calm w w'.
Proof.
  unfold untouched, calm.
  intros w w' (A1 & A2 & A3 & A4 & A5 & A6 & A7 & A8 & A9 & A10).
  repeat split; try assumption. rewrite A6. apply Nat.le_refl.
Qed.

Lemma calm_trans :
  forall w1 w2 w3, calm w1 w2 -> calm w2 w3 -> calm w1 w3.
Proof.
  unfold calm.
  intros w1 w2 w3 (A1 & A2 & A3 & A4 & A5 & A6 & A7 & A8)
         (B1 & B2 & B3 & B4 & B5 & B6 & B7 & B8).
  repeat split; try congruence.
  eapply Nat.le_trans; eassumption.
Qed.

Lemma calm_posting :
  forall w1 w2 w3, calm w1 w2 -> posting w2 w3 -> posting w1 w3.
Proof.
  unfold calm, posting.
  intros w1 w2 w3 (A1 & A2 & A3 & A4 & A5 & A6 & A7 & A8)
         (B1 & B2 & B3 & B4 & B5 & B6 & B7 & B8).
  repeat split; try congruence.
  - eapply Nat.le_trans; eassumption.
  - rewrite <- A5. exact B8.
Qed.

Lemma posting_untouched :
  forall w1 w2 w3, posting w1 w2 -> untouched w2 w3 -> posting w1 w3.
Proof.
  unfold untouched, posting.
  intros w1 w2 w3 (B1 & B2 & B3 & B4 & B5 & B6 & B7 & B8)
         (A1 & A2 & A3 & A4 & A5 & A6 & A7 & A8 & A9 & A10).
  repeat split; try congruence.
  rewrite A5, A8, A9. exact B8.
Qed.

Lemma calm_is_posting : forall w w', calm w w' -> posting w w'.
Proof.
  unfold calm, posting.
  intros w w' (A1 & A2 & A3 & A4 & A5 & A6 & A7 & A8).
  repeat split; try assumption. left. exact A5.
Qed.

Lemma deliver_posting :
  forall sanitized w,
    (gt sanitized ANOMALY_HEIGHT = true ->
     (ANOMALY_RUN <= anomalyCount (state w))%nat) ->
    posting w (deliver sanitized w).
Proof.
  intros sanitized w Hbig. unfold deliver.
  destruct (strict_eq _ _).
  - apply calm_is_posting, untouched_calm, untouched_refl.
  - unfold postMessage. simpl.
    destruct (channel w); unfold posting; simpl; repeat split;
      try apply Nat.le_refl; try (left; reflexivity).
    right. exists sanitized. repeat split. exact Hbig.
Qed.

Section Measuring.

Variable host : Host.
Variable document : nat -> Layout.

Lemma postHeight_with_posting :
  forall (run : World -> option World),
    (forall w w', run w = Some w' -> posting w w') ->
    forall height w w',
      postHeight_with host run height w = Some w' -> posting w w'.
Proof.
  intros run Hrun height w w'. unfold postHeight_with.
  destruct (_ || _).
  { returned.
    apply calm_is_posting, untouched_calm, untouched_refl. }
  destruct (_ || _).
  { returned.
    apply calm_is_posting. repeat split. apply Nat.le_refl. }
  destruct (gt (Math_ceil height) ANOMALY_HEIGHT) eqn:Hbig.
  - destruct (Nat.ltb _ _) eqn:Hrun3.
    + rewrite scheduleMeasure_force. intros E. apply Hrun in E.
      eapply calm_posting; [|exact E].
      eapply calm_trans;
        [|apply untouched_calm, cancel_scheduled_untouched].
      repeat split. apply Nat.le_refl.
    + returned.
      eapply calm_posting; [|apply deliver_posting].
      * repeat split. apply Nat.le_refl.
      * intros _. apply Nat.ltb_ge in Hrun3. exact Hrun3.
  - returned.
    eapply calm_posting; [|apply deliver_posting].
    + repeat split. apply Nat.le_refl.
    + intros Hb. rewrite Hb in Hbig. discriminate.
Qed.

(** One [runMeasure] installs nothing, measures, and posts at most once. *)
Lemma runMeasure_posting :
  forall fuel w w',
    runMeasure host document fuel w = Some w' ->
    posting w w' /\ (measured w < measured w')%nat.
Proof.
  induction fuel as [|fuel IH]; intros w w'; simpl; [discriminate|].
  destruct (measureHeight host document (upd_state (set_frame None) w))
    as [height w1] eqn:Hm.
  pose proof (measureHeight_effect host document (upd_state (set_frame None) w))
    as M. rewrite Hm in M. simpl in M.
  destruct M as (M1 & M2 & M3 & M4 & M5 & M6 & M7 & M8 & M9 & M10).
  assert (C : calm w w1).
  { repeat split; try assumption. rewrite M6. apply Nat.le_succ_diag_r. }
  assert (P : forall w2, posting w1 w2 ->
                posting w (resetFallback w2)
                /\ (measured w < measured (resetFallback w2))%nat).
  { intros w2 P2.
    assert (P3 : posting w1 (resetFallback w2))
      by (eapply posting_untouched; [exact P2 | apply resetFallback_untouched]).
    split; [eapply calm_posting; eassumption|].
    destruct P3 as (_ & _ & _ & _ & L & _). rewrite M6 in L. exact L. }
  destruct (truthy height).
  - destruct (postHeight_with host (runMeasure host document fuel) height w1)
      as [w2|] eqn:Hp; [|discriminate].
    returned. apply P.
    eapply postHeight_with_posting; [|exact Hp].
    intros a b Hab. apply IH in Hab. tauto.
  - returned. apply P.
    apply calm_is_posting, untouched_calm, untouched_refl.
Qed.

(** The recursion is bounded by the anomaly counter: three levels are
    enough from any world. *)
Lemma runMeasure_returns :
  forall fuel w,
    (1 <= fuel)%nat -> (ANOMALY_RUN <= fuel + anomalyCount (state w))%nat ->
    exists w', runMeasure host document fuel w = Some w'.
Proof.
  induction fuel as [|fuel IH]; intros w H1 H3; [inversion H1|].
  simpl.
  destruct (measureHeight host document (upd_state (set_frame None) w))
    as [height w1] eqn:Hm.
  pose proof (measureHeight_effect host document (upd_state (set_frame None) w))
    as M. rewrite Hm in M. simpl in M.
  destruct M as (_ & _ & _ & _ & _ & _ & _ & _ & M9 & _).
  destruct (truthy height); [|eexists; reflexivity].
  unfold postHeight_with.
  destruct (_ || _); [eexists; reflexivity|].
  destruct (_ || _); [eexists; reflexivity|].
  destruct (gt _ _); [|eexists; reflexivity].
  destruct (Nat.ltb _ _) eqn:Hlt; [|eexists; reflexivity].
  rewrite scheduleMeasure_force.
  simpl in Hlt. apply Nat.ltb_lt in Hlt. rewrite M9 in Hlt.
  unfold ANOMALY_RUN in *.
  destruct (IH (cancel_scheduled host
                  (upd_state (fun s => set_anomalyCount (S (anomalyCount s)) s)
                     (upd_state (set_lastCssHeight height) w1)))) as [w' Hw'].
  - lia.
  - pose proof (cancel_scheduled_untouched host
                  (upd_state (fun s => set_anomalyCount (S (anomalyCount s)) s)
                     (upd_state (set_lastCssHeight height) w1))) as U.
    destruct U as (_ & _ & _ & _ & _ & _ & _ & _ & U9 & _).
    rewrite U9. simpl. rewrite M9. lia.
  - rewrite Hw'. eexists; reflexivity.
Qed.

End Measuring.


(** *** Installation *)

Section Installing.

Variable host : Host.
Variable document : nat -> Layout.
Variable fuel : nat.
Hypothesis enough : (ANOMALY_RUN <= fuel)%nat.

Lemma scheduleMeasure_force_returns :
  forall w,
    exists w',
      scheduleMeasure host document fuel true w = Some w'
      /\ posting w w' /\ (measured w < measured w')%nat.
Proof.
  intros w. unfold scheduleMeasure. rewrite scheduleMeasure_force.
  destruct (@runMeasure_returns host document fuel (cancel_scheduled host w))
    as [w' Hw'].
  - unfold ANOMALY_RUN in enough. lia.
  - lia.
  - exists w'. split; [exact Hw'|].
    apply runMeasure_posting in Hw' as [P L].
    pose proof (cancel_scheduled_untouched host w) as U.
    split.
    + eapply calm_posting; [apply untouched_calm; exact U | exact P].
    + destruct U as (_ & _ & _ & _ & _ & U6 & _). rewrite U6 in L. exact L.
Qed.












End Installing.

(** *** The posting rule *)

Lemma postable_guards :
  forall height,
    postable height = true ->
    negb (truthy height) || le height (num 0) = false
    /\ negb (isFinite (Math_ceil height)) || le (Math_ceil height) (num 0) = false.
Proof.
  intros [ | | q | ]; unfold postable; simpl; try discriminate.
  intros H. unfold gt in H. simpl in H.
  destruct (Qle_bool q (inject_Z 0)) eqn:Hle; [discriminate|].
  assert (Hpos : (0 < q)%Q).
  { apply Qnot_le_lt. intro C. apply Qle_bool_iff in C.
    change (inject_Z 0) with 0%Q in Hle. congruence. }
  split.
  - destruct (Qeq_bool q 0) eqn:Heq; [|reflexivity].
    apply Qeq_bool_iff in Heq. rewrite Heq in Hpos.
    exfalso. exact (Qlt_irrefl _ Hpos).
  - destruct (Qle_bool (inject_Z (Qceiling q)) (inject_Z 0)) eqn:Hc; [|reflexivity].
    apply Qle_bool_iff in Hc. exfalso.
    apply (Qlt_irrefl 0%Q). eapply Qlt_le_trans; [exact Hpos|].
    eapply Qle_trans; [apply Qle_ceiling | exact Hc].
Qed.

Lemma unpostable_guards :
  forall height,
    postable height = false ->
    negb (truthy height) || le height (num 0) = true
    \/ negb (isFinite (Math_ceil height)) || le (Math_ceil height) (num 0) = true.
Proof.
  intros [ | | q | ]; unfold postable; simpl; intros H;
    try (left; reflexivity); try (right; reflexivity).
  unfold gt in H. simpl in H. left.
  destruct (Qle_bool q (inject_Z 0)); [|discriminate].
  apply orb_true_r.
Qed.

Section Posting.

Variable host : Host.
Variable document : nat -> Layout.

(** One call with a candidate that is not implausibly large. *)
Lemma postHeight_plausible :
  forall (run : World -> option World) (height : number) (w : World),
    implausible height = false ->
    exists w',
      postHeight_with host run height w = Some w'
      /\ channel w' = channel w
      /\ lastHeight (state w')
         = (if postable height
               && negb (strict_eq (lastHeight (state w)) (Math_ceil height))
            then Math_ceil height else lastHeight (state w))
      /\ posted w'
         = (if postable height
               && negb (strict_eq (lastHeight (state w)) (Math_ceil height))
            then (posted w ++ received (channel w) [Math_ceil height])%list
            else posted w).
Proof.
  intros run height w Hplain. unfold implausible in Hplain.
  unfold postHeight_with.
  destruct (postable height) eqn:Hp.
  - destruct (postable_guards height Hp) as [G1 G2].
    rewrite G1, G2, Hplain. eexists; split; [reflexivity|].
    unfold deliver. simpl.
    destruct (strict_eq (lastHeight (state w)) (Math_ceil height)); simpl.
    + repeat split.
    + unfold postMessage. simpl.
      destruct (channel w) eqn:C; simpl; repeat split;
        try rewrite app_nil_r; try reflexivity; exact C.
  - destruct (unpostable_guards height Hp) as [G1 | G2].
    + rewrite G1. eexists; simpl; repeat split.
    + destruct (negb (truthy height) || le height (num 0));
        [eexists; simpl; repeat split|].
      rewrite G2. eexists; simpl; repeat split.
Qed.

Lemma last_cons : forall (A : Type) (l : list A) (a d : A), last (a :: l) d = last l a.
Proof.
  intros A l. induction l as [|b l IH]; intros a d; [reflexivity|].
  change (last (a :: b :: l) d) with (last (b :: l) d).
  rewrite (IH b d), (IH b a). reflexivity.
Qed.

(** C8, amended (posting de-duplication).  Of a run of candidates none of
    which is implausibly large, the agent hands to the channel each finite,
    strictly positive one, rounded up, that differs from the height handed
    over last; [state.lastHeight] is the height handed over last whether or
    not the channel took it; and the host receives the heights handed over
    when the channel works, and none of them otherwise. *)
Theorem posting_rule :
  forall (fuel : nat) (heights : list number) (w : World),
    forallb (fun height => negb (implausible height)) heights = true ->
    exists w',
      postHeights host document fuel heights w = Some w'
      /\ channel w' = channel w
      /\ lastHeight (state w')
         = last (handed_over (lastHeight (state w)) heights) (lastHeight (state w))
      /\ posted w'
         = (posted w
            ++ received (channel w) (handed_over (lastHeight (state w)) heights))%list.
Proof.
  intros fuel. induction heights as [|height rest IH]; intros w Hall.
  - exists w. simpl. repeat split.
    destruct (channel w); simpl; rewrite app_nil_r; reflexivity.
  - simpl in Hall. apply andb_prop in Hall as [Hh Hrest].
    apply negb_true_iff in Hh.
    destruct (postHeight_plausible (runMeasure host document fuel) height w Hh)
      as (w1 & E1 & C1 & L1 & P1).
    destruct (IH w1 Hrest) as (w' & E & C & L & P).
    exists w'. simpl. unfold postHeight. rewrite E1.
    split; [exact E|]. split; [congruence|].
    rewrite L, P, C1, L1, P1.
    destruct (postable height
              && negb (strict_eq (lastHeight (state w)) (Math_ceil height))).
    + rewrite last_cons. split; [reflexivity|].
      rewrite <- app_assoc. f_equal.
      destruct (channel w); reflexivity.
    + split; reflexivity.
Qed.



End Posting.

(** *** The in-flight counter *)

Lemma load_step_nonnegative :
  forall w op,
    (0 <= pendingLoads (state w))%Z ->
    (0 <= pendingLoads (state (load_step w op)))%Z.
Proof.
  intros w [|] H; simpl.
  - unfold markLoading.
    destruct (scheduleFallback_untouched
                (upd_state (fun s => set_pendingLoads (pendingLoads s + 1) s) w))
      as (_ & _ & _ & _ & _ & _ & _ & _ & _ & U).
    rewrite U. simpl. lia.
  - unfold clearLoading.
    destruct (0 <? pendingLoads (state w))%Z eqn:E; [|exact H].
    simpl. apply Z.ltb_lt in E. lia.
Qed.

(** C10 (in-flight counter).  From a counter that is not negative, as the
    one of a new session, every interleaving of [markLoading] and
    [clearLoading] keeps it so in every world it goes through. *)
Theorem pendingLoads_never_negative :
  forall (ops : list LoadOp) (w : World),
    (0 <= pendingLoads (state w))%Z ->
    Forall (fun w' => (0 <= pendingLoads (state w'))%Z) (load_states ops w).
Proof.
  induction ops as [|op ops IH]; intros w H; simpl.
  - constructor; [exact H | constructor].
  - constructor; [exact H|]. apply IH. apply load_step_nonnegative. exact H.
Qed.

(** *** The properties on concrete documents *)

Import AgentScenarios.


(** The two runs on the concrete document: sixteen listeners and two
    observers after the first run and after the second, which measures once
    more.  And when the script is injected twice into a document still
    loading, the bootstrap that follows installs the same, once. *)
Lemma install_twice_counts :
  option_map (fun w => (List.length (listeners w), List.length (observers w), measured w))
    first_run = Some (16, 2, 2)%nat
  /\ option_map (fun w => (List.length (listeners w), List.length (observers w), measured w))
       second_run = Some (16, 2, 3)%nat
  /\ option_map (fun w => (List.length (listeners w), List.length (observers w), measured w))
       deferred_run = Some (16, 2, 3)%nat.
Proof. repeat split. Qed.

(** C8, as stated, fails: [state.lastHeight] is set before the post is
    attempted.  With no channel, 100 is not received but becomes the last
    height; once the channel works, the same 100 is held back. *)
Lemma failed_post_is_suppressed :
  option_map posted failed_post = Some []
  /\ option_map (fun w => lastHeight (state w)) failed_post = Some (num 100)
  /\ option_map channel retried_post = Some Working
  /\ option_map posted retried_post = Some [].
Proof. repeat split. Qed.

Lemma posting_rule_witness :
  forallb (fun height => negb (implausible height)) oscillation = true
  /\ exists w',
       postHeights browser steady 3 oscillation (pristine Complete Working) = Some w'
       /\ posted w' = [num 100; num 250; num 100]
       /\ lastHeight (state w') = num 100.
Proof.
  assert (H : forallb (fun height => negb (implausible height)) oscillation = true)
    by reflexivity.
  split; [exact H|].
  destruct (@posting_rule browser steady 3 oscillation (pristine Complete Working) H)
    as (w' & E & _ & L & P).
  exists w'. exact (conj E (conj P L)).
Defined.


(** One implausible layout followed by a plausible one: the large height is
    never posted.  Three implausible layouts in a row: the third measurement
    posts it. *)
Lemma glitch_and_persistent_height :
  option_map (fun w => (posted w, measured w, anomalyCount (state w)))
    (runMeasure browser glitch 3 (pristine Complete Working))
  = Some ([num 300], 2%nat, 0%nat)
  /\ option_map (fun w => (posted w, measured w, anomalyCount (state w)))
       (runMeasure browser tall 3 (pristine Complete Working))
     = Some ([num 500000], 3%nat, 3%nat).
Proof. split; reflexivity. Qed.

Lemma pendingLoads_never_negative_witness :
  (0 <= pendingLoads (state (pristine Loading Absent)))%Z
  /\ Forall (fun w' => (0 <= pendingLoads (state w'))%Z)
       (load_states [ClearLoading; MarkLoading; ClearLoading; ClearLoading]
          (pristine Loading Absent)).
Proof.
  assert (H : (0 <= pendingLoads (state (pristine Loading Absent)))%Z)
    by (simpl; lia).
  split; [exact H|].
  exact (@pendingLoads_never_negative
           [ClearLoading; MarkLoading; ClearLoading; ClearLoading]
           (pristine Loading Absent) H).
Defined.

End AgentFacts.

(** ** The flag-guarded bridge *)
Module LegacyBridgeFacts.

Import LegacyBridge.

(** The first evaluation sets the flag. *)
Lemma install_sets_flag :
  forall caps w, initialized (install caps w) = true.
Proof.
  intros caps w. unfold install.
  destruct (initialized w) eqn:E; [exact E|].
  unfold bootstrap, scheduleHeightUpdate, runHeightUpdate,
    attachGlobalListeners, attachFontLoadListeners, attachVisualViewport,
    attachResizeObserver, attachMutationObserver.
  destruct (negb (hasMutationObserver caps)), (negb (hasTarget caps)),
    (negb (hasResizeObserver caps)), (negb (hasVisualViewport caps)),
    (negb (hasFontEvents caps)), (updatePending w), (rafHandle w),
    (timeoutHandle w); reflexivity.
Qed.

(** Evaluated again, the flag-guarded script does nothing at all: it
    registers nothing, and it schedules no measurement either. *)
Lemma install_again_is_identity :
  forall caps w, install caps (install caps w) = install caps w.
Proof.
  intros caps w. unfold install at 1. rewrite install_sets_flag. reflexivity.
Qed.

End LegacyBridgeFacts.

(** ** More on the reconciler *)
Module ReconcilerLaws.

Import Reconciler ReconcilerSpec JSFacts.

(** No number exceeds its maximum with 1, [NaN] included. *)
Lemma gt_max_one : forall m, gt m (Math_max m (num 1)) = false.
Proof.
  intros [ | | q | ]; try reflexivity.
  unfold gt, num. simpl.
  destruct (Qle_bool q (inject_Z 1)) eqn:E; simpl.
  - rewrite E. reflexivity.
  - assert (R : Qle_bool q q = true) by (apply Qle_bool_iff, Qle_refl).
    rewrite R. reflexivity.
Qed.

Lemma mount_is_quiet_aux :
  forall (hasRaf hasCaf : bool) (o : UseAutoHeightOptions),
    useAutoHeight hasRaf hasCaf o
    = mkHook o true (Math_max (minHeight o) (num 1))
        (Math_max (minHeight o) (num 1)) None None hasRaf hasCaf [] 0 [] [].
Proof.
  intros hasRaf hasCaf o. unfold useAutoHeight, minHeightEffect. simpl.
  rewrite gt_max_one. reflexivity.
Qed.

(** X1 (mount).  Whatever the minimum, [NaN] and the infinities included,
    mounting commits [max(minHeight, 1)] and nothing else happens: the
    effect on the minimum does not fire, no frame is requested, nothing is
    pending and no callback is called. *)
Theorem mount_is_quiet :
  forall (hasRaf hasCaf : bool) (o : UseAutoHeightOptions),
    useAutoHeight hasRaf hasCaf o
    = mkHook o true (Math_max (minHeight o) (num 1))
        (Math_max (minHeight o) (num 1)) None None hasRaf hasCaf [] 0 [] [].
Proof.
  exact mount_is_quiet_aux.
Qed.

Section WithRuntime.

Variable StringToNumber : string -> number.

Lemma ingest_accepted :
  forall v s,
    setHeightFromPayload StringToNumber v s
    = match accepted StringToNumber s v with
      | Some h => scheduleCommit h s
      | None => s
      end.
Proof.
  intros v s. unfold setHeightFromPayload, accepted.
  assert (E : match v with VNumber x => x | _ => Number StringToNumber v end
              = Number StringToNumber v) by (destruct v; reflexivity).
  rewrite E. cbv zeta.
  destruct (_ || _); [reflexivity|].
  unfold insignificant. destruct (le _ _); reflexivity.
Qed.

Lemma accepted_scheduled :
  forall s pending v,
    accepted StringToNumber (scheduled s pending) v = accepted StringToNumber s v.
Proof. intros s [h|] v; reflexivity. Qed.

(** One more payload on an instance whose frame is already requested. *)
Lemma ingest_scheduled :
  forall s pending v,
    frameRef s = None -> hasRequestFrame s = true ->
    setHeightFromPayload StringToNumber v (scheduled s pending)
    = scheduled s match accepted StringToNumber s v with
                  | Some h => Some h
                  | None => pending
                  end.
Proof.
  intros s pending v Hf Hraf. rewrite ingest_accepted, accepted_scheduled.
  destruct (accepted StringToNumber s v) as [h|]; [|reflexivity].
  destruct pending as [h0|]; unfold scheduled, scheduleCommit; simpl.
  - reflexivity.
  - rewrite Hf, Hraf. reflexivity.
Qed.

Lemma burst_scheduled :
  forall vs s pending,
    frameRef s = None -> hasRequestFrame s = true ->
    run StringToNumber (map Ingest vs) (scheduled s pending)
    = scheduled s (latest StringToNumber s vs pending).
Proof.
  induction vs as [|v vs IH]; intros s pending Hf Hraf; simpl.
  - reflexivity.
  - rewrite (ingest_scheduled s pending v Hf Hraf). apply IH; assumption.
Qed.

(** X2 (bursts).  Payloads ingested between two frames, however many and
    with malformed or insignificant ones among them, commit and notify
    nothing by themselves and request one frame in all, none if no payload
    is accepted; the frame commits the candidate of the last accepted
    payload and notifies it once. *)
Theorem burst_latest_wins :
  forall (s : Hook) (c : nat) (vs : list value),
    mounted s = true -> frameRef s = None -> rafQueue s = [] ->
    pendingHeightRef s = None -> hasRequestFrame s = true ->
    onHeightChange (options s) = Some c ->
    let winner := latest StringToNumber s vs None in
    let s' := run StringToNumber (map Ingest vs) s in
    height s' = height s
    /\ notified s' = notified s
    /\ pendingHeightRef s' = winner
    /\ rafCalls s' = match winner with
                     | Some _ => S (rafCalls s)
                     | None => rafCalls s
                     end
    /\ height (runFrame s') = match winner with
                              | Some h => h
                              | None => height s
                              end
    /\ notified (runFrame s') = match winner with
                                | Some h => (notified s ++ [(c, h)])%list
                                | None => notified s
                                end.
Proof.
  intros s c vs Hm Hf Hq Hp Hraf Hcb winner s'.
  assert (E : s' = scheduled s winner).
  { subst s' winner.
    change s with (scheduled s None) at 1.
    apply burst_scheduled; assumption. }
  rewrite E. clear E s'.
  destruct winner as [h|]; unfold scheduled, runFrame; simpl.
  - rewrite Hq, Hcb. simpl. rewrite Hm. repeat split.
  - rewrite Hq. simpl. repeat split. exact Hp.
Qed.

(** X3 (no frame primitive).  In a host without [requestAnimationFrame] an
    accepted payload is committed within the call: the height and the ref
    are the candidate, the callback is told once, nothing stays pending and
    no frame is requested. *)
Theorem synchronous_commit :
  forall (s : Hook) (c : nat) (v : value) (h : number),
    mounted s = true -> frameRef s = None -> hasRequestFrame s = false ->
    onHeightChange (options s) = Some c ->
    accepted StringToNumber s v = Some h ->
    let s' := setHeightFromPayload StringToNumber v s in
    height s' = h /\ lastHeightRef s' = h
    /\ notified s' = (notified s ++ [(c, h)])%list
    /\ pendingHeightRef s' = None /\ frameRef s' = None
    /\ rafCalls s' = rafCalls s /\ rafQueue s' = rafQueue s.
Proof.
  intros s c v h Hm Hf Hraf Hcb Ha s'. subst s'.
  rewrite ingest_accepted, Ha. unfold scheduleCommit. simpl.
  rewrite Hf, Hraf, Hcb. unfold flushPendingHeight, commitHeight. simpl.
  rewrite Hm. repeat split.
Qed.

(** *** Along traces *)

Lemma states_coherent :
  forall ops s,
    stays_mounted ops = true -> coherent s ->
    Forall (fun s' => coherent s' /\ (List.length (rafQueue s') <= 1)%nat)
      (states StringToNumber ops s).
Proof.
  assert (Q : forall s, coherent s -> (List.length (rafQueue s) <= 1)%nat).
  { intros s (_ & _ & [[_ Hq] | (id & cb & _ & Hq)]); rewrite Hq; simpl; lia. }
  induction ops as [|op ops IH]; intros s Hops Hs; simpl in *.
  - constructor; [split; [exact Hs | exact (Q s Hs)] | constructor].
  - apply andb_prop in Hops as [Hop Hops].
    constructor; [split; [exact Hs | exact (Q s Hs)]|].
    apply IH; [exact Hops|].
    apply ReconcilerFacts.step_coherent; [|exact Hs].
    intro E; subst op; discriminate.
Qed.

(** X4 (single flight).  While the instance stays mounted, in every state of
    every trace of payloads, renders and frames at most one frame request is
    outstanding, [frameRef] names it, and the ref and the state hold the
    same height. *)
Theorem single_flight_along_traces :
  forall (hasRaf hasCaf : bool) (o : UseAutoHeightOptions) (ops : list Op),
    stays_mounted ops = true ->
    Forall (fun s => coherent s /\ (List.length (rafQueue s) <= 1)%nat)
      (states StringToNumber ops (useAutoHeight hasRaf hasCaf o)).
Proof.
  intros hasRaf hasCaf o ops Hops.
  apply states_coherent; [exact Hops|].
  apply ReconcilerFacts.mount_coherent.
Qed.

Lemma flush_notifies_at_most_once :
  forall cb s,
    (List.length (notified (flushPendingHeight cb s))
     <= S (List.length (notified s)))%nat
    /\ rafQueue (flushPendingHeight cb s) = rafQueue s
    /\ rafCalls (flushPendingHeight cb s) = rafCalls s
    /\ hasRequestFrame (flushPendingHeight cb s) = hasRequestFrame s.
Proof.
  intros cb s. unfold flushPendingHeight, commitHeight.
  destruct s as [o m h l f [p|] hr hc q n c nt]; simpl.
  - destruct cb; simpl; repeat split; try lia.
    rewrite length_app. simpl. lia.
  - repeat split. lia.
Qed.

Lemma flush_all_notifies :
  forall (q : list FrameRequest) (s : Hook),
    let s' := fold_left (fun s r => flushPendingHeight (snd r) s) q s in
    (List.length (notified s') <= List.length (notified s) + List.length q)%nat
    /\ rafQueue s' = rafQueue s /\ rafCalls s' = rafCalls s
    /\ hasRequestFrame s' = hasRequestFrame s.
Proof.
  induction q as [|r q IH]; intros s; simpl.
  - repeat split. lia.
  - destruct (IH (flushPendingHeight (snd r) s)) as (A & B & C & D).
    destruct (flush_notifies_at_most_once (snd r) s) as (A' & B' & C' & D').
    repeat split; try congruence. lia.
Qed.

Lemma scheduleCommit_paced :
  forall h s, paced s -> paced (scheduleCommit h s).
Proof.
  intros h s [Hraf Hle]. unfold scheduleCommit. simpl.
  destruct (frameRef s); [split; assumption|].
  rewrite Hraf. split; simpl; [reflexivity|].
  rewrite length_app. simpl. lia.
Qed.

Lemma filter_length_le :
  forall (A : Type) (f : A -> bool) (l : list A),
    (List.length (filter f l) <= List.length l)%nat.
Proof.
  intros A f. induction l as [|a l IH]; simpl; [lia|].
  destruct (f a); simpl; lia.
Qed.

Lemma step_paced :
  forall s op, paced s -> paced (step StringToNumber s op).
Proof.
  intros s [v | o | | ] P; simpl.
  - rewrite ingest_accepted.
    destruct (accepted _ _ _); [apply scheduleCommit_paced|]; exact P.
  - unfold rerender. destruct (mounted s); [|exact P].
    assert (P' : paced (set_options o s)) by exact P.
    destruct (_ && _); [exact P'|].
    unfold minHeightEffect. destruct (gt _ _); [apply scheduleCommit_paced|]; exact P'.
  - destruct P as [Hraf Hle]. unfold runFrame.
    destruct (flush_all_notifies (rafQueue s) (set_rafQueue [] s))
      as (A & B & C & D).
    simpl in A, B, C, D. split; [congruence|].
    rewrite B, C. simpl. rewrite Nat.add_0_r.
    eapply Nat.le_trans; [exact A | exact Hle].
  - destruct P as [Hraf Hle]. unfold unmount.
    destruct (frameRef s) as [id|]; [destruct (hasCancelFrame s)|];
      split; simpl; try assumption.
    eapply Nat.le_trans; [|exact Hle].
    apply Nat.add_le_mono_l, filter_length_le.
Qed.

(** X5 (pacing).  In a host with [requestAnimationFrame], at every point of
    every trace, unmount included, the number of calls of [onHeightChange]
    plus the number of outstanding frame requests is at most the number of
    frames requested: the callbacks are told at most once per requested
    frame. *)
Theorem notifications_paced_by_frames :
  forall (hasCaf : bool) (o : UseAutoHeightOptions) (ops : list Op),
    Forall (fun s =>
              (List.length (notified s) + List.length (rafQueue s)
               <= rafCalls s)%nat)
      (states StringToNumber ops (useAutoHeight true hasCaf o)).
Proof.
  intros hasCaf o ops.
  assert (P0 : paced (useAutoHeight true hasCaf o)).
  { rewrite mount_is_quiet_aux. split; simpl; [reflexivity | lia]. }
  generalize dependent (useAutoHeight true hasCaf o).
  induction ops as [|op ops IH]; intros s P; simpl.
  - constructor; [exact (proj2 P) | constructor].
  - constructor; [exact (proj2 P)|]. apply IH. apply step_paced. exact P.
Qed.

Lemma scheduleCommit_defers :
  forall h s,
    hasRequestFrame s = true ->
    height (scheduleCommit h s) = height s
    /\ lastHeightRef (scheduleCommit h s) = lastHeightRef s
    /\ notified (scheduleCommit h s) = notified s.
Proof.
  intros h s Hraf. unfold scheduleCommit. simpl.
  destruct (frameRef s); [repeat split|].
  rewrite Hraf. repeat split.
Qed.

(** X6 (commits happen in frames).  In a host with [requestAnimationFrame]
    no payload, render or unmount changes the committed height, the ref or
    what the callbacks were told: these change only when a frame runs. *)
Theorem commits_only_in_frames :
  forall (s : Hook) (op : Op),
    hasRequestFrame s = true -> op <> Frame ->
    height (step StringToNumber s op) = height s
    /\ lastHeightRef (step StringToNumber s op) = lastHeightRef s
    /\ notified (step StringToNumber s op) = notified s.
Proof.
  intros s [v | o | | ] Hraf Hop; simpl.
  - rewrite ingest_accepted.
    destruct (accepted _ _ _); [apply scheduleCommit_defers; exact Hraf|].
    repeat split.
  - unfold rerender. destruct (mounted s); [|repeat split].
    destruct (_ && _); [repeat split|].
    unfold minHeightEffect. destruct (gt _ _); [|repeat split].
    apply (scheduleCommit_defers _ (set_options o s)). exact Hraf.
  - congruence.
  - unfold unmount.
    destruct (frameRef s); [destruct (hasCancelFrame s)|]; repeat split.
Qed.

(** *** What the callbacks know *)

Lemma commit_informs :
  forall initial c h s,
    lastHeightRef (commitHeight (Some c) h s)
    = last_notified initial (commitHeight (Some c) h s).
Proof.
  intros initial c h s. unfold commitHeight, last_notified. simpl.
  rewrite map_app. simpl. rewrite last_last. reflexivity.
Qed.

Lemma flush_informs :
  forall initial c s,
    informed initial s -> informed initial (flushPendingHeight (Some c) s).
Proof.
  intros initial c s (Ho & Hq & Hl). unfold flushPendingHeight.
  destruct (pendingHeightRef (set_frameRef None s)) as [p|] eqn:E.
  - split; [|split].
    + unfold commitHeight. simpl. exact Ho.
    + unfold commitHeight. simpl. exact Hq.
    + apply commit_informs.
  - split; [|split]; assumption.
Qed.

Lemma flush_all_informs :
  forall initial (q : list FrameRequest) (s : Hook),
    Forall (fun r => snd r <> None) q ->
    informed initial s ->
    informed initial (fold_left (fun s r => flushPendingHeight (snd r) s) q s).
Proof.
  intros initial. induction q as [|[id cb] q IH]; intros s Hq I; simpl.
  - exact I.
  - inversion Hq as [|? ? Hcb Hq']; subst. simpl in Hcb.
    destruct cb as [c|]; [|congruence].
    apply IH; [exact Hq'|]. apply flush_informs. exact I.
Qed.

Lemma scheduleCommit_informs :
  forall initial h s, informed initial s -> informed initial (scheduleCommit h s).
Proof.
  intros initial h s (Ho & Hq & Hl). unfold scheduleCommit. simpl.
  destruct (frameRef s); [split; [|split]; assumption|].
  destruct (hasRequestFrame s).
  - split; [|split]; simpl; try assumption.
    apply Forall_app. split; [exact Hq|].
    constructor; [exact Ho | constructor].
  - destruct (onHeightChange (options s)) as [c|] eqn:E; [|congruence].
    apply flush_informs. split; [|split]; simpl; try assumption.
    rewrite E. discriminate.
Qed.

Lemma step_informs :
  forall initial s op,
    match op with
    | Rerender o => onHeightChange o <> None
    | _ => True
    end ->
    informed initial s -> informed initial (step StringToNumber s op).
Proof.
  intros initial s [v | o | | ] Hop I; simpl.
  - rewrite ingest_accepted.
    destruct (accepted _ _ _); [apply scheduleCommit_informs|]; exact I.
  - unfold rerender. destruct (mounted s); [|exact I].
    assert (I' : informed initial (set_options o s)).
    { destruct I as (Ho & Hq & Hl). split; [|split]; assumption. }
    destruct (_ && _); [exact I'|].
    unfold minHeightEffect.
    destruct (gt _ _); [apply scheduleCommit_informs|]; exact I'.
  - unfold runFrame. destruct I as (Ho & Hq & Hl).
    apply flush_all_informs; [exact Hq|].
    split; [|split]; simpl; try assumption. constructor.
  - destruct I as (Ho & Hq & Hl). unfold unmount.
    assert (F : forall id,
               Forall (fun r : FrameRequest => snd r <> None)
                 (filter (fun r => negb (Nat.eqb (fst r) id)) (rafQueue s))).
    { intros id. apply Forall_forall. intros r Hr.
      apply filter_In in Hr as [Hr _].
      rewrite Forall_forall in Hq. exact (Hq r Hr). }
    destruct (frameRef s) as [id|]; [destruct (hasCancelFrame s)|];
      split; try split; simpl; try assumption.
    apply F.
Qed.

(** X7 (the callbacks know).  When every render supplies an
    [onHeightChange], then at every point of every trace the height told
    last to a callback is the height in [lastHeightRef], the initial
    [max(minHeight, 1)] while no callback was told anything: no commit goes
    unannounced. *)
Theorem callbacks_know_the_committed_height :
  forall (hasRaf hasCaf : bool) (m : number) (c : nat) (ops : list Op),
    supplies_callback ops = true ->
    Forall (fun s =>
              lastHeightRef s = last_notified (Math_max m (num 1)) s)
      (states StringToNumber ops
         (useAutoHeight hasRaf hasCaf (mkOptions m (Some c)))).
Proof.
  intros hasRaf hasCaf m c ops Hops.
  assert (I0 : informed (Math_max m (num 1))
                 (useAutoHeight hasRaf hasCaf (mkOptions m (Some c)))).
  { rewrite mount_is_quiet_aux. split; [|split]; simpl.
    - discriminate.
    - constructor.
    - reflexivity. }
  generalize dependent (useAutoHeight hasRaf hasCaf (mkOptions m (Some c))).
  induction ops as [|op ops IH]; intros s I; simpl in *.
  - constructor; [exact (proj2 (proj2 I)) | constructor].
  - apply andb_prop in Hops as [Hop Hops].
    constructor; [exact (proj2 (proj2 I))|].
    apply IH; [exact Hops|]. apply step_informs; [|exact I].
    destruct op as [v | o | | ]; try exact Logic.I.
    destruct (onHeightChange o); [discriminate | discriminate Hop].
Qed.

(** *** The committed height never falls below one *)

Lemma ceil_positive :
  forall x,
    isFinite x = true -> le x (num 0) = false -> le (num 1) (Math_ceil x) = true.
Proof.
  intros [ | | q | ] Hf Hp; simpl in *; try discriminate.
  apply Qle_bool_iff. rewrite <- Zle_Qle.
  destruct (Z_lt_le_dec (Qceiling q) 1) as [L|L]; [|exact L].
  exfalso.
  assert (C : (q <= inject_Z 0)%Q).
  { eapply Qle_trans; [apply Qle_ceiling|]. rewrite <- Zle_Qle. lia. }
  apply Qle_bool_iff in C. unfold num in Hp. congruence.
Qed.

Lemma candidate_positive :
  forall m x,
    isNaN m = false -> isFinite x = true -> le x (num 0) = false ->
    le (num 1) (candidate m x) = true.
Proof.
  intros m x Hm Hf Hp. unfold candidate.
  apply le_trans with (y := Math_ceil x);
    [apply ceil_positive; [exact Hf | exact Hp]|].
  apply Math_max_ge_r; [exact Hm|].
  apply finite_not_NaN. rewrite Math_ceil_finite. exact Hf.
Qed.

Lemma flush_positive :
  forall cb s, positive s -> positive (flushPendingHeight cb s).
Proof.
  intros cb s (Hm & Hh & Hl & Hp). unfold flushPendingHeight, commitHeight.
  destruct s as [o m h l f [p|] hr hc q n c nt].
  - specialize (Hp p eq_refl).
    destruct cb, m;
      (split; [exact Hm | split; [first [exact Hp | exact Hh] | split; [exact Hp|]]];
       intros x E; discriminate E).
  - split; [exact Hm | split; [exact Hh | split; [exact Hl|]]].
    intros x E; discriminate E.
Qed.

Lemma scheduleCommit_positive :
  forall h s,
    positive s -> le (num 1) h = true -> positive (scheduleCommit h s).
Proof.
  intros h s (Hm & Hh & Hl & Hp) Hle. unfold scheduleCommit. simpl.
  assert (G : positive (set_pendingHeightRef (Some h) s)).
  { split; [exact Hm | split; [exact Hh | split; [exact Hl|]]].
    intros p E. simpl in E. injection E as <-. exact Hle. }
  destruct (frameRef s); [exact G|].
  destruct (hasRequestFrame s); simpl.
  - destruct G as (G0 & G1 & G2 & G3).
    split; [exact G0 | split; [exact G1 | split; [exact G2 | exact G3]]].
  - apply flush_positive. exact G.
Qed.

Lemma minHeightEffect_positive :
  forall s, positive s -> positive (minHeightEffect s).
Proof.
  intros s P. unfold minHeightEffect.
  destruct (gt (minHeight (options s)) (lastHeightRef s)) eqn:G; [|exact P].
  apply scheduleCommit_positive; [exact P|].
  destruct P as (Hm & _ & Hl & _).
  eapply le_trans; [exact Hl|].
  eapply le_trans; [exact (gt_ge _ _ G) | apply Math_ceil_ge; exact Hm].
Qed.

Lemma runFrame_positive : forall s, positive s -> positive (runFrame s).
Proof.
  intros s G. unfold runFrame.
  assert (G0 : positive (set_rafQueue [] s)) by exact G.
  generalize dependent (set_rafQueue [] s).
  induction (rafQueue s) as [|r q IH]; intros s0 G0; simpl.
  - exact G0.
  - apply IH. apply flush_positive. exact G0.
Qed.

Lemma step_positive :
  forall s op,
    positive s ->
    match op with
    | Rerender o => negb (isNaN (minHeight o))
    | _ => true
    end = true ->
    positive (step StringToNumber s op).
Proof.
  intros s [v | o | | ] G Hop; simpl.
  - rewrite ingest_accepted. unfold accepted.
    destruct (isFinite (Number StringToNumber v)) eqn:Hfin; [|exact G].
    simpl. destruct (le (Number StringToNumber v) (num 0)) eqn:Hpos; [exact G|].
    destruct (insignificant _ _); [exact G|].
    apply scheduleCommit_positive; [exact G|].
    apply candidate_positive; [|exact Hfin | exact Hpos].
    destruct G as (Hm & _). exact Hm.
  - unfold rerender. destruct (mounted s); [|exact G].
    assert (G' : positive (set_options o s)).
    { destruct G as (_ & Hh & Hl & Hp).
      split; [|split; [exact Hh | split; [exact Hl | exact Hp]]].
      apply negb_true_iff in Hop. exact Hop. }
    destruct (_ && _); [exact G'|].
    apply minHeightEffect_positive. exact G'.
  - apply runFrame_positive; exact G.
  - unfold unmount.
    destruct (frameRef s); [destruct (hasCancelFrame s)|]; exact G.
Qed.

Lemma states_positive :
  forall ops s,
    positive s -> minima_are_numbers ops = true ->
    Forall positive (states StringToNumber ops s).
Proof.
  induction ops as [|op ops IH]; intros s G Hops; simpl in *.
  - constructor; [exact G | constructor].
  - apply andb_prop in Hops as [Hop Hops].
    constructor; [exact G|].
    apply IH; [|exact Hops]. apply step_positive; assumption.
Qed.

(** X8 (never below one).  When the minimum is a number at every render,
    the committed height and the ref never fall below 1, in any state of any
    trace of payloads, renders, frames and unmount, whether the minimum is
    raised or lowered, and no callback is ever told a height below 1. *)
Theorem committed_height_at_least_one :
  forall (hasRaf hasCaf : bool) (o : UseAutoHeightOptions) (ops : list Op),
    isNaN (minHeight o) = false ->
    minima_are_numbers ops = true ->
    Forall (fun s => le (num 1) (height s) = true
                     /\ le (num 1) (lastHeightRef s) = true)
      (states StringToNumber ops (useAutoHeight hasRaf hasCaf o)).
Proof.
  intros hasRaf hasCaf o ops Hm Hops.
  assert (P : positive (useAutoHeight hasRaf hasCaf o)).
  { rewrite mount_is_quiet_aux.
    assert (M : le (num 1) (Math_max (minHeight o) (num 1)) = true)
      by (apply Math_max_ge_r; [exact Hm | reflexivity]).
    split; [exact Hm | split; [exact M | split; [exact M|]]].
    intros p E. discriminate E. }
  eapply Forall_impl; [|exact (states_positive ops P Hops)].
  intros s (_ & Hh & Hl & _). split; assumption.
Qed.

End WithRuntime.

(** *** The statements above on the scenarios of the test suite *)

Import Scenarios.

Lemma burst_latest_wins_witness :
  (mounted burst_start = true /\ frameRef burst_start = None
   /\ rafQueue burst_start = [] /\ pendingHeightRef burst_start = None
   /\ hasRequestFrame burst_start = true
   /\ onHeightChange (options burst_start) = Some 0)
  /\ rafCalls (run runtime
                 (map Ingest [VNumber (num 180); VString "oops";
                              VNumber (Fin (1004 # 10)); VString "260";
                              VNumber (num 0)])
                 burst_start) = 1
  /\ notified (runFrame
                 (run runtime
                    (map Ingest [VNumber (num 180); VString "oops";
                                 VNumber (Fin (1004 # 10)); VString "260";
                                 VNumber (num 0)])
                    burst_start)) = [(0, num 260)].
Proof.
  assert (H1 : mounted burst_start = true) by reflexivity.
  assert (H2 : frameRef burst_start = None) by reflexivity.
  assert (H3 : rafQueue burst_start = []) by reflexivity.
  assert (H4 : pendingHeightRef burst_start = None) by reflexivity.
  assert (H5 : hasRequestFrame burst_start = true) by reflexivity.
  assert (H6 : onHeightChange (options burst_start) = Some 0) by reflexivity.
  destruct (@burst_latest_wins runtime burst_start 0
              [VNumber (num 180); VString "oops"; VNumber (Fin (1004 # 10));
               VString "260"; VNumber (num 0)] H1 H2 H3 H4 H5 H6)
    as (_ & _ & _ & C4 & _ & C6).
  split; [exact (conj H1 (conj H2 (conj H3 (conj H4 (conj H5 H6)))))|].
  split; [exact C4 | exact C6].
Defined.

Lemma synchronous_commit_witness :
  (mounted (useAutoHeight false false (mkOptions (num 45) (Some 0))) = true
   /\ frameRef (useAutoHeight false false (mkOptions (num 45) (Some 0))) = None
   /\ hasRequestFrame (useAutoHeight false false (mkOptions (num 45) (Some 0))) = false
   /\ onHeightChange (options (useAutoHeight false false (mkOptions (num 45) (Some 0))))
      = Some 0
   /\ accepted runtime (useAutoHeight false false (mkOptions (num 45) (Some 0)))
        (VNumber (num 100)) = Some (num 100))
  /\ height (setHeightFromPayload runtime (VNumber (num 100))
               (useAutoHeight false false (mkOptions (num 45) (Some 0)))) = num 100
  /\ notified (setHeightFromPayload runtime (VNumber (num 100))
                 (useAutoHeight false false (mkOptions (num 45) (Some 0))))
     = [(0, num 100)].
Proof.
  set (s := useAutoHeight false false (mkOptions (num 45) (Some 0))).
  assert (H1 : mounted s = true) by reflexivity.
  assert (H2 : frameRef s = None) by reflexivity.
  assert (H3 : hasRequestFrame s = false) by reflexivity.
  assert (H4 : onHeightChange (options s) = Some 0) by reflexivity.
  assert (H5 : accepted runtime s (VNumber (num 100)) = Some (num 100)) by reflexivity.
  destruct (@synchronous_commit runtime s 0 (VNumber (num 100)) (num 100)
              H1 H2 H3 H4 H5) as (C1 & _ & C3 & _).
  split; [exact (conj H1 (conj H2 (conj H3 (conj H4 H5))))|].
  split; [exact C1 | exact C3].
Defined.

Lemma single_flight_along_traces_witness :
  stays_mounted [Ingest (VString "240"); Rerender raised200; Frame;
                 Ingest (VNumber (num 50)); Ingest (VNumber (num 500))] = true
  /\ Forall (fun s => coherent s /\ (List.length (rafQueue s) <= 1)%nat)
       (states runtime
          [Ingest (VString "240"); Rerender raised200; Frame;
           Ingest (VNumber (num 50)); Ingest (VNumber (num 500))]
          mounted80).
Proof.
  assert (H : stays_mounted
                [Ingest (VString "240"); Rerender raised200; Frame;
                 Ingest (VNumber (num 50)); Ingest (VNumber (num 500))] = true)
    by reflexivity.
  split; [exact H|].
  exact (@single_flight_along_traces runtime true true (mkOptions (num 80) (Some 0))
           _ H).
Defined.

Lemma commits_only_in_frames_witness :
  (hasRequestFrame burst_start = true /\ Ingest (VNumber (num 180)) <> Frame)
  /\ height (step runtime burst_start (Ingest (VNumber (num 180)))) = num 100
  /\ notified (step runtime burst_start (Ingest (VNumber (num 180)))) = [].
Proof.
  assert (H1 : hasRequestFrame burst_start = true) by reflexivity.
  assert (H2 : Ingest (VNumber (num 180)) <> Frame) by discriminate.
  destruct (@commits_only_in_frames runtime burst_start
              (Ingest (VNumber (num 180))) H1 H2) as (C1 & _ & C3).
  split; [exact (conj H1 H2)|].
  split; [exact C1 | exact C3].
Defined.

Lemma callbacks_know_the_committed_height_witness :
  supplies_callback lowering_trace = true
  /\ Forall (fun s => lastHeightRef s = last_notified (Math_max (num 120) (num 1)) s)
       (states runtime lowering_trace (useAutoHeight true true minimum120)).
Proof.
  assert (H : supplies_callback lowering_trace = true) by reflexivity.
  split; [exact H|].
  exact (@callbacks_know_the_committed_height runtime true true (num 120) 0
           lowering_trace H).
Defined.

Lemma committed_height_at_least_one_witness :
  (isNaN (minHeight (mkOptions NegInf (Some 0))) = false
   /\ minima_are_numbers
        [Ingest (VNumber (Fin (1 # 4))); Frame; Rerender raised200; Frame;
         Rerender (mkOptions (num 0) None); Ingest (VString "2"); Unmount; Frame]
      = true)
  /\ Forall (fun s => le (num 1) (height s) = true
                      /\ le (num 1) (lastHeightRef s) = true)
       (states runtime
          [Ingest (VNumber (Fin (1 # 4))); Frame; Rerender raised200; Frame;
           Rerender (mkOptions (num 0) None); Ingest (VString "2"); Unmount; Frame]
          (useAutoHeight true false (mkOptions NegInf (Some 0)))).
Proof.
  assert (H1 : isNaN (minHeight (mkOptions NegInf (Some 0))) = false)
    by reflexivity.
  assert (H2 : minima_are_numbers
                 [Ingest (VNumber (Fin (1 # 4))); Frame; Rerender raised200; Frame;
                  Rerender (mkOptions (num 0) None); Ingest (VString "2");
                  Unmount; Frame] = true) by reflexivity.
  split; [exact (conj H1 H2)|].
  exact (@committed_height_at_least_one runtime true false
           (mkOptions NegInf (Some 0)) _ H1 H2).
Defined.

End ReconcilerLaws.

(** ** More on the composer and the container *)
Module ComposerLaws.

Import Composer Container.

Local Open Scope string_scope.

Lemma remaining_app :
  forall a b, remaining (a ++ b)%list = (remaining a ++ remaining b)%list.
Proof.
  induction a as [|chunk a IH]; intros b; [reflexivity|].
  destruct chunk as [[|c s]|]; simpl; rewrite IH; reflexivity.
Qed.

Lemma compose_by_remaining :
  forall chunks, composeInjectedScript chunks = composed_spec chunks.
Proof.
  intros chunks. unfold composeInjectedScript, composed_spec.
  rewrite ComposerFacts.filter_length_remaining, ComposerFacts.join_filter_concat.
  destruct (remaining chunks); reflexivity.
Qed.

(** X9 (falsy chunks are transparent).  An absent or empty chunk, wherever
    it stands among the arguments, does not change the composed script: no
    blank line is left for it. *)
Theorem falsy_chunk_is_transparent :
  forall (before after : list (option string)) (chunk : option string),
    Boolean chunk = false ->
    composeInjectedScript (before ++ chunk :: after)%list
    = composeInjectedScript (before ++ after)%list.
Proof.
  intros before after chunk Hc.
  rewrite !compose_by_remaining. unfold composed_spec.
  rewrite !remaining_app.
  destruct chunk as [[|c s]|]; simpl in *; try reflexivity; discriminate.
Qed.

Lemma falsy_chunk_is_transparent_witness :
  Boolean (Some EmptyString) = false
  /\ composeInjectedScript [Some "a();"; Some EmptyString; Some "b();"]
     = composeInjectedScript [Some "a();"; Some "b();"].
Proof.
  assert (H : Boolean (Some EmptyString) = false) by reflexivity.
  split; [exact H|].
  exact (@falsy_chunk_is_transparent [Some "a();"] [Some "b();"] (Some EmptyString) H).
Defined.





Lemma starts_with_append : forall p s, starts_with p (p ++ s) = true.
Proof.
  induction p as [|c p IH]; intros s; simpl; [reflexivity|].
  rewrite Ascii.eqb_refl, IH. reflexivity.
Qed.

Lemma concat_head :
  forall p ps, exists tail, String.concat LF (p :: ps) = p ++ tail.
Proof.
  intros p [|q qs].
  - exists EmptyString. simpl. induction p as [|c p IH]; simpl; congruence.
  - exists (LF ++ String.concat LF (q :: qs)). reflexivity.
Qed.

(** X11 (the scripts of the container).  Since the bridge is not empty, the
    script injected before the content loads is always defined, starts with
    the bridge and ends in [true;], whatever the caller adds; the script
    injected after the load is defined exactly when the caller gives a
    non-empty one. *)
Theorem container_scripts :
  forall (bridge : string) (before injected : option string),
    bridge <> EmptyString ->
    (exists script,
        composedBeforeContentScript bridge before = Some script
        /\ starts_with bridge script = true
        /\ ends_with TERMINATOR script = true)
    /\ composedInjectedScript injected
       = (if Boolean injected
          then Some (element_text injected ++ LF ++ TERMINATOR)
          else None).
Proof.
  intros bridge before injected Hb. split.
  - unfold composedBeforeContentScript.
    rewrite compose_by_remaining. unfold composed_spec.
    assert (R : remaining [Some bridge; before] = bridge :: remaining [before]).
    { destruct bridge; [congruence | reflexivity]. }
    rewrite R. eexists; split; [reflexivity|]. split.
    + destruct (concat_head bridge (remaining [before])) as [tail E].
      rewrite E, ComposerFacts.append_assoc. apply starts_with_append.
    + rewrite <- ComposerFacts.append_assoc. apply ComposerFacts.ends_with_append.
  - unfold composedInjectedScript.
    destruct injected as [[|c s]|]; reflexivity.
Qed.

Lemma container_scripts_witness :
  "(() => {})();" <> EmptyString
  /\ exists script,
       composedBeforeContentScript "(() => {})();" (Some "init();") = Some script
       /\ starts_with "(() => {})();" script = true
       /\ ends_with TERMINATOR script = true.
Proof.
  assert (H : "(() => {})();" <> EmptyString) by discriminate.
  split; [exact H|].
  exact (proj1 (@container_scripts "(() => {})();" (Some "init();") None H)).
Defined.

End ComposerLaws.

(** ** More on the measurement agent *)
Module AgentLaws.

Import Agent AgentSpec JSFacts.

(** *** Measuring *)

Lemma not_gt_le :
  forall x y, isNaN x = false -> isNaN y = false -> gt x y = false -> le x y = true.
Proof.
  unfold gt.
  intros [ | | a | ] [ | | b | ]; simpl; intros Hx Hy H;
    try reflexivity; try discriminate.
  destruct (Qle_bool a b); [reflexivity | discriminate].
Qed.

Lemma gt_not_NaN : forall x y, gt x y = true -> isNaN x = false.
Proof.
  unfold gt. intros [ | | a | ] [ | | b | ]; simpl; intros H;
    try reflexivity; discriminate.
Qed.

Lemma readMax_from :
  forall values acc m,
    isNaN acc = false ->
    m = fold_left (fun max value => if gt value max then value else max)
          values acc ->
    isNaN m = false
    /\ le acc m = true
    /\ Forall (fun v => isNaN v = false -> le v m = true) values
    /\ (m = acc \/ In m values).
Proof.
  induction values as [|v values IH]; intros acc m Hacc Hm; simpl in Hm.
  - subst m.
    split; [exact Hacc|]. split; [apply le_refl; exact Hacc|].
    split; [constructor | left; reflexivity].
  - destruct (gt v acc) eqn:G.
    + destruct (IH v m (gt_not_NaN _ _ G) Hm) as (N & L & F & I).
      split; [exact N|]. split; [|split].
      * eapply le_trans; [apply gt_ge; exact G | exact L].
      * constructor; [intros _; exact L | exact F].
      * right. simpl.
        destruct I as [I | I]; [left; symmetry; exact I | right; exact I].
    + destruct (IH acc m Hacc Hm) as (N & L & F & I).
      split; [exact N|]. split; [exact L|]. split.
      * constructor; [|exact F]. intros Hv.
        apply le_trans with (y := acc);
          [apply not_gt_le; [exact Hv | exact Hacc | exact G] | exact L].
      * destruct I as [I | I]; [left; exact I | right; right; exact I].
Qed.

Lemma readMaxValue_bounds_aux :
  forall values : list number,
    isNaN (readMaxValue values) = false
    /\ le (num 0) (readMaxValue values) = true
    /\ Forall (fun v => isNaN v = false -> le v (readMaxValue values) = true) values
    /\ (readMaxValue values = num 0 \/ In (readMaxValue values) values).
Proof.
  intros values.
  destruct (@readMax_from values (num 0) (readMaxValue values) eq_refl eq_refl)
    as (N & L & F & I).
  split; [exact N|]. split; [exact L|]. split; [exact F | exact I].
Qed.

(** X12 (the largest reading).  [readMaxValue] is never [NaN] and never
    below zero, it is at least every reading that is a number, and it is one
    of the readings unless it is the zero it starts from: [NaN] readings and
    readings that are not positive are passed over. *)
Theorem readMaxValue_bounds :
  forall values : list number,
    isNaN (readMaxValue values) = false
    /\ le (num 0) (readMaxValue values) = true
    /\ Forall (fun v => isNaN v = false -> le v (readMaxValue values) = true) values
    /\ (readMaxValue values = num 0 \/ In (readMaxValue values) values).
Proof. exact readMaxValue_bounds_aux. Qed.

Lemma or0_above : forall x, isNaN x = false -> le x (or0 x) = true.
Proof.
  intros [ | | q | ] H; try discriminate; try reflexivity.
  unfold or0. simpl. destruct (Qeq_bool q 0) eqn:E; simpl.
  - apply Qeq_bool_iff in E. apply Qle_bool_iff. rewrite E. apply Qle_refl.
  - apply Qle_bool_iff, Qle_refl.
Qed.

Lemma or0_not_NaN : forall x, isNaN (or0 x) = false.
Proof. intros [ | | q | ]; try reflexivity. unfold or0. simpl. destruct (negb _); reflexivity. Qed.

Lemma ceil_floor_zero :
  forall r,
    isNaN r = false -> le (num 0) r = true ->
    let h := Math_max (num 0) (Math_ceil r) in
    isNaN h = false /\ le (num 0) h = true /\ Math_ceil h = h /\ le r h = true.
Proof.
  intros [ | | q | ] N L; simpl in *; try discriminate.
  - destruct (Qle_bool (inject_Z 0) (inject_Z (Qceiling q))) eqn:E; simpl.
    + rewrite Qceiling_Z. repeat split; [exact E|].
      apply Qle_bool_iff, Qle_ceiling.
    + exfalso. apply Qle_bool_iff in L.
      assert (C : (inject_Z 0 <= inject_Z (Qceiling q))%Q)
        by (eapply Qle_trans; [exact L | apply Qle_ceiling]).
      apply Qle_bool_iff in C. congruence.
  - repeat split.
Qed.

Section Measuring.

Variable host : Host.
Variable document : nat -> Layout.

Lemma measureHeight_whole :
  forall w : World,
    Math_ceil (fst (measureHeight host document w))
    = fst (measureHeight host document w).
Proof.
  intros w. unfold measureHeight.
  destruct (ensureWrapper host document w) as [hasWrapper w0]. simpl fst.
  match goal with
  | |- context [readMaxValue ?values] =>
      destruct (readMaxValue_bounds_aux values) as (N & L & _);
      destruct (ceil_floor_zero (readMaxValue values) N L) as (_ & _ & C & _)
  end.
  exact C.
Qed.

(** X13 (the measured height).  [measureHeight] yields a whole number that
    is not negative (or [+Infinity]), never [NaN]; it is at least every
    metric of the document element and of the body, where the document has
    them, that is a number. *)
Theorem measureHeight_result :
  forall w : World,
    let h := fst (measureHeight host document w) in
    let layout := document (measured w) in
    let metrics (b : Box) :=
      [rectHeight b; scrollHeight b; offsetHeight b; clientHeight b] in
    isNaN h = false /\ le (num 0) h = true /\ Math_ceil h = h
    /\ Forall (fun v => isNaN v = false -> le v h = true)
         ((if hasBody host then metrics (bodyBox layout) else [])
          ++ (if hasDocumentElement host then metrics (htmlBox layout) else []))%list.
Proof.
  intros w h layout metrics.
  subst h. unfold measureHeight in *.
  destruct (ensureWrapper host document w) as [hasWrapper w0] eqn:EW.
  simpl fst.
  set (values := ((if hasWrapper then collect (wrapperBox (document (measured w))) else [])
          ++ (if hasBody host then collect (bodyBox (document (measured w))) else [])
          ++ (if hasDocumentElement host then collect (htmlBox (document (measured w))) else [])
          ++ [or0 (innerHeight (document (measured w)))])%list).
  destruct (readMaxValue_bounds_aux values) as (N & L & F & _).
  destruct (ceil_floor_zero (readMaxValue values) N L) as (N' & L' & C & U).
  rewrite Forall_forall in F.
  assert (B : forall v, In v values -> isNaN v = false ->
                        le v (Math_max (num 0) (Math_ceil (readMaxValue values))) = true).
  { intros v Hv Hn. eapply le_trans; [exact (F v Hv Hn) | exact U]. }
  assert (B0 : forall x, In (or0 x) values -> isNaN x = false ->
                         le x (Math_max (num 0) (Math_ceil (readMaxValue values))) = true).
  { intros x Hx Hn. eapply le_trans; [apply or0_above; exact Hn|].
    apply B; [exact Hx | apply or0_not_NaN]. }
  split; [exact N'|]. split; [exact L'|]. split; [exact C|].
  assert (M : forall b, incl (collect b) values ->
                Forall (fun v => isNaN v = false ->
                          le v (Math_max (num 0) (Math_ceil (readMaxValue values))) = true)
                  (metrics b)).
  { intros b Hin. subst metrics.
    repeat constructor; intros Hn.
    - apply B; [|exact Hn]. apply Hin. simpl. tauto.
    - apply B0; [|exact Hn]. apply Hin. simpl. tauto.
    - apply B0; [|exact Hn]. apply Hin. simpl. tauto.
    - apply B0; [|exact Hn]. apply Hin. simpl. tauto. }
  apply Forall_app. split.
  - destruct (hasBody host); [|constructor].
    apply M. intros v Hv. subst values layout. rewrite !in_app_iff. right. left. exact Hv.
  - destruct (hasDocumentElement host); [|constructor].
    apply M. intros v Hv. subst values layout. rewrite !in_app_iff.
    right. right. left. exact Hv.
Qed.

End Measuring.

(** *** Scheduling *)

Lemma scheduleFallback_armed :
  forall w, fallbackTimer (state (scheduleFallback w)) <> None.
Proof.
  intros w. unfold scheduleFallback.
  destruct (fallbackTimer (state w)) eqn:E; simpl; congruence.
Qed.

Lemma scheduleFallback_fixed :
  forall w, fallbackTimer (state w) <> None -> scheduleFallback w = w.
Proof.
  intros w H. unfold scheduleFallback.
  destruct (fallbackTimer (state w)); [reflexivity | congruence].
Qed.

Lemma resetFallback_rearms :
  forall w,
    exists rest,
      fallbackDelay (state (resetFallback w)) = INITIAL_FALLBACK_MS
      /\ fallbackTimer (state (resetFallback w)) = Some (nextId w)
      /\ timers (resetFallback w)
         = (rest ++ [(nextId w, INITIAL_FALLBACK_MS, CbFallback)])%list.
Proof.
  intros w. unfold resetFallback, scheduleFallback. simpl.
  destruct (fallbackTimer (state w)) as [id|] eqn:F; simpl; rewrite ?F; simpl.
  - exists (filter (fun t => negb (Nat.eqb (fst (fst t)) id)) (timers w)).
    repeat split.
  - exists (timers w). repeat split.
Qed.

Section Scheduling.

Variable host : Host.
Variable document : nat -> Layout.
Variable topicIsMessageKey : string -> bool.
Variable fuel : nat.

Lemma queueMicro_state : forall cb w, state (queueMicro host cb w) = state w.
Proof. intros cb w. unfold queueMicro. destruct (_ || _); reflexivity. Qed.

Lemma requestDebouncedMeasure_fixed :
  forall w,
    fallbackTimer (state w) <> None -> microtask (state w) = true ->
    requestDebouncedMeasure host w = w.
Proof.
  intros w F M. unfold requestDebouncedMeasure.
  rewrite (scheduleFallback_fixed w F), M. reflexivity.
Qed.

Lemma requestDebouncedMeasure_requested :
  forall w,
    fallbackTimer (state (requestDebouncedMeasure host w)) <> None
    /\ microtask (state (requestDebouncedMeasure host w)) = true.
Proof.
  intros w. unfold requestDebouncedMeasure.
  pose proof (scheduleFallback_armed w) as A.
  destruct (microtask (state (scheduleFallback w))) eqn:M.
  - split; assumption.
  - rewrite queueMicro_state. simpl. split; [exact A | reflexivity].
Qed.

Lemma scheduleMeasure_soft :
  forall w,
    exists w1,
      scheduleMeasure host document fuel false w = Some w1
      /\ frame (state w1) <> None
      /\ scheduleMeasure host document fuel false w1 = Some w1.
Proof.
  intros w. unfold scheduleMeasure, scheduleMeasure_with.
  destruct (frame (state w)) as [id|] eqn:F.
  - exists w. rewrite F. repeat split. discriminate.
  - unfold requestFrame.
    destruct (hasRequestAnimationFrame host); simpl;
      eexists; (split; [reflexivity|]); simpl; split;
      try discriminate; reflexivity.
Qed.

(** X14 (scheduling absorbs repeats).  Asking again for what is already
    scheduled changes nothing: a second [scheduleFallback], a second
    [requestDebouncedMeasure] and a second [scheduleMeasure(false)] right
    after the first leave the world as the first left it, so that neither
    a second fallback timer, nor a second microtask, nor a second frame is
    ever outstanding through them. *)
Theorem scheduling_absorbs_repeats :
  forall w : World,
    scheduleFallback (scheduleFallback w) = scheduleFallback w
    /\ requestDebouncedMeasure host (requestDebouncedMeasure host w)
       = requestDebouncedMeasure host w
    /\ exists w1,
         scheduleMeasure host document fuel false w = Some w1
         /\ scheduleMeasure host document fuel false w1 = Some w1.
Proof.
  intros w. split; [|split].
  - apply scheduleFallback_fixed, scheduleFallback_armed.
  - destruct (requestDebouncedMeasure_requested w) as [F M].
    apply requestDebouncedMeasure_fixed; assumption.
  - destruct (scheduleMeasure_soft w) as (w1 & E1 & _ & E2).
    exists w1. split; assumption.
Qed.

Lemma runMeasure_ends_with_reset :
  forall n w w',
    runMeasure host document n w = Some w' -> exists w2, w' = resetFallback w2.
Proof.
  intros [|n] w w'; simpl; [discriminate|].
  destruct (measureHeight host document (upd_state (set_frame None) w)) as [h w1].
  destruct (truthy h).
  - destruct (postHeight_with host (runMeasure host document n) h w1);
      [|discriminate].
    intros E. injection E as <-. eexists; reflexivity.
  - intros E. injection E as <-. eexists; reflexivity.
Qed.

(** X15 (the fallback timer).  When the fallback timer fires, the forced
    measurement it takes re-arms the timer at the initial 600 ms before the
    delay is grown: afterwards [state.fallbackDelay] is 900, whatever it was,
    and the timer that is armed, the newest one of the window, still waits
    600 ms.  The grown delay is not used by the timer that follows. *)
Theorem fallback_rearms_at_initial_delay :
  forall (arg : Payload) (w : World),
    (ANOMALY_RUN <= fuel)%nat ->
    exists (w' : World) (id : nat) (rest : list (nat * Z * Callback)),
      invoke host document topicIsMessageKey fuel CbFallback arg w = Some w'
      /\ fallbackDelay (state w') = 900%Z
      /\ fallbackTimer (state w') = Some id
      /\ timers w' = (rest ++ [(id, INITIAL_FALLBACK_MS, CbFallback)])%list.
Proof.
  intros arg w enough. unfold invoke.
  destruct (@AgentFacts.scheduleMeasure_force_returns host document fuel enough
              (upd_state (set_fallbackTimer None) w)) as (w1 & E & _).
  rewrite E.
  unfold scheduleMeasure in E. rewrite AgentFacts.scheduleMeasure_force in E.
  apply runMeasure_ends_with_reset in E as [w2 ->].
  destruct (resetFallback_rearms w2) as (rest & D & T & L).
  rewrite scheduleFallback_fixed by (simpl; rewrite T; discriminate).
  exists (upd_state
            (fun s => set_fallbackDelay
                        (Z.min MAX_FALLBACK_MS (fallbackDelay s * 3 / 2)) s)
            (resetFallback w2)), (nextId w2), rest.
  split; [reflexivity|]. simpl. rewrite D. repeat split; assumption.
Qed.

End Scheduling.

(** *** What every step keeps *)

Lemma keeps_refl : forall w, keeps w w.
Proof. intros w. split; intros H; exact H. Qed.

Lemma keeps_trans :
  forall w1 w2 w3, keeps w1 w2 -> keeps w2 w3 -> keeps w1 w3.
Proof.
  intros w1 w2 w3 [A1 P1] [A2 P2].
  split; intros H; [apply A2, A1, H | apply P2, P1, H].
Qed.

Lemma keeps_same :
  forall w w',
    listeners w' = listeners w -> observers w' = observers w ->
    cleanup (state w') = cleanup (state w) ->
    pendingLoads (state w') = pendingLoads (state w) ->
    keeps w w'.
Proof.
  unfold keeps, accounted. intros w w' L O C P. rewrite L, O, C, P.
  split; intros H; exact H.
Qed.

Lemma keeps_untouched : forall w w', untouched w w' -> keeps w w'.
Proof.
  intros w w' (_ & _ & L & O & _ & _ & C & _ & _ & P).
  apply keeps_same; assumption.
Qed.

Lemma keeps_posting : forall w w', posting w w' -> keeps w w'.
Proof.
  intros w w' (_ & _ & L & O & _ & C & P & _).
  apply keeps_same; assumption.
Qed.

Lemma keeps_addEvent :
  forall target type handler once w,
    keeps w (snd (addEvent target type handler once w)).
Proof.
  intros target type handler once w.
  unfold keeps, accounted, addEvent, addCleanup. simpl. split.
  - intros [A B]. split.
    + intros l Hl. apply in_app_iff in Hl. apply in_app_iff.
      destruct Hl as [Hl | [<- | []]];
        [left; apply A; exact Hl | right; left; reflexivity].
    + intros ob Ho. apply in_app_iff. left. apply B. exact Ho.
  - intros H; exact H.
Qed.

Lemma keeps_observe : forall kind w, keeps w (observe kind w).
Proof.
  intros kind w. unfold keeps, accounted, observe, addCleanup. simpl. split.
  - intros [A B]. split.
    + intros l Hl. apply in_app_iff. left. apply A. exact Hl.
    + intros ob Ho. apply in_app_iff in Ho. apply in_app_iff.
      destruct Ho as [Ho | [<- | []]];
        [left; apply B; exact Ho | right; left; reflexivity].
  - intros H; exact H.
Qed.

Lemma keeps_scheduleTimeout :
  forall cb delay w, keeps w (snd (scheduleTimeout cb delay w)).
Proof.
  intros cb delay w. unfold keeps, accounted, scheduleTimeout, addCleanup. simpl.
  split.
  - intros [A B]. split.
    + intros l Hl. apply in_app_iff. left. apply A. exact Hl.
    + intros ob Ho. apply in_app_iff. left. apply B. exact Ho.
  - intros H; exact H.
Qed.

Lemma keeps_markLoading : forall w, keeps w (markLoading w).
Proof.
  intros w. unfold markLoading.
  eapply keeps_trans; [|apply keeps_untouched, AgentFacts.scheduleFallback_untouched].
  unfold keeps, accounted. simpl. split; [intros H; exact H | lia].
Qed.

Lemma keeps_clearLoading : forall w, keeps w (clearLoading w).
Proof.
  intros w. unfold clearLoading.
  destruct (0 <? pendingLoads (state w))%Z eqn:E; [|apply keeps_refl].
  apply Z.ltb_lt in E.
  unfold keeps, accounted. simpl. split; [intros H; exact H | lia].
Qed.

Lemma keeps_removeEventListener :
  forall id w, keeps w (removeEventListener id w).
Proof.
  intros id w. unfold keeps, accounted, removeEventListener. simpl. split.
  - intros [A B]. split; [|exact B].
    intros l Hl. apply filter_In in Hl as [Hl _]. apply A. exact Hl.
  - intros H; exact H.
Qed.

Lemma keeps_removers :
  forall ids w,
    keeps w (fold_left (fun w id => removeEventListener id w) ids w).
Proof.
  induction ids as [|id ids IH]; intros w; simpl; [apply keeps_refl|].
  eapply keeps_trans; [apply keeps_removeEventListener | apply IH].
Qed.

Lemma keeps_addEvents :
  forall target types handler w, keeps w (addEvents target types handler w).
Proof.
  intros target types handler.
  induction types as [|t ts IH]; intros w; simpl; [apply keeps_refl|].
  eapply keeps_trans; [apply keeps_addEvent | apply IH].
Qed.

Lemma keeps_trackLoading : forall e w, keeps w (snd (trackLoading e w)).
Proof.
  intros e w. unfold trackLoading. simpl.
  eapply keeps_trans; [apply keeps_markLoading | apply keeps_addEvents].
Qed.

Lemma keeps_watchMessages : forall w, keeps w (watchMessages w).
Proof. intros w. apply keeps_addEvent. Qed.

Lemma keeps_observeGlobalEvents : forall w, keeps w (observeGlobalEvents w).
Proof.
  intros w. unfold observeGlobalEvents. cbn [fold_left].
  repeat (eapply keeps_trans; [|apply keeps_addEvent]). apply keeps_refl.
Qed.

Lemma keeps_queueStabilization : forall w, keeps w (queueStabilization w).
Proof.
  intros w. unfold queueStabilization. cbn [fold_left].
  repeat (eapply keeps_trans; [|apply keeps_scheduleTimeout]). apply keeps_refl.
Qed.

(** *** Teardown *)

Lemma run_cleanups_state :
  forall fns w,
    state (fold_left (fun w fn => run_cleanup fn w) fns w) = state w.
Proof.
  induction fns as [|fn fns IH]; intros w; simpl; [reflexivity|].
  rewrite IH. destruct fn; reflexivity.
Qed.

Lemma run_cleanups_listeners :
  forall fns w l,
    In l (listeners (fold_left (fun w fn => run_cleanup fn w) fns w)) ->
    In l (listeners w) /\ ~ In (RemoveListener (lid l)) fns.
Proof.
  induction fns as [|fn fns IH]; intros w l H; simpl in *.
  - split; [exact H | tauto].
  - apply IH in H as [H N].
    assert (K : In l (listeners w) /\ fn <> RemoveListener (lid l)).
    { destruct fn as [id|id|id]; simpl in H.
      - apply filter_In in H as [H1 H2]. split; [exact H1|].
        intros E. injection E as ->. rewrite Nat.eqb_refl in H2. discriminate.
      - split; [exact H | discriminate].
      - split; [exact H | discriminate]. }
    destruct K as [K1 K2]. split; [exact K1|].
    intros [E|E]; [exact (K2 E) | exact (N E)].
Qed.

Lemma run_cleanups_observers :
  forall fns w ob,
    In ob (observers (fold_left (fun w fn => run_cleanup fn w) fns w)) ->
    In ob (observers w) /\ ~ In (Disconnect (fst ob)) fns.
Proof.
  induction fns as [|fn fns IH]; intros w ob H; simpl in *.
  - split; [exact H | tauto].
  - apply IH in H as [H N].
    assert (K : In ob (observers w) /\ fn <> Disconnect (fst ob)).
    { destruct fn as [id|id|id]; simpl in H.
      - split; [exact H | discriminate].
      - split; [exact H | discriminate].
      - apply filter_In in H as [H1 H2]. split; [exact H1|].
        intros E. injection E as ->. rewrite Nat.eqb_refl in H2. discriminate. }
    destruct K as [K1 K2]. split; [exact K1|].
    intros [E|E]; [exact (K2 E) | exact (N E)].
Qed.

Section Teardown.

Variable host : Host.

Lemma cleanupAll_shape :
  forall w,
    let w2 := cancel_scheduled host w in
    let w3 :=
      match fallbackTimer (state w2) with
      | Some id => upd_state (set_fallbackTimer None) (clearTimeout id w2)
      | None => w2
      end in
    let w4 := fold_left (fun w fn => run_cleanup fn w) (cleanup (state w3)) w3 in
    cleanupAll host w
    = set_session (set_wrapper false (set_cleanup [] (state w4))) false w4.
Proof. reflexivity. Qed.

Lemma cancel_fallback_untouched :
  forall w,
    untouched w
      match fallbackTimer (state (cancel_scheduled host w)) with
      | Some id =>
          upd_state (set_fallbackTimer None)
            (clearTimeout id (cancel_scheduled host w))
      | None => cancel_scheduled host w
      end.
Proof.
  intros w.
  eapply AgentFacts.untouched_trans; [apply AgentFacts.cancel_scheduled_untouched|].
  destruct (fallbackTimer _); repeat split.
Qed.

Lemma cancel_scheduled_clears :
  forall w,
    frame (state (cancel_scheduled host w)) = None
    /\ timer (state (cancel_scheduled host w)) = None.
Proof.
  intros w. unfold cancel_scheduled, cancelFrame.
  destruct (hasCancelAnimationFrame host);
    destruct (frame (state w)) eqn:F; simpl;
    destruct (timer (state w)) eqn:T; simpl; rewrite ?F, ?T; split; reflexivity.
Qed.

Lemma cleanupAll_releases :
  forall w,
    accounted w ->
    listeners (cleanupAll host w) = [] /\ observers (cleanupAll host w) = [].
Proof.
  intros w [A B]. rewrite cleanupAll_shape. cbv zeta.
  pose proof (cancel_fallback_untouched w) as U.
  set (w3 := match fallbackTimer (state (cancel_scheduled host w)) with
             | Some id => _
             | None => _
             end) in *.
  destruct U as (_ & _ & L & O & _ & _ & C & _).
  unfold set_session. simpl. split.
  - destruct (listeners (fold_left (fun w fn => run_cleanup fn w)
                           (cleanup (state w3)) w3)) as [|l ls] eqn:E;
      [reflexivity|]. exfalso.
    assert (H : In l (listeners (fold_left (fun w fn => run_cleanup fn w)
                                   (cleanup (state w3)) w3)))
      by (rewrite E; left; reflexivity).
    apply run_cleanups_listeners in H as [H N].
    apply N. rewrite C. apply A. rewrite <- L. exact H.
  - destruct (observers (fold_left (fun w fn => run_cleanup fn w)
                           (cleanup (state w3)) w3)) as [|ob obs] eqn:E;
      [reflexivity|]. exfalso.
    assert (H : In ob (observers (fold_left (fun w fn => run_cleanup fn w)
                                    (cleanup (state w3)) w3)))
      by (rewrite E; left; reflexivity).
    apply run_cleanups_observers in H as [H N].
    apply N. rewrite C. apply B. rewrite <- O. exact H.
Qed.

Lemma cleanupAll_state :
  forall w,
    frame (state (cleanupAll host w)) = None
    /\ timer (state (cleanupAll host w)) = None
    /\ fallbackTimer (state (cleanupAll host w)) = None
    /\ cleanup (state (cleanupAll host w)) = []
    /\ wrapper (state (cleanupAll host w)) = false
    /\ globalKey (cleanupAll host w) = false
    /\ pendingLoads (state (cleanupAll host w)) = pendingLoads (state w).
Proof.
  intros w. rewrite cleanupAll_shape. cbv zeta.
  pose proof (cancel_fallback_untouched w) as U.
  pose proof (cancel_scheduled_clears w) as [F T].
  set (w2 := cancel_scheduled host w) in *.
  unfold set_session. simpl. rewrite run_cleanups_state.
  destruct U as (_ & _ & _ & _ & _ & _ & _ & _ & _ & P).
  destruct (fallbackTimer (state w2)) eqn:B; simpl in *;
    rewrite ?F, ?T, ?B; repeat split; try reflexivity; exact P.
Qed.

Lemma keeps_cleanupAll : forall w, keeps w (cleanupAll host w).
Proof.
  intros w. split.
  - intros A. destruct (cleanupAll_releases A) as [L O].
    split; [rewrite L | rewrite O]; intros x [].
  - destruct (cleanupAll_state w) as (_ & _ & _ & _ & _ & _ & P).
    rewrite P. intros H; exact H.
Qed.

End Teardown.

(** *** The callbacks *)

Section Callbacks.

Variable host : Host.
Variable document : nat -> Layout.
Variable topicIsMessageKey : string -> bool.
Variable fuel : nat.
Hypothesis enough : (ANOMALY_RUN <= fuel)%nat.

Lemma force_keeps :
  forall w,
    exists w', scheduleMeasure host document fuel true w = Some w' /\ keeps w w'.
Proof.
  intros w.
  destruct (@AgentFacts.scheduleMeasure_force_returns host document fuel enough w)
    as (w' & E & P & _).
  exists w'. split; [exact E | apply keeps_posting; exact P].
Qed.

Lemma soft_keeps :
  forall w,
    exists w', scheduleMeasure host document fuel false w = Some w' /\ keeps w w'.
Proof.
  intros w. unfold scheduleMeasure, scheduleMeasure_with.
  destruct (frame (state w)) as [id|].
  - exists w. split; [reflexivity | apply keeps_refl].
  - unfold requestFrame.
    destruct (hasRequestAnimationFrame host); simpl;
      eexists; (split; [reflexivity|]); apply keeps_same; reflexivity.
Qed.

Lemma keeps_requestFrame :
  forall cb w, keeps w (snd (requestFrame host cb w)).
Proof. intros cb w. apply keeps_untouched, AgentFacts.requestFrame_untouched. Qed.

Lemma keeps_ensureWrapper :
  forall w, keeps w (snd (ensureWrapper host document w)).
Proof. intros w. apply keeps_untouched, AgentFacts.ensureWrapper_untouched. Qed.

Lemma keeps_requestDebouncedMeasure :
  forall w, keeps w (requestDebouncedMeasure host w).
Proof.
  intros w. unfold requestDebouncedMeasure.
  eapply keeps_trans;
    [apply keeps_untouched, AgentFacts.scheduleFallback_untouched|].
  destruct (microtask (state (scheduleFallback w))); [apply keeps_refl|].
  unfold queueMicro. destruct (_ || _); apply keeps_same; reflexivity.
Qed.

Lemma measure_then_frame :
  forall cb w0 w,
    keeps w0 w ->
    exists w',
      match scheduleMeasure host document fuel true w with
      | Some w1 => Some (snd (requestFrame host cb w1))
      | None => None
      end = Some w'
      /\ keeps w0 w'.
Proof.
  intros cb w0 w K0.
  destruct (force_keeps w) as (w1 & E & K). rewrite E.
  eexists; split; [reflexivity|].
  eapply keeps_trans; [exact K0|].
  eapply keeps_trans; [exact K | apply keeps_requestFrame].
Qed.

Lemma tryTrackMedia_keeps :
  forall e w,
    exists w', tryTrackMedia host document fuel e w = Some w' /\ keeps w w'.
Proof.
  intros e w. unfold tryTrackMedia.
  destruct (_ && _); [exists w; split; [reflexivity | apply keeps_refl]|].
  set (w0 := if hasWeakSet host then _ else w).
  assert (K0 : keeps w w0).
  { subst w0. destruct (hasWeakSet host);
      [apply keeps_same; reflexivity | apply keeps_refl]. }
  destruct (tagName e).
  - destruct (settled e); [apply measure_then_frame; exact K0|].
    eexists; split; [reflexivity|].
    eapply keeps_trans; [exact K0 | apply keeps_trackLoading].
  - destruct (trackLoading e w0) as [onIframe w1] eqn:T.
    assert (K1 : keeps w w1).
    { pose proof (keeps_trackLoading e w0) as K. rewrite T in K.
      eapply keeps_trans; [exact K0 | exact K]. }
    destruct (settled e); [apply measure_then_frame; exact K1|].
    eexists; split; [reflexivity | exact K1].
  - destruct (settled e); [apply measure_then_frame; exact K0|].
    eexists; split; [reflexivity|].
    eapply keeps_trans; [exact K0 | apply keeps_trackLoading].
  - eexists; split; [reflexivity | exact K0].
Qed.

Lemma scanForMedia_keeps :
  forall elements w,
    exists w', scanForMedia host document fuel elements w = Some w' /\ keeps w w'.
Proof.
  induction elements as [|e rest IH]; intros w; simpl.
  - exists w. split; [reflexivity | apply keeps_refl].
  - destruct (tryTrackMedia_keeps e w) as (w1 & E & K). rewrite E.
    destruct (IH w1) as (w2 & E2 & K2). exists w2. split; [exact E2|].
    eapply keeps_trans; eassumption.
Qed.

Lemma keeps_observeMutations : forall w, keeps w (observeMutations host w).
Proof.
  intros w. unfold observeMutations.
  destruct (negb (hasMutationObserver host)); [apply keeps_refl|].
  destruct (negb _); [apply keeps_refl | apply keeps_observe].
Qed.

Lemma keeps_observeResize : forall w, keeps w (observeResize host document w).
Proof.
  intros w. unfold observeResize.
  destruct (negb (hasResizeObserver host)); [apply keeps_refl|].
  pose proof (keeps_ensureWrapper w) as K.
  destruct (ensureWrapper host document w) as [b w0].
  eapply keeps_trans; [exact K | apply keeps_observe].
Qed.

Lemma keeps_observeViewport : forall w, keeps w (observeViewport host w).
Proof.
  intros w. unfold observeViewport.
  destruct (negb (hasVisualViewport host)); [apply keeps_refl|].
  eapply keeps_trans; apply keeps_addEvent.
Qed.

Lemma keeps_observeFonts : forall w, keeps w (observeFonts host w).
Proof.
  intros w. unfold observeFonts.
  destruct (negb (hasFonts host)); [apply keeps_refl|].
  set (w0 := if fontsAddEventListener host then _ else w).
  assert (K0 : keeps w w0).
  { subst w0. destruct (fontsAddEventListener host); [|apply keeps_refl].
    eapply keeps_trans; apply keeps_addEvent. }
  destruct (fontsReady host); [|exact K0].
  eapply keeps_trans; [exact K0 | apply keeps_same; reflexivity].
Qed.

Lemma bootstrap_keeps :
  forall w,
    exists w', bootstrap host document fuel w = Some w' /\ keeps w w'.
Proof.
  intros w. unfold bootstrap.
  pose proof (keeps_ensureWrapper w) as K0.
  destruct (ensureWrapper host document w) as [b w0]. simpl in K0.
  destruct (scanForMedia_keeps (media host) w0) as (w1 & E1 & K1). rewrite E1.
  match goal with
  | |- context [scheduleMeasure host document fuel true ?x] =>
      destruct (force_keeps x) as (w2 & E2 & K2); rewrite E2;
      assert (K12 : keeps w1 x)
  end.
  { eapply keeps_trans; [|apply keeps_addEvent].
    eapply keeps_trans; [|apply keeps_queueStabilization].
    eapply keeps_trans; [|apply keeps_watchMessages].
    eapply keeps_trans; [|apply keeps_observeGlobalEvents].
    eapply keeps_trans; [|apply keeps_observeFonts].
    eapply keeps_trans; [|apply keeps_observeViewport].
    eapply keeps_trans; [apply keeps_observeMutations | apply keeps_observeResize]. }
  eexists; split; [reflexivity|].
  eapply keeps_trans; [exact K0|].
  eapply keeps_trans; [exact K1|].
  eapply keeps_trans; [exact K12|].
  eapply keeps_trans; [exact K2|].
  apply keeps_untouched, AgentFacts.scheduleFallback_untouched.
Qed.

Lemma debouncedMeasure_keeps :
  forall w,
    exists w', debouncedMeasure host document fuel w = Some w' /\ keeps w w'.
Proof.
  intros w. unfold debouncedMeasure.
  destruct (soft_keeps w) as (w1 & E & K). rewrite E.
  eexists; split; [reflexivity|].
  eapply keeps_trans; [exact K|].
  destruct (timer (state w1)); apply keeps_same; reflexivity.
Qed.

(** Every callback returns, given enough fuel, and keeps what is kept. *)
Lemma invoke_keeps :
  forall cb arg w,
    exists w',
      invoke host document topicIsMessageKey fuel cb arg w = Some w'
      /\ keeps w w'.
Proof.
  intros cb arg w. destruct cb; unfold invoke.
  - destruct (@AgentFacts.runMeasure_returns host document fuel w) as [w' E].
    + unfold ANOMALY_RUN in enough. lia.
    + lia.
    + exists w'. split; [exact E|].
      apply keeps_posting. apply AgentFacts.runMeasure_posting in E. tauto.
  - apply force_keeps.
  - destruct (force_keeps (upd_state (set_fallbackTimer None) w)) as (w1 & E & K).
    rewrite E. eexists; split; [reflexivity|].
    eapply keeps_trans; [|apply keeps_untouched, AgentFacts.scheduleFallback_untouched].
    eapply keeps_trans; [|apply keeps_same; reflexivity].
    eapply keeps_trans; [|exact K]. apply keeps_same; reflexivity.
  - destruct (force_keeps (upd_state (set_timer None) w)) as (w1 & E & K).
    exists w1. split; [exact E|].
    eapply keeps_trans; [|exact K]. apply keeps_same; reflexivity.
  - destruct (debouncedMeasure_keeps (upd_state (set_microtask false) w))
      as (w1 & E & K).
    exists w1. split; [exact E|].
    eapply keeps_trans; [|exact K]. apply keeps_same; reflexivity.
  - eexists; split; [reflexivity | apply keeps_requestDebouncedMeasure].
  - pose proof (keeps_requestDebouncedMeasure w) as K0.
    pose proof (keeps_ensureWrapper (requestDebouncedMeasure host w)) as K1.
    destruct (ensureWrapper host document (requestDebouncedMeasure host w))
      as [b w1]. simpl in K1.
    assert (K : keeps w w1) by (eapply keeps_trans; eassumption).
    destruct arg as [ | data | elements];
      try (exists w1; split; [reflexivity | exact K]).
    destruct (scanForMedia_keeps elements w1) as (w2 & E & K2).
    exists w2. split; [exact E | eapply keeps_trans; eassumption].
  - apply measure_then_frame.
    eapply keeps_trans; [apply keeps_removers | apply keeps_clearLoading].
  - destruct arg as [ | [x | s | b | | ] | elements];
      try (exists w; split; [reflexivity | apply keeps_refl]).
    destruct (String.eqb s EmptyString);
      [exists w; split; [reflexivity | apply keeps_refl]|].
    destruct (String.eqb s MESSAGE_KEY); [apply force_keeps|].
    destruct (topicIsMessageKey s); [apply force_keeps|].
    exists w; split; [reflexivity | apply keeps_refl].
  - eexists; split; [reflexivity | apply keeps_cleanupAll].
  - destruct (isReady (readyState w));
      [|exists w; split; [reflexivity | apply keeps_refl]].
    destruct (bootstrap_keeps
                (fold_left (fun w id => removeEventListener id w) removers w))
      as (w1 & E & K).
    exists w1. split; [exact E|].
    eapply keeps_trans; [apply keeps_removers | exact K].
Qed.

Lemma play_keeps :
  forall events w,
    exists w',
      play host document topicIsMessageKey fuel events w = Some w'
      /\ keeps w w'.
Proof.
  induction events as [|[cb arg] rest IH]; intros w; simpl.
  - exists w. split; [reflexivity | apply keeps_refl].
  - destruct (invoke_keeps cb arg w) as (w1 & E & K). rewrite E.
    destruct (IH w1) as (w2 & E2 & K2).
    exists w2. split; [exact E2 | eapply keeps_trans; eassumption].
Qed.

(** X16 (teardown).  Injected into a document that is ready, the script
    registers every listener and connects every observer together with its
    undoing, and every callback the environment may invoke afterwards keeps
    it so: whatever has happened since, [destroy] ([cleanupAll]) leaves no
    listener and no observer of the agent behind, cancels the scheduled
    frame and both timers, and gives up the session. *)
Theorem destroy_releases_everything :
  forall (r : ReadyState) (c : Channel) (events : list (Callback * Payload)),
    isReady r = true ->
    exists w w',
      install host document fuel (pristine r c) = Some w
      /\ play host document topicIsMessageKey fuel events w = Some w'
      /\ listeners (cleanupAll host w') = []
      /\ observers (cleanupAll host w') = []
      /\ cleanup (state (cleanupAll host w')) = []
      /\ frame (state (cleanupAll host w')) = None
      /\ timer (state (cleanupAll host w')) = None
      /\ fallbackTimer (state (cleanupAll host w')) = None
      /\ globalKey (cleanupAll host w') = false.
Proof.
  intros r c events Hr.
  unfold install, ensureDomReady. simpl. rewrite Hr.
  destruct (bootstrap_keeps (set_session initial_state true (pristine r c)))
    as (w & E & [KA _]).
  destruct (play_keeps events w) as (w' & E' & [KA' _]).
  exists w, w'. split; [exact E|]. split; [exact E'|].
  assert (A : accounted w').
  { apply KA', KA. split; intros x []. }
  destruct (cleanupAll_releases host A) as [L O].
  destruct (cleanupAll_state host w') as (F & T & B & C & _ & G & _).
  repeat split; assumption.
Qed.

(** X17 (the in-flight counter under every callback).  From a counter that
    is not negative, whatever callbacks the environment invokes, in whatever
    order and with whatever payloads, each of them returns and the counter
    is not negative afterwards. *)
Theorem callbacks_keep_the_counter_nonnegative :
  forall (events : list (Callback * Payload)) (w : World),
    (0 <= pendingLoads (state w))%Z ->
    exists w',
      play host document topicIsMessageKey fuel events w = Some w'
      /\ (0 <= pendingLoads (state w'))%Z.
Proof.
  intros events w H.
  destruct (play_keeps events w) as (w' & E & [_ P]).
  exists w'. split; [exact E | exact (P H)].
Qed.

(** *** Media *)

Lemma resetFallback_media :
  forall w, trackedMedia (resetFallback w) = trackedMedia w.
Proof.
  intros w. unfold resetFallback, scheduleFallback. simpl.
  destruct (fallbackTimer (state w)) eqn:F; simpl; rewrite ?F; reflexivity.
Qed.

Lemma cancel_scheduled_media :
  forall w, trackedMedia (cancel_scheduled host w) = trackedMedia w.
Proof.
  intros w. unfold cancel_scheduled, cancelFrame.
  destruct (hasCancelAnimationFrame host);
    destruct (frame (state w)) eqn:F; simpl;
    destruct (timer (state w)) eqn:T; simpl; rewrite ?F, ?T; reflexivity.
Qed.

Lemma measureHeight_media :
  forall w, trackedMedia (snd (measureHeight host document w)) = trackedMedia w.
Proof.
  intros w. unfold measureHeight, ensureWrapper.
  destruct (_ && _); [reflexivity|]. destruct (negb _); reflexivity.
Qed.

Lemma deliver_media :
  forall sanitized w, trackedMedia (deliver sanitized w) = trackedMedia w.
Proof.
  intros sanitized w. unfold deliver, postMessage.
  destruct (strict_eq _ _); [reflexivity|]. simpl.
  destruct (channel w); reflexivity.
Qed.

Lemma postHeight_with_media :
  forall run : World -> option World,
    (forall w w', run w = Some w' -> trackedMedia w' = trackedMedia w) ->
    forall height w w',
      postHeight_with host run height w = Some w' ->
      trackedMedia w' = trackedMedia w.
Proof.
  intros run Hrun height w w'. unfold postHeight_with.
  destruct (_ || _); [intros E; injection E as <-; reflexivity|].
  destruct (_ || _); [intros E; injection E as <-; reflexivity|].
  destruct (gt _ _).
  - destruct (Nat.ltb _ _).
    + rewrite AgentFacts.scheduleMeasure_force. intros E. apply Hrun in E.
      rewrite E, cancel_scheduled_media. reflexivity.
    + intros E; injection E as <-. rewrite deliver_media. reflexivity.
  - intros E; injection E as <-. rewrite deliver_media. reflexivity.
Qed.

Lemma runMeasure_media :
  forall n w w',
    runMeasure host document n w = Some w' -> trackedMedia w' = trackedMedia w.
Proof.
  induction n as [|n IH]; intros w w'; simpl; [discriminate|].
  pose proof (measureHeight_media (upd_state (set_frame None) w)) as M.
  destruct (measureHeight host document (upd_state (set_frame None) w))
    as [height w1]. simpl in M.
  destruct (truthy height).
  - destruct (postHeight_with host (runMeasure host document n) height w1)
      as [w2|] eqn:P; [|discriminate].
    intros E; injection E as <-.
    rewrite resetFallback_media.
    rewrite (@postHeight_with_media (runMeasure host document n) IH height w1 w2 P).
    exact M.
  - intros E; injection E as <-. rewrite resetFallback_media. exact M.
Qed.

Lemma addEvents_media :
  forall target types handler w,
    trackedMedia (addEvents target types handler w) = trackedMedia w.
Proof.
  intros target types handler.
  induction types as [|t ts IH]; intros w; simpl; [reflexivity|].
  rewrite IH. reflexivity.
Qed.

Lemma trackLoading_media :
  forall e w, trackedMedia (snd (trackLoading e w)) = trackedMedia w.
Proof.
  intros e w. unfold trackLoading. simpl. rewrite addEvents_media.
  unfold markLoading, scheduleFallback. simpl.
  destruct (fallbackTimer (state w)); reflexivity.
Qed.

Lemma measure_then_frame_media :
  forall cb w w',
    match scheduleMeasure host document fuel true w with
    | Some w1 => Some (snd (requestFrame host cb w1))
    | None => None
    end = Some w' ->
    trackedMedia w' = trackedMedia w.
Proof.
  intros cb w w'. unfold scheduleMeasure.
  rewrite AgentFacts.scheduleMeasure_force.
  destruct (runMeasure host document fuel (cancel_scheduled host w))
    as [w1|] eqn:R; [|discriminate].
  intros E; injection E as <-.
  apply runMeasure_media in R. rewrite cancel_scheduled_media in R.
  rewrite <- R. unfold requestFrame.
  destruct (hasRequestAnimationFrame host); reflexivity.
Qed.

(** With a [WeakSet], an element either was tracked already, and nothing
    happens, or it is tracked from now on. *)
Lemma tryTrackMedia_tracks :
  forall e w w',
    hasWeakSet host = true ->
    tryTrackMedia host document fuel e w = Some w' ->
    (w' = w /\ existsb (Nat.eqb (eid e)) (trackedMedia w) = true)
    \/ trackedMedia w' = eid e :: trackedMedia w.
Proof.
  intros e w w' HW. unfold tryTrackMedia. rewrite HW. cbn [andb].
  destruct (existsb (Nat.eqb (eid e)) (trackedMedia w)) eqn:X.
  { intros E; injection E as <-. left. split; reflexivity. }
  intros E. right.
  destruct (tagName e).
  - destruct (settled e).
    + apply measure_then_frame_media in E. exact E.
    + injection E as <-.
      exact (trackLoading_media e (set_trackedMedia (eid e :: trackedMedia w) w)).
  - pose proof (trackLoading_media e (set_trackedMedia (eid e :: trackedMedia w) w))
      as T.
    destruct (trackLoading e (set_trackedMedia (eid e :: trackedMedia w) w))
      as [onIframe w1]. simpl in T.
    destruct (settled e).
    + apply measure_then_frame_media in E. rewrite E. exact T.
    + injection E as <-. exact T.
  - destruct (settled e).
    + apply measure_then_frame_media in E. exact E.
    + injection E as <-.
      exact (trackLoading_media e (set_trackedMedia (eid e :: trackedMedia w) w)).
  - injection E as <-. reflexivity.
Qed.

Lemma tryTrackMedia_grows :
  forall e w w',
    hasWeakSet host = true ->
    tryTrackMedia host document fuel e w = Some w' ->
    existsb (Nat.eqb (eid e)) (trackedMedia w') = true
    /\ forall x, existsb (Nat.eqb x) (trackedMedia w) = true ->
                 existsb (Nat.eqb x) (trackedMedia w') = true.
Proof.
  intros e w w' HW E.
  destruct (@tryTrackMedia_tracks e w w' HW E) as [[-> X] | T].
  - split; [exact X | intros x H; exact H].
  - rewrite T. simpl. rewrite Nat.eqb_refl. split; [reflexivity|].
    intros x H. rewrite H. apply orb_true_r.
Qed.

Lemma scanForMedia_tracks :
  forall elements w w',
    hasWeakSet host = true ->
    scanForMedia host document fuel elements w = Some w' ->
    Forall (fun e => existsb (Nat.eqb (eid e)) (trackedMedia w') = true) elements
    /\ forall x, existsb (Nat.eqb x) (trackedMedia w) = true ->
                 existsb (Nat.eqb x) (trackedMedia w') = true.
Proof.
  induction elements as [|e rest IH]; intros w w' HW; simpl.
  - intros E; injection E as <-. split; [constructor | intros x H; exact H].
  - destruct (tryTrackMedia host document fuel e w) as [w1|] eqn:T; [|discriminate].
    intros E.
    destruct (@tryTrackMedia_grows e w w1 HW T) as [X G].
    destruct (IH w1 w' HW E) as [F G'].
    split; [constructor; [apply G'; exact X | exact F]|].
    intros x H. apply G', G, H.
Qed.

Lemma scanForMedia_fixed :
  forall elements w,
    hasWeakSet host = true ->
    Forall (fun e => existsb (Nat.eqb (eid e)) (trackedMedia w) = true) elements ->
    scanForMedia host document fuel elements w = Some w.
Proof.
  induction elements as [|e rest IH]; intros w HW F; simpl; [reflexivity|].
  inversion F as [|? ? X F']; subst.
  unfold tryTrackMedia at 1. rewrite HW, X. cbn [andb].
  apply IH; assumption.
Qed.

Lemma scanForMedia_app :
  forall first second w,
    scanForMedia host document fuel (first ++ second) w
    = match scanForMedia host document fuel first w with
      | Some w1 => scanForMedia host document fuel second w1
      | None => None
      end.
Proof.
  induction first as [|e rest IH]; intros second w; simpl; [reflexivity|].
  destruct (tryTrackMedia host document fuel e w); [apply IH | reflexivity].
Qed.

(** X18 (media are tracked once).  In a host with [WeakSet], a scan for
    media returns, and scanning the same elements again, an element listed
    twice included, changes nothing: no second listener, no second count of
    a pending load, no further measurement. *)
Theorem media_are_tracked_once :
  forall (elements : list Element) (w : World),
    hasWeakSet host = true ->
    exists w1,
      scanForMedia host document fuel elements w = Some w1
      /\ scanForMedia host document fuel elements w1 = Some w1
      /\ scanForMedia host document fuel (elements ++ elements) w = Some w1.
Proof.
  intros elements w HW.
  destruct (scanForMedia_keeps elements w) as (w1 & E & _).
  destruct (@scanForMedia_tracks elements w w1 HW E) as [F _].
  pose proof (@scanForMedia_fixed elements w1 HW F) as E1.
  exists w1. split; [exact E|]. split; [exact E1|].
  rewrite scanForMedia_app, E. exact E1.
Qed.

(** *** A document that keeps its height *)

Lemma strict_eq_refl : forall h, isFinite h = true -> strict_eq h h = true.
Proof.
  intros [ | | q | ] H; try discriminate. simpl.
  apply Qeq_bool_iff. reflexivity.
Qed.

Section Steady.

Variable h : number.
Hypothesis steady : forall w, fst (measureHeight host document w) = h.
Hypothesis plain : postable h = true.
Hypothesis plausible : implausible h = false.

Lemma steady_run :
  forall n w,
    (1 <= n)%nat -> channel w = Working ->
    exists w',
      runMeasure host document n w = Some w'
      /\ channel w' = Working
      /\ posted w' = (if strict_eq (lastHeight (state w)) h
                      then posted w else (posted w ++ [h])%list)
      /\ strict_eq (lastHeight (state w')) h = true.
Proof.
  intros [|n] w Hn Hc; [lia|]. simpl.
  assert (Hw : Math_ceil h = h).
  { rewrite <- (steady w). apply measureHeight_whole. }
  assert (Hf : isFinite h = true).
  { unfold postable in plain. apply andb_prop in plain. tauto. }
  pose proof (steady (upd_state (set_frame None) w)) as Hh.
  pose proof (AgentFacts.measureHeight_effect host document
                (upd_state (set_frame None) w)) as M.
  destruct (measureHeight host document (upd_state (set_frame None) w))
    as [h' w1]. simpl in Hh, M. subst h'.
  destruct M as (_ & M2 & _ & _ & M5 & _ & _ & M8 & _).
  destruct (AgentFacts.postable_guards h plain) as [G1 _].
  apply orb_false_iff in G1 as [G1 _]. apply negb_false_iff in G1. rewrite G1.
  destruct (AgentFacts.postHeight_plausible host (runMeasure host document n)
              h w1 plausible) as (w2 & E & C & L & P).
  rewrite E. eexists; split; [reflexivity|].
  destruct (AgentFacts.resetFallback_untouched w2)
    as (_ & U2 & _ & _ & U5 & _ & _ & U8 & _).
  rewrite U2, U5, U8, C, L, P, M2, M5, M8, Hw, plain, Hc. simpl.
  split; [reflexivity|].
  destruct (strict_eq (lastHeight (state w)) h) eqn:S; simpl.
  - split; [reflexivity | exact S].
  - split; [reflexivity | apply strict_eq_refl; exact Hf].
Qed.

Lemma steady_force :
  forall w,
    channel w = Working ->
    exists w',
      scheduleMeasure host document fuel true w = Some w'
      /\ channel w' = Working
      /\ posted w' = (if strict_eq (lastHeight (state w)) h
                      then posted w else (posted w ++ [h])%list)
      /\ strict_eq (lastHeight (state w')) h = true.
Proof.
  intros w Hc. unfold scheduleMeasure. rewrite AgentFacts.scheduleMeasure_force.
  destruct (AgentFacts.cancel_scheduled_untouched host w)
    as (_ & U2 & _ & _ & U5 & _ & _ & U8 & _).
  destruct (@steady_run fuel (cancel_scheduled host w)) as (w' & E & C & P & L).
  - unfold ANOMALY_RUN in enough. lia.
  - rewrite U2. exact Hc.
  - exists w'. rewrite U5, U8 in P. repeat split; assumption.
Qed.

Lemma steady_rest :
  forall n w,
    channel w = Working -> strict_eq (lastHeight (state w)) h = true ->
    exists w',
      remeasure host document fuel n w = Some w'
      /\ posted w' = posted w
      /\ strict_eq (lastHeight (state w')) h = true.
Proof.
  induction n as [|n IH]; intros w Hc Hl; cbn [remeasure].
  - exists w. repeat split. exact Hl.
  - destruct (steady_force w Hc) as (w1 & E & C & P & L). rewrite E.
    rewrite Hl in P.
    destruct (IH w1 C L) as (w2 & E2 & P2 & L2).
    exists w2. split; [exact E2|]. split; [congruence | exact L2].
Qed.

End Steady.

(** X19 (a document that keeps its height).  When the document measures
    the same postable height [h], not above the anomaly limit, at every
    measurement, then however many forced measurements follow one another
    over a working channel, [h] is posted once, by the first of them, and
    not at all if it was the height handed over last. *)
Theorem steady_document_posts_once :
  forall (h : number) (n : nat) (w : World),
    (forall w0, fst (measureHeight host document w0) = h) ->
    postable h = true -> implausible h = false -> channel w = Working ->
    exists w',
      remeasure host document fuel (S n) w = Some w'
      /\ posted w' = (if strict_eq (lastHeight (state w)) h
                      then posted w else (posted w ++ [h])%list)
      /\ strict_eq (lastHeight (state w')) h = true.
Proof.
  intros h n w Hs Hp Hi Hc. cbn [remeasure].
  destruct (steady_force Hs Hp Hi w Hc) as (w1 & E & C & P & L). rewrite E.
  destruct (steady_rest Hs Hp Hi n w1 C L) as (w2 & E2 & P2 & L2).
  exists w2. split; [exact E2|]. split; [congruence | exact L2].
Qed.

End Callbacks.

(** *** The statements above on the scenarios *)

Import AgentScenarios.

Lemma fallback_rearms_at_initial_delay_witness :
  (ANOMALY_RUN <= 3)%nat
  /\ exists (w' : World) (id : nat) (rest : list (nat * Z * Callback)),
       invoke browser tall (fun _ => false) 3 CbFallback NoPayload
         (pristine Complete Working) = Some w'
       /\ fallbackDelay (state w') = 900%Z
       /\ fallbackTimer (state w') = Some id
       /\ timers w' = (rest ++ [(id, INITIAL_FALLBACK_MS, CbFallback)])%list.
Proof.
  assert (H : (ANOMALY_RUN <= 3)%nat) by (unfold ANOMALY_RUN; lia).
  split; [exact H|].
  exact (@fallback_rearms_at_initial_delay browser tall (fun _ => false) 3
           NoPayload (pristine Complete Working) H).
Defined.

Lemma destroy_releases_everything_witness :
  ((ANOMALY_RUN <= 3)%nat /\ isReady Complete = true)
  /\ exists w w',
       install browser steady 3 (pristine Complete Working) = Some w
       /\ play browser steady (fun _ => false) 3
            [(CbMutations, AddedNodes [mkElement 9 VIDEO false]);
             (CbSettled [1; 2], NoPayload); (CbFallback, NoPayload)] w = Some w'
       /\ listeners (cleanupAll browser w') = []
       /\ observers (cleanupAll browser w') = []
       /\ cleanup (state (cleanupAll browser w')) = []
       /\ frame (state (cleanupAll browser w')) = None
       /\ timer (state (cleanupAll browser w')) = None
       /\ fallbackTimer (state (cleanupAll browser w')) = None
       /\ globalKey (cleanupAll browser w') = false.
Proof.
  assert (H1 : (ANOMALY_RUN <= 3)%nat) by (unfold ANOMALY_RUN; lia).
  assert (H2 : isReady Complete = true) by reflexivity.
  split; [exact (conj H1 H2)|].
  exact (@destroy_releases_everything browser steady (fun _ => false) 3 H1
           Complete Working
           [(CbMutations, AddedNodes [mkElement 9 VIDEO false]);
            (CbSettled [1; 2], NoPayload); (CbFallback, NoPayload)] H2).
Defined.

Lemma media_are_tracked_once_witness :
  ((ANOMALY_RUN <= 3)%nat /\ hasWeakSet browser = true)
  /\ exists w1,
       scanForMedia browser steady 3 (media browser) (pristine Complete Working)
       = Some w1
       /\ scanForMedia browser steady 3 (media browser) w1 = Some w1
       /\ scanForMedia browser steady 3 (media browser ++ media browser)
            (pristine Complete Working) = Some w1.
Proof.
  assert (H1 : (ANOMALY_RUN <= 3)%nat) by (unfold ANOMALY_RUN; lia).
  assert (H2 : hasWeakSet browser = true) by reflexivity.
  split; [exact (conj H1 H2)|].
  exact (@media_are_tracked_once browser steady 3 H1 (media browser)
           (pristine Complete Working) H2).
Defined.

Lemma callbacks_keep_the_counter_nonnegative_witness :
  ((ANOMALY_RUN <= 3)%nat
   /\ (0 <= pendingLoads (state (pristine Complete Working)))%Z)
  /\ exists w',
       play browser steady (fun _ => false) 3
         [(CbSettled [], NoPayload);
          (CbMutations, AddedNodes [mkElement 9 VIDEO false]);
          (CbSettled [0; 1; 2], NoPayload); (CbSettled [], NoPayload)]
         (pristine Complete Working) = Some w'
       /\ (0 <= pendingLoads (state w'))%Z.
Proof.
  assert (H1 : (ANOMALY_RUN <= 3)%nat) by (unfold ANOMALY_RUN; lia).
  assert (H2 : (0 <= pendingLoads (state (pristine Complete Working)))%Z)
    by (simpl; lia).
  split; [exact (conj H1 H2)|].
  exact (@callbacks_keep_the_counter_nonnegative browser steady (fun _ => false) 3
           H1 _ (pristine Complete Working) H2).
Defined.

Lemma steady_document_posts_once_witness :
  ((ANOMALY_RUN <= 3)%nat
   /\ (forall w0, fst (measureHeight browser steady w0) = num 300)
   /\ postable (num 300) = true /\ implausible (num 300) = false
   /\ channel (pristine Complete Working) = Working)
  /\ exists w',
       remeasure browser steady 3 3 (pristine Complete Working) = Some w'
       /\ posted w' = [num 300]
       /\ strict_eq (lastHeight (state w')) (num 300) = true.
Proof.
  assert (H1 : (ANOMALY_RUN <= 3)%nat) by (unfold ANOMALY_RUN; lia).
  assert (H2 : forall w0, fst (measureHeight browser steady w0) = num 300).
  { intros w0. unfold measureHeight, ensureWrapper.
    destruct (wrapper (state w0)); reflexivity. }
  assert (H3 : postable (num 300) = true) by reflexivity.
  assert (H4 : implausible (num 300) = false) by reflexivity.
  assert (H5 : channel (pristine Complete Working) = Working) by reflexivity.
  split; [exact (conj H1 (conj H2 (conj H3 (conj H4 H5))))|].
  exact (@steady_document_posts_once browser steady 3 H1 (num 300) 2
           (pristine Complete Working) H2 H3 H4 H5).
Defined.


End AgentLaws.

(** ** More on the flag-guarded bridge *)
Module LegacyBridgeLaws.

Import LegacyBridge.

Lemma filter_older :
  forall (id : nat) (ts : list (nat * Z * TimerCallback)),
    Forall (fun t => (fst (fst t) < id)%nat) ts ->
    filter (fun t => negb (Nat.eqb (fst (fst t)) id)) ts = ts.
Proof.
  intros id ts. induction 1 as [|t ts Ht _ IH]; simpl; [reflexivity|].
  assert (E : Nat.eqb (fst (fst t)) id = false) by (apply Nat.eqb_neq; lia).
  rewrite E. simpl. rewrite IH. reflexivity.
Qed.

Lemma filter_newest :
  forall (id : nat) (ts : list (nat * Z * TimerCallback)) (cb : TimerCallback),
    Forall (fun t => (fst (fst t) < id)%nat) ts ->
    filter (fun t => negb (Nat.eqb (fst (fst t)) id))
      (ts ++ [(id, DEBOUNCE_DELAY_MS, cb)])
    = ts.
Proof.
  intros id ts cb F. rewrite filter_app, (@filter_older id ts F). simpl.
  rewrite Nat.eqb_refl. simpl. apply app_nil_r.
Qed.

Lemma older_still :
  forall (a b : nat) (ts : list (nat * Z * TimerCallback)),
    (a <= b)%nat ->
    Forall (fun t => (fst (fst t) < a)%nat) ts ->
    Forall (fun t => (fst (fst t) < b)%nat) ts.
Proof.
  intros a b ts L F. eapply Forall_impl; [|exact F].
  intros t H. simpl in H. lia.
Qed.

Lemma scheduleHeightUpdate_while_pending :
  forall (v : Window) (t : nat),
    updatePending v = true -> timeoutHandle v = Some t ->
    frames (scheduleHeightUpdate v) = frames v
    /\ timers (scheduleHeightUpdate v)
       = (filter (fun x => negb (Nat.eqb (fst (fst x)) t)) (timers v)
          ++ [(nextHandle v, DEBOUNCE_DELAY_MS, Debounced)])%list
    /\ rafHandle (scheduleHeightUpdate v) = rafHandle v
    /\ timeoutHandle (scheduleHeightUpdate v) = Some (nextHandle v)
    /\ updatePending (scheduleHeightUpdate v) = true
    /\ nextHandle (scheduleHeightUpdate v) = S (nextHandle v)
    /\ observers (scheduleHeightUpdate v) = observers v
    /\ listeners (scheduleHeightUpdate v) = listeners v.
Proof.
  intros v t P T. unfold scheduleHeightUpdate. rewrite P, T. simpl.
  rewrite P. repeat split.
Qed.

(** X20 (bursts in the flag-guarded bridge).  However often
    [scheduleHeightUpdate] is called in a row from an idle window (handles
    are positive numbers), it requests one frame in all and leaves one
    debounce timer pending, the newest: each call clears the timer of the
    call before.  It registers no listener and no observer. *)
Theorem scheduleHeightUpdate_coalesces :
  forall (n : nat) (w : Window),
    updatePending w = false -> rafHandle w = None -> timeoutHandle w = None ->
    (1 <= nextHandle w)%nat ->
    Forall (fun t => (fst (fst t) < nextHandle w)%nat) (timers w) ->
    let w' := Nat.iter (S n) scheduleHeightUpdate w in
    frames w' = (frames w ++ [(nextHandle w, UpdateHeight)])%list
    /\ timers w'
       = (timers w ++ [(nextHandle w + S n, DEBOUNCE_DELAY_MS, Debounced)])%list
    /\ rafHandle w' = Some (nextHandle w)
    /\ timeoutHandle w' = Some (nextHandle w + S n)
    /\ updatePending w' = true
    /\ nextHandle w' = (nextHandle w + S (S n))%nat
    /\ observers w' = observers w /\ listeners w' = listeners w.
Proof.
  intros n w P R T H1 F. cbv zeta. induction n as [|n IH].
  - simpl. unfold scheduleHeightUpdate, runHeightUpdate. rewrite P. simpl.
    rewrite R, T. simpl.
    replace (nextHandle w + 1)%nat with (S (nextHandle w)) by lia.
    replace (nextHandle w + 2)%nat with (S (S (nextHandle w))) by lia.
    repeat split.
  - change (Nat.iter (S (S n)) scheduleHeightUpdate w)
      with (scheduleHeightUpdate (Nat.iter (S n) scheduleHeightUpdate w)).
    destruct IH as (I1 & I2 & I3 & I4 & I5 & I6 & I7 & I8).
    generalize dependent (Nat.iter (S n) scheduleHeightUpdate w).
    intros v I1 I2 I3 I4 I5 I6 I7 I8.
    destruct (@scheduleHeightUpdate_while_pending v (nextHandle w + S n) I5 I4)
      as (S1 & S2 & S3 & S4 & S5 & S6 & S7 & S8).
    rewrite S1, S2, S3, S4, S5, S6, S7, S8, I1, I2, I3, I6, I7, I8.
    rewrite filter_newest
      by exact (@older_still (nextHandle w) (nextHandle w + S n) (timers w)
                  (Nat.le_add_r _ _) F).
    repeat split; repeat f_equal; lia.
Qed.

Lemma scheduleHeightUpdate_coalesces_witness :
  (updatePending pristine = false /\ rafHandle pristine = None
   /\ timeoutHandle pristine = None /\ (1 <= nextHandle pristine)%nat
   /\ Forall (fun t => (fst (fst t) < nextHandle pristine)%nat) (timers pristine))
  /\ frames (Nat.iter 3 scheduleHeightUpdate pristine) = [(1, UpdateHeight)]
  /\ timers (Nat.iter 3 scheduleHeightUpdate pristine)
     = [(4, DEBOUNCE_DELAY_MS, Debounced)].
Proof.
  assert (H1 : updatePending pristine = false) by reflexivity.
  assert (H2 : rafHandle pristine = None) by reflexivity.
  assert (H3 : timeoutHandle pristine = None) by reflexivity.
  assert (H4 : (1 <= nextHandle pristine)%nat) by (simpl; lia).
  assert (H5 : Forall (fun t => (fst (fst t) < nextHandle pristine)%nat)
                 (timers pristine)) by constructor.
  destruct (@scheduleHeightUpdate_coalesces 2 pristine H1 H2 H3 H4 H5)
    as (C1 & C2 & _).
  split; [exact (conj H1 (conj H2 (conj H3 (conj H4 H5))))|].
  split; [exact C1 | exact C2].
Defined.

End LegacyBridgeLaws.
